(** * lidarSuit: wind and turbulence retrievals

  A shallow embedding of [lidarSuit/wind_prop_retrieval_6_beam.py] and
  [lidarSuit/windPropRetrieval.py].

  Arithmetic is exact: a float is a real number ([R]) and a float that may
  be missing (NaN) is an [option R], [None] standing for NaN.  Python
  exceptions are the [Raise] results of the [result] type. *)

From Stdlib Require Import String.
From Stdlib Require Import Reals Lra Lia List ZArith Bool.
Import ListNotations.
Open Scope R_scope.

Set Implicit Arguments.

(** ** Exceptions *)

Inductive error : Type :=
| TypeError
| ValueError
| IndexError
| AttributeError
| LinAlgError
| InvalidIndexError.

Inductive result (A : Type) : Type :=
| Ok (a : A)
| Raise (e : error).

Arguments Ok {A} a.
Arguments Raise {A} e.

Definition bind {A B : Type} (x : result A) (f : A -> result B) : result B :=
match x with
| Ok a => f a
| Raise e => Raise e
end.

Notation "'do' x <- e ; k" := (bind e (fun x => k))
(at level 10, x name, e at level 100, k at level 200).

(** ** numpy *)

Module np.

Definition deg2rad (x : R) : R := x * (PI / 180).
Definition rad2deg (x : R) : R := x * (180 / PI).

(** [np.arctan2 y x]: the angle of the point [(x, y)], in (-PI, PI]. *)
Definition arctan2 (y x : R) : R :=
  if Rlt_dec 0 x then atan (y / x)
  else if Rlt_dec x 0 then
    if Rle_dec 0 y then atan (y / x) + PI else atan (y / x) - PI
  else if Rlt_dec 0 y then PI / 2
  else if Rlt_dec y 0 then - (PI / 2)
  else 0.

(** NaN-propagating arithmetic on floats that may be missing. *)
Definition lift1 (f : R -> R) (x : option R) : option R :=
  match x with Some a => Some (f a) | None => None end.

Definition lift2 (f : R -> R -> R) (x y : option R) : option R :=
  match x, y with
  | Some a, Some b => Some (f a b)
  | _, _ => None
  end.

(** Sum of a list of reals. *)
Definition sum (l : list R) : R := fold_right Rplus 0 l.

(** Sum of floats, NaN as soon as one of them is. *)
Definition nansum_strict (l : list (option R)) : option R :=
  fold_right (lift2 Rplus) (Some 0) l.

(** ** Square matrices as lists of rows *)

Definition matrix : Type := list (list R).

Definition entry (M : matrix) (i j : nat) : R := nth j (nth i M []) 0.

Fixpoint remove_nth {A : Type} (n : nat) (l : list A) : list A :=
  match l, n with
  | [], _ => []
  | _ :: t, O => t
  | h :: t, S n' => h :: remove_nth n' t
  end.

Definition minor (M : matrix) (i j : nat) : matrix :=
  map (remove_nth j) (remove_nth i M).

Definition sign (k : nat) : R := if Nat.even k then 1 else -1.

(** Determinant of the leading [n] x [n] matrix, by expansion along the
    first row. *)
Fixpoint det_n (n : nat) (M : matrix) : R :=
  match n with
  | O => 1
  | S n' =>
      sum (map (fun j => sign j * entry M 0 j * det_n n' (minor M 0 j))
               (seq 0 n))
  end.

Definition det (M : matrix) : R := det_n (length M) M.

Definition cofactor (M : matrix) (i j : nat) : R :=
  sign (i + j) * det_n (length M - 1) (minor M i j).

(** The inverse by cofactors: entry (i, j) is C_ji / det M. *)
Definition inverse (M : matrix) : matrix :=
  let n := length M in
  map (fun i => map (fun j => cofactor M j i / det M) (seq 0 n)) (seq 0 n).

(** [np.linalg.inv]: raises LinAlgError on a singular matrix.  The test is
    the exact one: in floating point a matrix whose determinant is 0 only
    through exact values of sines and cosines (an elevation of 90 degrees,
    azimuths 360 degrees apart) is not singular to the last bit, and numpy
    returns an inverse of it; what is proved of an inverse that is
    returned is proved for the regular matrices. *)
Definition linalg_inv (M : matrix) : result matrix :=
  if Req_dec_T (det M) 0 then Raise LinAlgError else Ok (inverse M).

(** [np.matmul] of a real matrix with a column of floats that may be NaN:
    every output entry is a sum over the whole column. *)
Definition matvec (M : matrix) (v : list (option R)) : list (option R) :=
  map (fun row =>
         nansum_strict
           (map (fun '(a, x) => lift1 (Rmult a) x) (combine row v)))
      M.

End np.

(** ** xarray *)

Module xr.

Definition mapi {A B : Type} (f : nat -> A -> B) (l : list A) : list B :=
  map (fun '(i, a) => f i a) (combine (seq 0 (length l)) l).

(** [l[i]] for a position that may fall outside the list. *)
Definition getz {A : Type} (l : list A) (d : A) (i : Z) : A :=
  if (i <? 0)%Z then d else nth (Z.to_nat i) l d.

(** The samples of a window that are not NaN. *)
Definition present (l : list (option R)) : list R :=
  flat_map (fun o => match o with Some x => [x] | None => [] end) l.

Definition mean (l : list R) : R := np.sum l / INR (length l).

(** Variance of the samples, normalised by their number (ddof = 0). *)
Definition var (l : list R) : R :=
  mean (map (fun x => (x - mean l) ^ 2) l).

(** [rolling(time=w, center=True)]: the window labelled [i] holds the [w]
    positions i - w // 2, ..., i - w // 2 + w - 1; the positions before the
    first and after the last sample are padded with NaN. *)
Definition window (w : Z) (xs : list (option R)) (i : nat)
  : list (option R) :=
  map (fun k => getz xs None (Z.of_nat i - w / 2 + Z.of_nat k)%Z)
      (seq 0 (Z.to_nat w)).

(** The rolling variance at one label: a value when at least [min_periods]
    samples of the window are present, NaN otherwise. *)
Definition rolling_var_at (w min_periods : Z) (xs : list (option R))
  (i : nat) : option R :=
  let ys := present (window w xs i) in
  if (min_periods <=? Z.of_nat (length ys))%Z then Some (var ys) else None.

Definition rolling_var (w min_periods : Z) (xs : list (option R))
  : list (option R) :=
  map (rolling_var_at w min_periods xs) (seq 0 (length xs)).

(** The checks of [DataArray.rolling]. *)
Definition rolling_check (w min_periods : Z) : result unit :=
  if (w <=? 0)%Z then Raise ValueError
  else if (min_periods <=? 0)%Z then Raise ValueError
  else Ok tt.

(** The time series at range gate [r] of an array indexed [time][range]. *)
Definition series2 (a : list (list (option R))) (r : nat)
  : list (option R) :=
  map (fun row => nth r row None) a.

(** The time series at gate [r] and azimuth [z] of an array indexed
    [time][range][azm]. *)
Definition series3 (a : list (list (list (option R)))) (r z : nat)
  : list (option R) :=
  map (fun plane => nth z (nth r plane []) None) a.

(** The rolling variance along the time axis. *)
Definition rolling_var2 (w min_periods : Z) (a : list (list (option R)))
  : list (list (option R)) :=
  mapi (fun t row =>
          mapi (fun r _ => rolling_var_at w min_periods (series2 a r) t) row)
       a.

Definition rolling_var3 (w min_periods : Z)
  (a : list (list (list (option R)))) : list (list (list (option R))) :=
  mapi (fun t plane =>
          mapi (fun r row =>
                  mapi (fun z _ =>
                          rolling_var_at w min_periods (series3 a r z) t)
                       row)
               plane)
       a.

(** [closer later t a b]: the label [a] is nearer to [t] than [b]; a tie goes
    to the later label when [later] holds and to the earlier one otherwise. *)
Definition closer (later : bool) (t a b : Z) : bool :=
  let da := Z.abs (t - a) in
  let db := Z.abs (t - b) in
  ((da <? db) || ((da =? db) && (if later then b <=? a else a <=? b)))%Z.

Fixpoint nearest {A : Type} (later : bool) (t : Z) (src : list (Z * A))
  : option (Z * A) :=
  match src with
  | [] => None
  | (ti, v) :: rest =>
      match nearest later t rest with
      | None => Some (ti, v)
      | Some (tj, w) =>
          if closer later t ti tj then Some (ti, v) else Some (tj, w)
      end
  end.

Definition out_of_bounds {A : Type} (t : Z) (src : list (Z * A)) : bool :=
  forallb (fun p => (t <? fst p)%Z) src
  || forallb (fun p => (fst p <? t)%Z) src.

(** [interp(time=target, method="nearest")] of an array indexed
    [time][range][azm]: the slice of the nearest time, the earlier one on a
    tie, or NaN outside the span of the source times. *)
Definition interp_nearest (src : list (Z * list (list (option R))))
  (target : list Z) : list (list (list (option R))) :=
  map (fun t =>
         match nearest false t src with
         | None => []
         | Some (_, v) =>
             if out_of_bounds t src
             then map (map (fun _ => None)) v
             else v
         end)
      target.

(** Some label of an index is found twice. *)
Fixpoint has_duplicates (l : list Z) : bool :=
  match l with
  | [] => false
  | x :: r => existsb (Z.eqb x) r || has_duplicates r
  end.

(** Each label of an index is in the relation [le] with the next one. *)
Fixpoint ordered (le : Z -> Z -> bool) (l : list Z) : bool :=
  match l with
  | [] => true
  | x :: r =>
      match r with
      | [] => true
      | y :: _ => le x y
      end && ordered le r
  end.

(** [index.is_monotonic_increasing or index.is_monotonic_decreasing] *)
Definition is_monotonic (l : list Z) : bool :=
  ordered Z.leb l || ordered Z.geb l.

(** What pandas asks of an index in which labels are looked up with
    [method='nearest']: its labels are distinct (InvalidIndexError) and, as
    soon as one label is asked for, they are in increasing or in decreasing
    order (ValueError). *)
Definition nearest_check (index target : list Z) : result unit :=
  if has_duplicates index then Raise InvalidIndexError
  else
    match target with
    | [] => Ok tt
    | _ :: _ => if is_monotonic index then Ok tt else Raise ValueError
    end.

End xr.

(** ** The six-beam method: [wind_prop_retrieval_6_beam.py] *)

Module SixBeamMethod.

(** The slanted observations [data_transf], indexed [time][range][azm] (the
    elevation axis has a single entry), and the vertical observations
    [data_transf_90], indexed [time][range90]. *)
Record DataTransf : Type := {
  time : list Z;
  azm : list R;
  elv : R;
  values : list (list (list (option R)))
}.

Record DataTransf90 : Type := {
  time90 : list Z;
  values90 : list (list (option R))
}.

Record GetRestructuredData : Type := {
  data_transf : DataTransf;
  data_transf_90 : DataTransf90
}.

(** What the constructor may be handed. *)
Inductive pyobject : Type :=
| Restructured (d : GetRestructuredData)
| OtherObject.

(** One line of the coefficient matrix, for a beam of elevation [phi] and
    azimuth [theta], both in radians. *)
Definition m_matrix_line (phi theta : R) : list R :=
  let ci1 := cos phi ^ 2 * sin theta ^ 2 in
  let ci2 := cos phi ^ 2 * cos theta ^ 2 in
  let ci3 := sin phi ^ 2 in
  let ci4 := cos phi ^ 2 * cos theta * sin theta in
  let ci5 := cos phi * sin phi * sin theta in
  let ci6 := cos phi * sin phi * cos theta in
  [ci1; ci2; ci3; ci4 * 2; ci5 * 2; ci6 * 2].

(** [get_m_matrix]: the matrix has [len(phis)] rows and [len(thetas)]
    columns, and each row is assigned a line of six coefficients, which
    numpy refuses unless there are six columns. *)
Definition get_m_matrix (elv : R) (azm : list R) : result np.matrix :=
  let phis := map (fun one => one * elv) (map (fun _ => 1) azm) ++ [90] in
  let phis_rad := map np.deg2rad phis in
  let thetas := azm ++ [0] in
  let thetas_rad := map np.deg2rad thetas in
  if Nat.eqb (length thetas) 6 then
    Ok (map (fun '(theta, phi) => m_matrix_line phi theta)
            (combine thetas_rad phis_rad))
  else Raise ValueError.

Definition get_m_matrix_inv (m_matrix : np.matrix) : result np.matrix :=
  np.linalg_inv m_matrix.

(** [int(freq * 0.3)]: the product is within a rounding error of 3 freq / 10,
    never across an integer, so the truncation is that of the fraction. *)
Definition min_periods (freq : Z) : Z := Z.quot (3 * freq) 10.

(** [get_variance] of the slanted and of the vertical observations. *)
Definition get_variance (data : list (list (list (option R)))) (freq : Z)
  : result (list (list (list (option R)))) :=
  do _ <- xr.rolling_check freq (min_periods freq);
  Ok (xr.rolling_var3 freq (min_periods freq) data).

Definition get_variance90 (data : list (list (option R))) (freq : Z)
  : result (list (list (option R))) :=
  do _ <- xr.rolling_check freq (min_periods freq);
  Ok (xr.rolling_var2 freq (min_periods freq) data).

Record radial_variances_t : Type := {
  rVariance : list (list (list (option R)));
  rVariance90 : list (list (option R))
}.

Definition calc_variances (data : GetRestructuredData) (freq freq90 : Z)
  : result radial_variances_t :=
  let interp_data_transf :=
    xr.interp_nearest
      (combine (time (data_transf data)) (values (data_transf data)))
      (time90 (data_transf_90 data)) in
  do v <- get_variance interp_data_transf freq;
  do v90 <- get_variance90
              (map (map (np.lift1 (Rmult (-1)))) (values90 (data_transf_90 data)))
              freq90;
  Ok {| rVariance := v; rVariance90 := v90 |}.

(** [np.dstack]: the vertical variance is appended to the five slanted ones
    of the same time and range; the two arrays must agree on their first two
    axes. *)
Definition same_shape (a : list (list (list (option R))))
  (b : list (list (option R))) : bool :=
  Nat.eqb (length a) (length b)
  && forallb (fun '(x, y) => Nat.eqb (length x) (length y)) (combine a b).

Definition get_s_matrix (rv : radial_variances_t)
  : result (list (list (list (option R)))) :=
  if same_shape (rVariance rv) (rVariance90 rv) then
    Ok (map (fun '(plane, row90) =>
               map (fun '(s, s90) => s ++ [s90]) (combine plane row90))
            (combine (rVariance rv) (rVariance90 rv)))
  else Raise ValueError.

(** SIGMA = M^-1 x S, at every time and range. *)
Definition get_sigma (m_matrix_inv : np.matrix)
  (s_matrix : list (list (list (option R))))
  : list (list (list (option R))) :=
  map (map (np.matvec m_matrix_inv)) s_matrix.

(** The dataset of the six components, each indexed [time][range]. *)
Record var_comp_ds_t : Type := {
  ds_time : list Z;
  var_u : list (list (option R));
  var_v : list (list (option R));
  var_w : list (list (option R));
  var_uv : list (list (option R));
  var_uw : list (list (option R));
  var_vw : list (list (option R))
}.

Definition component (sigma_matrix : list (list (list (option R))))
  (i : nat) : list (list (option R)) :=
  map (map (fun sigma => nth i sigma None)) sigma_matrix.

Definition get_variance_ds (t90 : list Z)
  (sigma_matrix : list (list (list (option R)))) : var_comp_ds_t :=
  {| ds_time := t90;
     var_u := component sigma_matrix 0;
     var_v := component sigma_matrix 1;
     var_w := component sigma_matrix 2;
     var_uv := component sigma_matrix 3;
     var_uw := component sigma_matrix 4;
     var_vw := component sigma_matrix 5 |}.

(** [SixBeamMethod(data, freq, freq90).var_comp_ds] *)
Definition init (data : pyobject) (freq freq90 : Z) : result var_comp_ds_t :=
  match data with
  | OtherObject => Raise TypeError
  | Restructured d =>
      do m_matrix <- get_m_matrix (elv (data_transf d)) (azm (data_transf d));
      do m_matrix_inv <- get_m_matrix_inv m_matrix;
      do radial_variances <- calc_variances d freq freq90;
      do s_matrix <- get_s_matrix radial_variances;
      let sigma_matrix := get_sigma m_matrix_inv s_matrix in
      Ok (get_variance_ds (time90 (data_transf_90 d)) sigma_matrix)
  end.

End SixBeamMethod.

(** ** The retrieval from a full azimuthal scan: [windPropRetrieval.py] *)

Module fftWindPropRet.

(** [dopplerObs]: radial velocities indexed [time][range][azm], at one
    elevation. *)
Record DopplerObs : Type := {
  azm : list R;
  elv : R;
  values : list (list (list (option R)))
}.

Definition complex : Type := (R * R)%type.

Definition Cabs (z : complex) : R := sqrt (fst z ^ 2 + snd z ^ 2).

(** The samples of a series, unless one of them is NaN. *)
Definition all_present (c : list (option R)) : option (list R) :=
  fold_right
    (fun o acc =>
       match o, acc with
       | Some x, Some l => Some (x :: l)
       | _, _ => None
       end)
    (Some []) c.

(** [np.diff]: the differences of successive entries. *)
Definition diff (a : list R) : list R :=
  map (fun p => snd p - fst p) (combine a (tl a)).

(** [delta_x]: the step of the azimuths, the size of their first
    difference. *)
Definition spacing (azm : list R) : R := Rabs (nth 0 (diff azm) 0).

(** [np.allclose(diff, diff[0], rtol=spacing_tol)], with the tolerances that
    xrft (one per thousand) and numpy (1e-8) have by default. *)
Definition evenly_spaced (azm : list R) : bool :=
  let d0 := nth 0 (diff azm) 0 in
  forallb
    (fun d =>
       if Rle_dec (Rabs (d - d0)) (1 / 10 ^ 8 + 1 / 1000 * Rabs d0)
       then true else false)
    (diff azm).

(** What [xrft.fft] asks of the azimuths before it transforms: a first
    difference (IndexError on less than two azimuths), an even spacing and a
    step that is not 0 (ValueError). *)
Definition xrft_check (azm : list R) : result unit :=
  match diff azm with
  | [] => Raise IndexError
  | _ :: _ =>
      if negb (evenly_spaced azm) then Raise ValueError
      else if Req_dec_T (spacing azm) 0 then Raise ValueError
      else Ok tt
  end.

(** The azimuths are given in descending order. *)
Definition descending (azm : list R) : bool :=
  if Rlt_dec (last azm 0) (hd 0 azm) then true else false.

(** A list along the azimuth, in the ascending order of the azimuths. *)
Definition ascending {A : Type} (azm : list R) (l : list A) : list A :=
  if descending azm then rev l else l.

(** [_lag_coord]: the azimuth in the middle of the scan, to which xrft
    refers the phases; the azimuths are read backwards unless the last one
    is above the first one. *)
Definition lag (azm : list R) : R :=
  nth (length azm / 2)
      (if Rlt_dec (hd 0 azm) (last azm 0) then azm else rev azm) 0.

(** The coefficient of frequency index [k] of [xrft.fft] along the azimuth,
    as xrft computes it when it is called without flags (true phase, true
    amplitude): the step times the sum of x_m exp (- 2 i PI f p_m), where
    f = k / (n step) is the frequency, in cycles per degree, and
    p_m = lag + (m - n/2) step is the azimuth at which the sample m of an
    evenly spaced scan stands.  (The samples are taken from the middle one
    on, transformed, and the transform is rephased by exp (- 2 i PI f lag)
    and multiplied by the step.) *)
Definition coefficient (azm : list R) (xs : list R) (k : Z) : complex :=
  let n := length xs in
  let step := spacing azm in
  let f := IZR k / (INR n * step) in
  let angle := fun m : nat =>
    2 * PI * f * (lag azm + (INR m - INR (n / 2)) * step) in
  let xs := ascending azm xs in
  (step * np.sum (xr.mapi (fun m x => x * cos (angle m)) xs),
   - (step * np.sum (xr.mapi (fun m x => x * sin (angle m)) xs))).

(** The frequency index found at position [j] of the transform of [n]
    samples, the frequencies being in ascending order. *)
Definition freq_index (n j : nat) : Z := (Z.of_nat j - Z.of_nat (n / 2))%Z.

(** [xrft.fft(dopplerObs, dim=['azm'])] on one (time, range) cell: its
    coefficients in ascending order of frequency, all of them NaN when a
    sample of the cell is. *)
Definition xrft_fft (azm : list R) (c : list (option R))
  : list (option complex) :=
  match all_present c with
  | Some xs =>
      map (fun j => Some (coefficient azm xs (freq_index (length xs) j)))
          (seq 0 (length xs))
  | None => map (fun _ => None) c
  end.

(** [isel(freq_azm=i)] on an axis of [n] entries. *)
Definition isel_position (n : nat) (i : Z) : result nat :=
  let i' := if (i <? 0)%Z then (i + Z.of_nat n)%Z else i in
  if ((i' <? 0) || (Z.of_nat n <=? i'))%Z then Raise IndexError
  else Ok (Z.to_nat i').

Definition getCompAmp (dopplerObs : DopplerObs)
  : result (list (list (option complex))) :=
  do checked <- xrft_check (azm dopplerObs);
  do pos <- isel_position (length (azm dopplerObs)) (-2);
  Ok (map (map (fun c => nth pos (xrft_fft (azm dopplerObs) c) None))
          (values dopplerObs)).

Definition lift_complex (f : complex -> R) (z : option complex) : option R :=
  match z with Some c => Some (f c) | None => None end.

Definition getPhase (compAmp : list (list (option complex)))
  : list (list (option R)) :=
  map (map (lift_complex
              (fun z => - np.rad2deg (np.arctan2 (snd z) (fst z)))))
      compAmp.

Definition getWindDir (phase : list (list (option R)))
  : list (list (option R)) :=
  map (map (np.lift1 (fun p => p + 180))) phase.

Definition getRadWindSpeed (dopplerObs : DopplerObs)
  (compAmp : list (list (option complex))) : list (list (option R)) :=
  map (map (lift_complex
              (fun z => 2 * Cabs z / INR (length (azm dopplerObs)))))
      compAmp.

Definition getHorWindSpeed (dopplerObs : DopplerObs)
  (radWindSpeed : list (list (option R))) : list (list (option R)) :=
  map (map (np.lift1 (fun s => s / cos (np.deg2rad (elv dopplerObs)))))
      radWindSpeed.

Definition getAzmWind (dopplerObs : DopplerObs)
  (radWindSpeed phase : list (list (option R))) (azm : R)
  : list (list (option R)) :=
  map (fun '(speeds, phases) =>
         map (fun '(s, p) =>
                np.lift2
                  (fun s p =>
                     s * sin (np.deg2rad azm + np.deg2rad (p + 180))
                     / cos (np.deg2rad (elv dopplerObs)))
                  s p)
             (combine speeds phases))
      (combine radWindSpeed phase).

Record windProp_t : Type := {
  horizontal_wind_direction : list (list (option R));
  horizontal_wind_speed : list (list (option R));
  zonal_wind : list (list (option R));
  meridional_wind : list (list (option R))
}.

(** [fftWindPropRet(dopplerObs).windProp()] *)
Definition windProp (dopplerObs : DopplerObs) : result windProp_t :=
  do compAmp <- getCompAmp dopplerObs;
  let phase := getPhase compAmp in
  let radWindSpeed := getRadWindSpeed dopplerObs compAmp in
  let horWindSpeed := getHorWindSpeed dopplerObs radWindSpeed in
  let windDir := getWindDir phase in
  let compU := getAzmWind dopplerObs radWindSpeed phase 0 in
  let compV := getAzmWind dopplerObs radWindSpeed phase 90 in
  Ok {| horizontal_wind_direction := windDir;
        horizontal_wind_speed := horWindSpeed;
        zonal_wind := compU;
        meridional_wind := compV |}.

End fftWindPropRet.

(** ** The retrieval from DBS scans: [windPropRetrieval.py] *)

Module getWindProperties5Beam.

(** The merged dataset of the DBS files: [elevation], [azimuth] and
    [scan_mean_time] are indexed by [time]; the other fields are indexed
    [time][gate_index]. *)
Record Dataset : Type := {
  time : list Z;
  elevation : list R;
  azimuth : list R;
  scan_mean_time : list Z;
  measurement_height : list (list R);
  radial_wind_speed : list (list (option R));
  radial_wind_speed_status : list (list Z);
  cnr : list (list (option R))
}.

(** [data['radial_wind_speed'] = v]: the caller's dataset with the field
    replaced. *)
Definition set_radial_wind_speed (data : Dataset)
  (v : list (list (option R))) : Dataset :=
  {| time := time data;
     elevation := elevation data;
     azimuth := azimuth data;
     scan_mean_time := scan_mean_time data;
     measurement_height := measurement_height data;
     radial_wind_speed := v;
     radial_wind_speed_status := radial_wind_speed_status data;
     cnr := cnr data |}.

(** An array along [time], each entry with its time label. *)
Definition DataArray (A : Type) : Type := list (Z * A).

Definition Req_bool (a b : R) : bool :=
  if Req_dec_T a b then true else false.

(** [a.where(cond)] for arrays indexed [time][gate_index]. *)
Definition where2 {C : Type} (p : C -> bool)
  (a : list (list (option R))) (cond : list (list C))
  : list (list (option R)) :=
  map (fun '(row, crow) =>
         map (fun '(x, c) => if p c then x else None) (combine row crow))
      (combine a cond).

(** Rounding to the nearest integer, halves to the even one. *)
Definition rint (x : R) : Z :=
  let f := (up x - 1)%Z in
  let r := x - IZR f in
  if Rlt_dec r (1 / 2) then f
  else if Rlt_dec (1 / 2) r then (f + 1)%Z
  else if Z.even f then f else (f + 1)%Z.

(** [round(1)] *)
Definition round1 (x : R) : R := IZR (rint (x * 10)) / 10.

Fixpoint index_of (t : Z) (l : list Z) : nat :=
  match l with
  | [] => O
  | x :: r => if Z.eqb x t then O else S (index_of t r)
  end.

(** [a.sel(time=labels)] *)
Definition sel {A : Type} (d : A) (a : DataArray A) (labels : list Z)
  : DataArray A :=
  map (fun t => (t, nth (index_of t (map fst a)) (map snd a) d)) labels.

(** [a.time.where(cond, drop=True)] *)
Definition time_where {A : Type} (p : A -> bool) (a : DataArray A) : list Z :=
  map fst (filter (fun e => p (snd e)) a).

(** [a.where(az == target, drop=True)] for arrays on the same labels. *)
Definition where_drop {A : Type} (a : DataArray A) (az : DataArray R)
  (target : R) : DataArray A :=
  map fst (filter (fun e => Req_bool (snd (snd e)) target) (combine a az)).

(** [a.assign_coords({'time': t})] *)
Definition assign_time {A : Type} (a : DataArray A) (t : DataArray Z)
  : DataArray A :=
  map (fun e => (snd (snd e), snd (fst e))) (combine a t).

Fixpoint lookup {A : Type} (t : Z) (a : DataArray A) : option A :=
  match a with
  | [] => None
  | (t', v) :: r => if Z.eqb t' t then Some v else lookup t r
  end.

Definition zip_with {A B C : Type} (f : A -> B -> C) (x : list A)
  (y : list B) : list C :=
  map (fun e => f (fst e) (snd e)) (combine x y).

(** Two arrays on the same labels, combined row by row. *)
Definition row_by_row (f : option R -> option R -> option R)
  (a b : DataArray (list (option R))) : DataArray (list (option R)) :=
  map (fun e => (fst (fst e), zip_with f (snd (fst e)) (snd (snd e))))
      (combine a b).

(** Two arrays of distinct labels: the labels found in both are kept, in
    the order of the first array. *)
Definition inner_join (f : option R -> option R -> option R)
  (a b : DataArray (list (option R))) : DataArray (list (option R)) :=
  flat_map
    (fun e =>
       match lookup (fst e) b with
       | Some y => [(fst e, zip_with f (snd e) y)]
       | None => []
       end)
    a.

(** Arithmetic on two arrays, as xarray aligns them: arrays with the same
    list of labels are combined row by row, whether labels repeat or not;
    otherwise the two are put on the labels they share, which xarray
    refuses (ValueError) when a label repeats in one of them.  The
    operation acts gate by gate. *)
Definition aligned (f : option R -> option R -> option R)
  (a b : DataArray (list (option R)))
  : result (DataArray (list (option R))) :=
  if list_eq_dec Z.eq_dec (map fst a) (map fst b) then Ok (row_by_row f a b)
  else if xr.has_duplicates (map fst a) || xr.has_duplicates (map fst b)
       then Raise ValueError
       else Ok (inner_join f a b).

Definition pointwise (f : option R -> option R)
  (a : DataArray (list (option R))) : DataArray (list (option R)) :=
  map (fun e => (fst e, map f (snd e))) a.

(** [a.reindex(time=target, method='Nearest', tolerance=tol)]: the row of
    the nearest label, the later one on a tie, or NaN when it is further
    than the tolerance.  (The labels of [a] are here a part of the time
    index of the dataset, which the constructor has checked before.) *)
Definition reindex_nearest (gates : nat) (tol : Z)
  (a : DataArray (list (option R))) (target : list Z)
  : DataArray (list (option R)) :=
  map (fun t =>
         (t, match xr.nearest true t a with
             | Some (tj, v) =>
                 if (Z.abs (t - tj) <=? tol)%Z then v else repeat None gates
             | None => repeat None gates
             end))
      target.

(** A wind component on the measurement heights. *)
Record WindComp : Type := {
  name : string;
  range : list R;
  comp : DataArray (list (option R))
}.

Inductive method_t : Type :=
| single_dbs
| continuous
| other_method.

(** The fields set by the constructor before the retrieval. *)
Record beams_t : Type := {
  tolerance : Z;
  azimuthNon90 : DataArray R;
  elevetionNon90 : DataArray R;
  rangeValNon90 : DataArray (list R);
  radWindSpeedNon90 : DataArray (list (option R));
  meanTimeNon90 : DataArray Z;
  rangeVal90 : DataArray (list R);
  verWindSpeed90 : DataArray (list (option R))
}.

(** [correctWindComp]: the gate index is replaced by the heights of the
    first vertical profile. *)
Definition correctWindComp (self : beams_t) (nm : string)
  (c : DataArray (list (option R))) : result WindComp :=
  match rangeVal90 self with
  | [] => Raise IndexError
  | (_, heights) :: _ => Ok {| name := nm; range := heights; comp := c |}
  end.

Definition correctVertWindComp (self : beams_t) : result WindComp :=
  correctWindComp self "compW"%string (verWindSpeed90 self).

(** The contribution of every slanted beam: the radial speed over twice the
    cosine of the elevation. *)
Definition compWindSpeed (self : beams_t) : DataArray (list (option R)) :=
  map (fun e =>
         (fst (fst e),
          map (np.lift1
                 (fun v => v / (2 * cos (np.deg2rad (snd (snd e))))))
              (snd (fst e))))
      (combine (radWindSpeedNon90 self) (elevetionNon90 self)).

(** The beams of one azimuth, labelled by the mean time of their scan. *)
Definition beam_group (self : beams_t) (target : R)
  : DataArray (list (option R)) :=
  let c := where_drop (compWindSpeed self) (azimuthNon90 self) target in
  let meanTime := where_drop (meanTimeNon90 self) (azimuthNon90 self) target in
  assign_time c meanTime.

Definition opposite_difference (n s : DataArray (list (option R)))
  : result (DataArray (list (option R))) :=
  do d <- aligned (np.lift2 Rminus) n s;
  Ok (pointwise (np.lift1 Ropp) d).

Definition calcHorWindComp_single_dbs (self : beams_t)
  : result (WindComp * WindComp) :=
  let compVN := beam_group self 0 in
  let compVS := beam_group self 180 in
  let compUE := beam_group self 90 in
  let compUW := beam_group self 270 in
  do compV <- opposite_difference compVN compVS;
  do compU <- opposite_difference compUE compUW;
  do compV <- correctWindComp self "compV"%string compV;
  do compU <- correctWindComp self "compU"%string compU;
  Ok (compV, compU).

Definition gates (self : beams_t) : nat :=
  match radWindSpeedNon90 self with
  | [] => O
  | (_, row) :: _ => length row
  end.

Definition calcHorWindComp_continuous (self : beams_t)
  : result (WindComp * WindComp) :=
  let c := compWindSpeed self in
  let compVN := where_drop c (azimuthNon90 self) 0 in
  let compVS := where_drop c (azimuthNon90 self) 180 in
  let compVS :=
    reindex_nearest (gates self) (tolerance self) compVS (map fst compVN) in
  let compUE := where_drop c (azimuthNon90 self) 90 in
  let compUW := where_drop c (azimuthNon90 self) 270 in
  let compUW :=
    reindex_nearest (gates self) (tolerance self) compUW (map fst compUE) in
  do compV <- opposite_difference compVN compVS;
  do compU <- opposite_difference compUE compUW;
  do compV <- correctWindComp self "compV"%string compV;
  do compU <- correctWindComp self "compU"%string compU;
  let compU :=
    {| name := name compU;
       range := range compU;
       comp := reindex_nearest (gates self) (tolerance self) (comp compU)
                 (map fst (comp compV)) |} in
  Ok (compV, compU).

Definition calcHorWindSpeed (compV compU : WindComp) : result WindComp :=
  do squares <- aligned (np.lift2 Rplus)
                  (pointwise (np.lift1 (fun x => x ^ 2)) (comp compV))
                  (pointwise (np.lift1 (fun x => x ^ 2)) (comp compU));
  Ok {| name := "hor_wind_speed"%string;
        range := range compV;
        comp := pointwise (np.lift1 sqrt) squares |}.

Definition calcHorWindDir (compV compU : WindComp) : result WindComp :=
  do angles <- aligned (np.lift2 np.arctan2)
                 (pointwise (np.lift1 Ropp) (comp compU))
                 (pointwise (np.lift1 Ropp) (comp compV));
  Ok {| name := "hor_wind_dir"%string;
        range := range compU;
        comp := pointwise (np.lift1 (fun a => 180 + np.rad2deg a)) angles |}.

(** The retrieved object. *)
Record t : Type := {
  beams : beams_t;
  verWindSpeed : WindComp;
  compV : WindComp;
  compU : WindComp;
  horWindSpeed : WindComp;
  horWindDir : WindComp
}.

(** The masking done by the constructor on the caller's dataset. *)
Definition filter_status (statusFilter : bool) (data : Dataset) : Dataset :=
  if statusFilter then
    set_radial_wind_speed data
      (where2 (fun s => Z.eqb s 1) (radial_wind_speed data)
              (radial_wind_speed_status data))
  else data.

Definition Rge_bool (c : R) (x : option R) : bool :=
  match x with
  | Some v => if Rge_dec v c then true else false
  | None => false
  end.

Definition filter_cnr (cnr_min : option R) (data : Dataset) : Dataset :=
  match cnr_min with
  | Some c =>
      set_radial_wind_speed data
        (where2 (Rge_bool c) (radial_wind_speed data) (cnr data))
  | None => data
  end.

(** [data.azimuth.sel(time=timeNon90, method='Nearest')], the first
    selection of the constructor: what it asks of the time index of the
    dataset. *)
Definition check_time_index (data : Dataset) : result unit :=
  xr.nearest_check (time data)
    (time_where (fun e => negb (Req_bool e 90))
       (combine (time data) (map round1 (elevation data)))).

(** The fields that the constructor sets, once the time index is
    accepted. *)
Definition get_beams (data : Dataset) (tol : Z) : beams_t :=
  let elevation :=
    combine (time data) (map round1 (elevation data)) in
  let time90 := time_where (fun e => Req_bool e 90) elevation in
  let timeNon90 := time_where (fun e => negb (Req_bool e 90)) elevation in
  let azimuthNon90 :=
    map (fun e => (fst e, round1 (snd e)))
        (sel 0 (combine (time data) (azimuth data)) timeNon90) in
  let azimuthNon90 :=
    map (fun e => (fst e, if Req_bool (snd e) 360 then 0 else snd e))
        azimuthNon90 in
  {| tolerance := tol;
     azimuthNon90 := azimuthNon90;
     elevetionNon90 := sel 0 elevation timeNon90;
     rangeValNon90 :=
       sel [] (combine (time data) (measurement_height data)) timeNon90;
     radWindSpeedNon90 :=
       sel [] (combine (time data) (radial_wind_speed data)) timeNon90;
     meanTimeNon90 :=
       sel 0%Z (combine (time data) (scan_mean_time data)) timeNon90;
     rangeVal90 :=
       sel [] (combine (time data) (measurement_height data)) time90;
     verWindSpeed90 :=
       sel [] (combine (time data) (radial_wind_speed data)) time90 |}.

Definition retrieve (self : beams_t) (method : method_t) : result t :=
  do w <- correctVertWindComp self;
  do vu <- match method with
           | continuous => calcHorWindComp_continuous self
           | single_dbs => calcHorWindComp_single_dbs self
           | other_method => Raise AttributeError
           end;
  do speed <- calcHorWindSpeed (fst vu) (snd vu);
  do dir <- calcHorWindDir (fst vu) (snd vu);
  Ok {| beams := self;
        verWindSpeed := w;
        compV := fst vu;
        compU := snd vu;
        horWindSpeed := speed;
        horWindDir := dir |}.

(** [getWindProperties5Beam(data, statusFilter, cnr, method, tolerance)]:
    the caller's dataset after the call, and the object or the exception. *)
Definition init (data : Dataset) (statusFilter : bool) (cnr : option R)
  (method : method_t) (tol : Z) : Dataset * result t :=
  let data := filter_status statusFilter data in
  let data := filter_cnr cnr data in
  (data,
   do checked <- check_time_index data;
   retrieve (get_beams data tol) method).

End getWindProperties5Beam.

(** * Vocabulary of the statements *)

Module Spec.

(** The row of a beam as the six-beam method states it: the coefficients of
    var_u, var_v, var_w, var_uv, var_uw and var_vw in the variance of the
    radial velocity of a beam of elevation [phi] and azimuth [theta]. *)
Definition beam_row (phi theta : R) : list R :=
  [cos phi ^ 2 * sin theta ^ 2;
   cos phi ^ 2 * cos theta ^ 2;
   sin phi ^ 2;
   2 * cos phi ^ 2 * cos theta * sin theta;
   2 * cos phi * sin phi * sin theta;
   2 * cos phi * sin phi * cos theta].

(** The same row written with the sine [s] and cosine [c] of half the
    azimuth, every entry of degree four in [s] and [c]. *)
Definition half_angle_row (p q s c : R) : list R :=
  [p ^ 2 * (2 * s * c) ^ 2;
   p ^ 2 * (c ^ 2 - s ^ 2) ^ 2;
   q ^ 2 * (s ^ 2 + c ^ 2) ^ 2;
   p ^ 2 * (c ^ 2 - s ^ 2) * (2 * s * c) * 2;
   p * q * ((2 * s * c) * (s ^ 2 + c ^ 2)) * 2;
   p * q * ((c ^ 2 - s ^ 2) * (s ^ 2 + c ^ 2)) * 2].

(** The product of the sines of the half differences of five azimuths, in
    radians. *)
Definition half_difference_product (t1 t2 t3 t4 t5 : R) : R :=
  sin ((t1 - t2) / 2) * sin ((t1 - t3) / 2) * sin ((t1 - t4) / 2)
  * sin ((t1 - t5) / 2) * sin ((t2 - t3) / 2) * sin ((t2 - t4) / 2)
  * sin ((t2 - t5) / 2) * sin ((t3 - t4) / 2) * sin ((t3 - t5) / 2)
  * sin ((t4 - t5) / 2).

(** The azimuths of a scan of [n] beams, equally spaced from 0 degree. *)
Definition equally_spaced (n : nat) : list R :=
  map (fun j => 360 * INR j / INR n) (seq 0 n).

(** The azimuths of a scan of [n] beams, equally spaced around the circle
    from the azimuth [a0]. *)
Definition equally_spaced_from (a0 : R) (n : nat) : list R :=
  map (fun j => a0 + 360 * INR j / INR n) (seq 0 n).


(** The radial velocities A cos (theta - theta0) + C at the azimuths of a
    scan. *)
Definition first_harmonic (A theta0 C : R) (azm : list R)
  : list (option R) :=
  map (fun theta => Some (A * cos (np.deg2rad (theta - theta0)) + C)) azm.

(** The frequency index of the coefficient that [isel(freq_azm=-2)] picks
    in a transform of [n] samples. *)
Definition selected_frequency (n : nat) : Z :=
  fftWindPropRet.freq_index n (n - 2).

(** Five azimuths on one line through the lidar: each is [theta] or its
    antipode. *)
Definition antipodal_degenerate (azm : list R) : Prop :=
  exists theta, Forall (fun a => a = theta \/ a = theta + 180) azm.

(** Five identical azimuths. *)
Definition identical (azm : list R) : Prop :=
  exists theta, Forall (fun a => a = theta) azm.

(** The entry at time [t] and range [r] of an array indexed [time][range],
    when there is one. *)
Definition at2 {A : Type} (a : list (list A)) (t r : nat) : option A :=
  match nth_error a t with
  | Some row => nth_error row r
  | None => None
  end.

(** The entry at time [t], range [r] and azimuth [z] of an array indexed
    [time][range][azm]. *)
Definition at3 {A : Type} (a : list (list (list A))) (t r z : nat)
  : option A :=
  match at2 a t r with
  | Some c => nth_error c z
  | None => None
  end.

(** The number of samples present in the window of [w] samples centred at
    position [i] of a series. *)
Definition present_in_window (w : Z) (xs : list (option R)) (i : nat) : Z :=
  Z.of_nat (length (xr.present (xr.window w xs i))).

(** All the floats of a list are numbers. *)
Definition all_defined (l : list (option R)) : bool :=
  forallb (fun o => match o with Some _ => true | None => false end) l.

(** Every (time, range) cell of the slanted observations has one value per
    azimuth. *)
Definition well_formed (d : SixBeamMethod.GetRestructuredData) : Prop :=
  Forall
    (Forall
       (fun c : list (option R) =>
          length c = length (SixBeamMethod.azm (SixBeamMethod.data_transf d))))
    (SixBeamMethod.values (SixBeamMethod.data_transf d)).

(** ** DBS scans *)

(** The time labels of a dataset are distinct and its fields have one entry
    per time. *)
Definition well_formed_dbs (d : getWindProperties5Beam.Dataset) : Prop :=
  let n := length (getWindProperties5Beam.time d) in
  NoDup (getWindProperties5Beam.time d)
  /\ length (getWindProperties5Beam.elevation d) = n
  /\ length (getWindProperties5Beam.azimuth d) = n
  /\ length (getWindProperties5Beam.scan_mean_time d) = n
  /\ length (getWindProperties5Beam.measurement_height d) = n
  /\ length (getWindProperties5Beam.radial_wind_speed d) = n
  /\ length (getWindProperties5Beam.radial_wind_speed_status d) = n
  /\ length (getWindProperties5Beam.cnr d) = n.

(** The profile at position [i] is slanted: its elevation, rounded to 0.1
    degree, is not 90. *)
Definition slanted (d : getWindProperties5Beam.Dataset) (i : nat) : bool :=
  negb (getWindProperties5Beam.Req_bool
          (getWindProperties5Beam.round1
             (nth i (getWindProperties5Beam.elevation d) 0)) 90).

(** Its azimuth, rounded to 0.1 degree, 360 counting as 0. *)
Definition nominal_azimuth (d : getWindProperties5Beam.Dataset) (i : nat)
  : R :=
  let a := getWindProperties5Beam.round1
             (nth i (getWindProperties5Beam.azimuth d) 0) in
  if getWindProperties5Beam.Req_bool a 360 then 0 else a.

(** Its radial velocities over twice the cosine of its rounded elevation. *)
Definition contribution (d : getWindProperties5Beam.Dataset) (i : nat)
  : list (option R) :=
  map (np.lift1
         (fun v =>
            v / (2 * cos (np.deg2rad
                            (getWindProperties5Beam.round1
                               (nth i (getWindProperties5Beam.elevation d)
                                    0))))))
      (nth i (getWindProperties5Beam.radial_wind_speed d) []).

(** The positions of the slanted profiles of one nominal azimuth, in the
    order of the dataset. *)
Definition beam_positions (d : getWindProperties5Beam.Dataset) (target : R)
  : list nat :=
  filter (fun i =>
            slanted d i
            && getWindProperties5Beam.Req_bool (nominal_azimuth d i) target)
         (seq 0 (length (getWindProperties5Beam.time d))).

(** The contributions of the beams of one nominal azimuth, each labelled by
    the mean time of its own scan. *)
Definition group (d : getWindProperties5Beam.Dataset) (target : R)
  : list (Z * list (option R)) :=
  map (fun i =>
         (nth i (getWindProperties5Beam.scan_mean_time d) 0%Z,
          contribution d i))
      (beam_positions d target).

(** The mean time of the scan of the profile at position [i]. *)
Definition mean_time (d : getWindProperties5Beam.Dataset) (i : nat) : Z :=
  nth i (getWindProperties5Beam.scan_mean_time d) 0%Z.


(** Minus the difference of two profiles, gate by gate. *)
Definition minus_difference (a b : list (option R)) : list (option R) :=
  map (fun e => np.lift1 Ropp (np.lift2 Rminus (fst e) (snd e)))
      (combine a b).

(** What the constructor leaves of the caller's dataset. *)
Definition masked_dataset (d : getWindProperties5Beam.Dataset)
  (statusFilter : bool) (cnr : option R) : getWindProperties5Beam.Dataset :=
  getWindProperties5Beam.filter_cnr cnr
    (getWindProperties5Beam.filter_status statusFilter d).

(** The array has a row labelled [T]. *)
Definition has_label (a : getWindProperties5Beam.DataArray (list (option R)))
  (T : Z) : bool :=
  match getWindProperties5Beam.lookup T a with
  | Some _ => true
  | None => false
  end.


(** A sample passes the masks asked for: its status is 1, its carrier to
    noise ratio is at least the threshold. *)
Definition kept (statusFilter : bool) (cnr_min : option R) (status : Z)
  (cnr : option R) : bool :=
  (negb statusFilter || Z.eqb status 1)
  && match cnr_min with
     | Some c => getWindProperties5Beam.Rge_bool c cnr
     | None => true
     end.





(** No two beams of the same nominal azimuth, among 0, 90, 180 and 270,
    belong to the same scan. *)
Definition one_beam_per_scan (d : getWindProperties5Beam.Dataset) : Prop :=
  Forall (fun target => NoDup (map (mean_time d) (beam_positions d target)))
         [0; 90; 180; 270].

End Spec.

(** * Scans used as examples *)

Module Examples.

(** Five azimuths 72 degrees apart at an elevation of 75 degrees, four
    profiles of one range gate. *)
Definition slanted (v : option R) : SixBeamMethod.DataTransf :=
  {| SixBeamMethod.time := [0; 1; 2; 3]%Z;
     SixBeamMethod.azm := [0; 72; 144; 216; 288];
     SixBeamMethod.elv := 75;
     SixBeamMethod.values :=
       [[[v; v; v; v; v]]; [[v; v; v; v; v]]; [[v; v; v; v; v]];
        [[v; v; v; v; v]]] |}.

(** A vertical beam that alternates between 0 and 1. *)
Definition vertical : SixBeamMethod.DataTransf90 :=
  {| SixBeamMethod.time90 := [0; 1; 2; 3]%Z;
     SixBeamMethod.values90 := [[Some 0]; [Some 1]; [Some 0]; [Some 1]] |}.

(** The slanted beams are masked throughout. *)
Definition masked_slanted : SixBeamMethod.GetRestructuredData :=
  {| SixBeamMethod.data_transf := slanted None;
     SixBeamMethod.data_transf_90 := vertical |}.

(** The slanted beams measure a constant 0. *)
Definition steady_slanted : SixBeamMethod.GetRestructuredData :=
  {| SixBeamMethod.data_transf := slanted (Some 0);
     SixBeamMethod.data_transf_90 := vertical |}.

(** Five azimuths on the north-south line. *)
Definition on_one_line : SixBeamMethod.GetRestructuredData :=
  {| SixBeamMethod.data_transf :=
       {| SixBeamMethod.time := [0; 1; 2; 3]%Z;
          SixBeamMethod.azm := [0; 180; 0; 180; 0];
          SixBeamMethod.elv := 75;
          SixBeamMethod.values := [] |};
     SixBeamMethod.data_transf_90 := vertical |}.


(** A first harmonic of amplitude 10 from 30 degrees around a mean of 1,
    seen at five azimuths by beams at 75 degrees. *)
Definition five_azimuths : fftWindPropRet.DopplerObs :=
  {| fftWindPropRet.azm := Spec.equally_spaced 5;
     fftWindPropRet.elv := 75;
     fftWindPropRet.values :=
       [[Spec.first_harmonic 10 30 1 (Spec.equally_spaced 5)]] |}.

(** One DBS scan: a vertical beam and slanted beams to the north, east,
    south and west at 75 degrees, all four measuring 1 at the single gate;
    the status of the eastern beam is bad. *)
Definition dbs_scan : getWindProperties5Beam.Dataset :=
  {| getWindProperties5Beam.time := [0; 1; 2; 3; 4]%Z;
     getWindProperties5Beam.elevation := [90; 75; 75; 75; 75];
     getWindProperties5Beam.azimuth := [0; 0; 90; 180; 270];
     getWindProperties5Beam.scan_mean_time := [2; 2; 2; 2; 2]%Z;
     getWindProperties5Beam.measurement_height :=
       [[100]; [100]; [100]; [100]; [100]];
     getWindProperties5Beam.radial_wind_speed :=
       [[Some 0]; [Some 1]; [Some 1]; [Some 1]; [Some 1]];
     getWindProperties5Beam.radial_wind_speed_status :=
       [[1]; [1]; [0]; [1]; [1]]%Z;
     getWindProperties5Beam.cnr :=
       [[Some 0]; [Some 0]; [Some 0]; [Some 0]; [Some 0]] |}.

End Examples.

(** * Vocabulary of the further properties *)

Module Notions.

(** Two azimuths, in degrees, on the same direction. *)
Definition congruent (a b : R) : Prop := exists k : Z, a - b = 360 * IZR k.

(** Two of the azimuths of a scan are on the same direction. *)
Definition repeated_direction (azm : list R) : Prop :=
  exists i j, (i < j < length azm)%nat /\ congruent (nth i azm 0) (nth j azm 0).

(** The geometry of a scan is degenerate: its elevation is a multiple of 90
    degrees or two of its azimuths are on the same direction. *)
Definition degenerate (elv : R) (azm : list R) : Prop :=
  (exists k : Z, elv = 90 * IZR k) \/ repeated_direction azm.

(** The six components of a retrieval, in the order of SIGMA. *)
Definition components (ds : SixBeamMethod.var_comp_ds_t)
  : list (list (list (option R))) :=
  [SixBeamMethod.var_u ds; SixBeamMethod.var_v ds; SixBeamMethod.var_w ds;
   SixBeamMethod.var_uv ds; SixBeamMethod.var_uw ds; SixBeamMethod.var_vw ds].

(** The positions of the vertical profiles of a DBS dataset: those whose
    elevation, rounded to 0.1 degree, is 90. *)
Definition vertical_positions (d : getWindProperties5Beam.Dataset)
  : list nat :=
  filter (fun i =>
            getWindProperties5Beam.Req_bool
              (getWindProperties5Beam.round1
                 (nth i (getWindProperties5Beam.elevation d) 0)) 90)
         (seq 0 (length (getWindProperties5Beam.time d))).

(** The positions of the slanted profiles of a DBS dataset. *)
Definition slanted_positions (d : getWindProperties5Beam.Dataset)
  : list nat :=
  filter (Spec.slanted d) (seq 0 (length (getWindProperties5Beam.time d))).

(** The time labels of the profiles at some positions. *)
Definition times_at (d : getWindProperties5Beam.Dataset) (idx : list nat)
  : list Z :=
  map (fun i => nth i (getWindProperties5Beam.time d) 0%Z) idx.

(** The four arrays of a retrieved object that are derived from the slanted
    beams. *)
Definition horizontal_products (obj : getWindProperties5Beam.t)
  : list (getWindProperties5Beam.DataArray (list (option R))) :=
  [getWindProperties5Beam.comp (getWindProperties5Beam.compV obj);
   getWindProperties5Beam.comp (getWindProperties5Beam.compU obj);
   getWindProperties5Beam.comp (getWindProperties5Beam.horWindSpeed obj);
   getWindProperties5Beam.comp (getWindProperties5Beam.horWindDir obj)].

(** A DBS scan without a southern, an eastern and a western beam: a vertical
    beam and a beam to the north at 75 degrees. *)
Definition north_only : getWindProperties5Beam.Dataset :=
  {| getWindProperties5Beam.time := [0; 1]%Z;
     getWindProperties5Beam.elevation := [90; 75];
     getWindProperties5Beam.azimuth := [0; 0];
     getWindProperties5Beam.scan_mean_time := [1; 1]%Z;
     getWindProperties5Beam.measurement_height := [[100]; [100]];
     getWindProperties5Beam.radial_wind_speed := [[Some 0]; [Some 1]];
     getWindProperties5Beam.radial_wind_speed_status := [[1]; [1]]%Z;
     getWindProperties5Beam.cnr := [[Some 0]; [Some 0]] |}.

(** A DBS dataset without a vertical profile. *)
Definition slanted_only : getWindProperties5Beam.Dataset :=
  {| getWindProperties5Beam.time := [0]%Z;
     getWindProperties5Beam.elevation := [75];
     getWindProperties5Beam.azimuth := [0];
     getWindProperties5Beam.scan_mean_time := [0]%Z;
     getWindProperties5Beam.measurement_height := [[100]];
     getWindProperties5Beam.radial_wind_speed := [[Some 1]];
     getWindProperties5Beam.radial_wind_speed_status := [[1]]%Z;
     getWindProperties5Beam.cnr := [[Some 0]] |}.

(** A DBS scan stored out of order: a vertical beam, then the beam to the
    south of time 2 before the beam to the north of time 1. *)
Definition out_of_order : getWindProperties5Beam.Dataset :=
  {| getWindProperties5Beam.time := [0; 2; 1]%Z;
     getWindProperties5Beam.elevation := [90; 75; 75];
     getWindProperties5Beam.azimuth := [0; 180; 0];
     getWindProperties5Beam.scan_mean_time := [1; 1; 1]%Z;
     getWindProperties5Beam.measurement_height := [[100]; [100]; [100]];
     getWindProperties5Beam.radial_wind_speed :=
       [[Some 0]; [Some 1]; [Some 1]];
     getWindProperties5Beam.radial_wind_speed_status := [[1]; [1]; [1]]%Z;
     getWindProperties5Beam.cnr := [[Some 0]; [Some 0]; [Some 0]] |}.

(** A first harmonic of amplitude 10 from 30 degrees around a mean of 1,
    seen at seven azimuths by beams at 75 degrees. *)
Definition seven_azimuths : fftWindPropRet.DopplerObs :=
  {| fftWindPropRet.azm := Spec.equally_spaced 7;
     fftWindPropRet.elv := 75;
     fftWindPropRet.values :=
       [[Spec.first_harmonic 10 30 1 (Spec.equally_spaced 7)]] |}.

(** The observations of a scan with the same constant added to every radial
    velocity. *)
Definition offset (C : R) (obs : fftWindPropRet.DopplerObs)
  : fftWindPropRet.DopplerObs :=
  {| fftWindPropRet.azm := fftWindPropRet.azm obs;
     fftWindPropRet.elv := fftWindPropRet.elv obs;
     fftWindPropRet.values :=
       map (map (map (np.lift1 (fun x => x + C))))
           (fftWindPropRet.values obs) |}.

(** Every (time, range) cell of a scan has one sample per azimuth. *)
Definition full_cells (obs : fftWindPropRet.DopplerObs) : Prop :=
  Forall
    (Forall
       (fun c : list (option R) =>
          length c = length (fftWindPropRet.azm obs)))
    (fftWindPropRet.values obs).

(** The observations of the six beams after a change of scale and of
    origin of the radial velocities: c x + b on the slanted beams and
    c x + b90 on the vertical one. *)
Definition rescale (c b b90 : R) (d : SixBeamMethod.GetRestructuredData)
  : SixBeamMethod.GetRestructuredData :=
  {| SixBeamMethod.data_transf :=
       {| SixBeamMethod.time :=
            SixBeamMethod.time (SixBeamMethod.data_transf d);
          SixBeamMethod.azm :=
            SixBeamMethod.azm (SixBeamMethod.data_transf d);
          SixBeamMethod.elv :=
            SixBeamMethod.elv (SixBeamMethod.data_transf d);
          SixBeamMethod.values :=
            map (map (map (np.lift1 (fun x => c * x + b))))
                (SixBeamMethod.values (SixBeamMethod.data_transf d)) |};
     SixBeamMethod.data_transf_90 :=
       {| SixBeamMethod.time90 :=
            SixBeamMethod.time90 (SixBeamMethod.data_transf_90 d);
          SixBeamMethod.values90 :=
            map (map (np.lift1 (fun x => c * x + b90)))
                (SixBeamMethod.values90 (SixBeamMethod.data_transf_90 d)) |} |}.

(** The six components of a dataset multiplied by [k]. *)
Definition scale_components (k : R) (ds : SixBeamMethod.var_comp_ds_t)
  : SixBeamMethod.var_comp_ds_t :=
  let scale := map (map (np.lift1 (Rmult k))) in
  {| SixBeamMethod.ds_time := SixBeamMethod.ds_time ds;
     SixBeamMethod.var_u := scale (SixBeamMethod.var_u ds);
     SixBeamMethod.var_v := scale (SixBeamMethod.var_v ds);
     SixBeamMethod.var_w := scale (SixBeamMethod.var_w ds);
     SixBeamMethod.var_uv := scale (SixBeamMethod.var_uv ds);
     SixBeamMethod.var_uw := scale (SixBeamMethod.var_uw ds);
     SixBeamMethod.var_vw := scale (SixBeamMethod.var_vw ds) |}.

End Notions.

(** * The geometry matrix *)

Ltac unfold_det :=
  cbv [np.det np.det_n np.cofactor length np.minor np.remove_nth map seq
       np.sum fold_right np.entry nth np.sign Nat.even Nat.add Nat.sub].

Lemma deg2rad_90 : np.deg2rad 90 = PI / 2.
Proof. unfold np.deg2rad. field. Qed.

Lemma deg2rad_0 : np.deg2rad 0 = 0.
Proof. unfold np.deg2rad. field. Qed.

Lemma sin2_cos2_pow (x : R) : sin x ^ 2 + cos x ^ 2 = 1.
Proof. pose proof (sin2_cos2 x) as H. unfold Rsqr in H. lra. Qed.

Lemma sin_half_angle (x : R) : sin x = 2 * sin (x / 2) * cos (x / 2).
Proof. rewrite <- sin_2a. f_equal. field. Qed.

Lemma cos_half_angle (x : R) : cos x = cos (x / 2) ^ 2 - sin (x / 2) ^ 2.
Proof.
  replace (cos x) with (cos (2 * (x / 2))) by (f_equal; field).
  rewrite cos_2a. ring.
Qed.

(** The line of the vertical beam. *)
Lemma m_matrix_line_vertical :
  SixBeamMethod.m_matrix_line (np.deg2rad 90) (np.deg2rad 0)
  = [0; 0; 1; 0; 0; 0].
Proof.
  unfold SixBeamMethod.m_matrix_line.
  rewrite deg2rad_90, deg2rad_0, cos_PI2, sin_PI2, sin_0, cos_0.
  repeat (f_equal; try ring).
Qed.

Lemma m_matrix_line_beam_row (phi theta : R) :
  SixBeamMethod.m_matrix_line phi theta = Spec.beam_row phi theta.
Proof.
  unfold SixBeamMethod.m_matrix_line, Spec.beam_row.
  repeat (f_equal; try ring).
Qed.

Lemma m_matrix_line_half_angle (phi theta : R) :
  SixBeamMethod.m_matrix_line phi theta
  = Spec.half_angle_row (cos phi) (sin phi) (sin (theta / 2))
      (cos (theta / 2)).
Proof.
  unfold SixBeamMethod.m_matrix_line, Spec.half_angle_row.
  pose proof (sin2_cos2_pow (theta / 2)) as H1.
  rewrite (sin_half_angle theta), (cos_half_angle theta).
  set (s := sin (theta / 2)) in *. set (c := cos (theta / 2)) in *.
  rewrite H1.
  repeat (f_equal; try ring).
Qed.

(** The matrix built for five azimuths. *)
Lemma get_m_matrix_five (elv a1 a2 a3 a4 a5 : R) :
  SixBeamMethod.get_m_matrix elv [a1; a2; a3; a4; a5]
  = Ok [SixBeamMethod.m_matrix_line (np.deg2rad elv) (np.deg2rad a1);
        SixBeamMethod.m_matrix_line (np.deg2rad elv) (np.deg2rad a2);
        SixBeamMethod.m_matrix_line (np.deg2rad elv) (np.deg2rad a3);
        SixBeamMethod.m_matrix_line (np.deg2rad elv) (np.deg2rad a4);
        SixBeamMethod.m_matrix_line (np.deg2rad elv) (np.deg2rad a5);
        [0; 0; 1; 0; 0; 0]].
Proof.
  unfold SixBeamMethod.get_m_matrix. simpl.
  rewrite m_matrix_line_vertical, Rmult_1_l. reflexivity.
Qed.

(** Any other number of azimuths is refused. *)
Lemma get_m_matrix_not_five (elv : R) (azm : list R) :
  length azm <> 5%nat -> SixBeamMethod.get_m_matrix elv azm = Raise ValueError.
Proof.
  intros H. unfold SixBeamMethod.get_m_matrix.
  rewrite length_app. simpl.
  destruct (Nat.eqb_spec (length azm + 1) 6); [lia | reflexivity].
Qed.

(** C4: the five slanted rows of the geometry matrix are the rows of the
    six-beam method, (cos^2 phi sin^2 theta, cos^2 phi cos^2 theta,
    sin^2 phi, 2 cos^2 phi cos theta sin theta, 2 cos phi sin phi sin theta,
    2 cos phi sin phi cos theta), and the sixth row, built with phi = 90 deg
    and theta = 0 deg, is exactly (0, 0, 1, 0, 0, 0). *)
Theorem get_m_matrix_rows (elv a1 a2 a3 a4 a5 : R) :
  SixBeamMethod.get_m_matrix elv [a1; a2; a3; a4; a5]
  = Ok (map (fun theta => Spec.beam_row (np.deg2rad elv) (np.deg2rad theta))
            [a1; a2; a3; a4; a5]
        ++ [[0; 0; 1; 0; 0; 0]])
  /\ Spec.beam_row (np.deg2rad 90) (np.deg2rad 0) = [0; 0; 1; 0; 0; 0].
Proof.
  split.
  - rewrite get_m_matrix_five. simpl.
    rewrite !m_matrix_line_beam_row. reflexivity.
  - rewrite <- m_matrix_line_beam_row. apply m_matrix_line_vertical.
Qed.

(** The determinant of the matrix of half-angle rows. *)
Lemma det_half_angle (p q s1 c1 s2 c2 s3 c3 s4 c4 s5 c5 : R) :
  np.det [Spec.half_angle_row p q s1 c1; Spec.half_angle_row p q s2 c2;
          Spec.half_angle_row p q s3 c3; Spec.half_angle_row p q s4 c4;
          Spec.half_angle_row p q s5 c5; [0; 0; 1; 0; 0; 0]]
  = 512 * p ^ 8 * q ^ 2 *
    ((s1 * c2 - c1 * s2) * (s1 * c3 - c1 * s3) * (s1 * c4 - c1 * s4)
     * (s1 * c5 - c1 * s5) * (s2 * c3 - c2 * s3) * (s2 * c4 - c2 * s4)
     * (s2 * c5 - c2 * s5) * (s3 * c4 - c3 * s4) * (s3 * c5 - c3 * s5)
     * (s4 * c5 - c4 * s5)).
Proof.
  unfold Spec.half_angle_row. unfold_det. ring.
Qed.

Lemma sin_half_difference (a b : R) :
  sin ((a - b) / 2) = sin (a / 2) * cos (b / 2) - cos (a / 2) * sin (b / 2).
Proof.
  replace ((a - b) / 2) with (a / 2 - b / 2) by field.
  apply sin_minus.
Qed.

(** The determinant of the geometry matrix: 512 cos^8 phi sin^2 phi times
    the product of the sines of the half differences of the azimuths. *)
Lemma det_m_matrix (phi t1 t2 t3 t4 t5 : R) :
  np.det [SixBeamMethod.m_matrix_line phi t1;
          SixBeamMethod.m_matrix_line phi t2;
          SixBeamMethod.m_matrix_line phi t3;
          SixBeamMethod.m_matrix_line phi t4;
          SixBeamMethod.m_matrix_line phi t5; [0; 0; 1; 0; 0; 0]]
  = 512 * cos phi ^ 8 * sin phi ^ 2
    * Spec.half_difference_product t1 t2 t3 t4 t5.
Proof.
  rewrite !m_matrix_line_half_angle, det_half_angle.
  unfold Spec.half_difference_product.
  rewrite !sin_half_difference. ring.
Qed.

(** ** Singular and regular geometries *)

Lemma deg2rad_quarter (elv : R) :
  0 < elv < 90 -> 0 < np.deg2rad elv < PI / 2.
Proof.
  intros [H0 H90]. unfold np.deg2rad. pose proof PI_RGT_0 as Hpi.
  split.
  - apply Rmult_lt_0_compat; lra.
  - replace (PI / 2) with (90 * (PI / 180)) by field.
    apply Rmult_lt_compat_r; lra.
Qed.

Lemma cos_sin_slanted (elv : R) :
  0 < elv < 90 ->
  cos (np.deg2rad elv) <> 0 /\ sin (np.deg2rad elv) <> 0.
Proof.
  intros H. destruct (deg2rad_quarter H) as [H0 H2].
  pose proof PI_RGT_0 as Hpi. split.
  - apply Rgt_not_eq, cos_gt_0; lra.
  - apply Rgt_not_eq, sin_gt_0; lra.
Qed.

(** Two distinct azimuths of [0, 360) are not on the same direction. *)
Lemma sin_half_difference_neq_0 (a b : R) :
  0 <= a < 360 -> 0 <= b < 360 -> a <> b ->
  sin ((np.deg2rad a - np.deg2rad b) / 2) <> 0.
Proof.
  intros Ha Hb Hab. unfold np.deg2rad. pose proof PI_RGT_0 as Hpi.
  replace ((a * (PI / 180) - b * (PI / 180)) / 2)
    with ((a - b) * (PI / 360)) by field.
  destruct (Rlt_dec b a) as [Hlt | Hge].
  - apply Rgt_not_eq, sin_gt_0.
    + apply Rmult_lt_0_compat; lra.
    + replace PI with (360 * (PI / 360)) at 2 by field.
      apply Rmult_lt_compat_r; lra.
  - apply Rlt_not_eq, sin_lt_0_var.
    + replace (- PI) with ((- 360) * (PI / 360)) by field.
      apply Rmult_lt_compat_r; lra.
    + replace 0 with (0 * (PI / 360)) by ring.
      apply Rmult_lt_compat_r; lra.
Qed.

Lemma half_difference_product_neq_0 (a1 a2 a3 a4 a5 : R) :
  Forall (fun a => 0 <= a < 360) [a1; a2; a3; a4; a5] ->
  NoDup [a1; a2; a3; a4; a5] ->
  Spec.half_difference_product (np.deg2rad a1) (np.deg2rad a2)
    (np.deg2rad a3) (np.deg2rad a4) (np.deg2rad a5) <> 0.
Proof.
  intros Hr Hn.
  repeat match goal with
         | H : Forall _ (_ :: _) |- _ => inversion H; subst; clear H
         | H : NoDup (_ :: _) |- _ => inversion H; subst; clear H
         end.
  simpl in *.
  unfold Spec.half_difference_product.
  repeat apply Rmult_integral_contrapositive_currified;
    apply sin_half_difference_neq_0; try assumption;
    intros ->; tauto.
Qed.

Ltac zero_factor :=
  unfold Spec.half_difference_product;
  rewrite Rminus_diag; unfold Rdiv; rewrite Rmult_0_l, sin_0; ring.

(** Five azimuths on one line hold the same azimuth twice. *)
Lemma half_difference_product_antipodal (a1 a2 a3 a4 a5 : R) :
  Spec.antipodal_degenerate [a1; a2; a3; a4; a5] ->
  Spec.half_difference_product (np.deg2rad a1) (np.deg2rad a2)
    (np.deg2rad a3) (np.deg2rad a4) (np.deg2rad a5) = 0.
Proof.
  intros [theta H].
  repeat match goal with
         | H : Forall _ (_ :: _) |- _ => inversion H; subst; clear H
         end.
  repeat match goal with
         | H : _ \/ _ |- _ => destruct H; subst
         end;
    zero_factor.
Qed.

Lemma identical_antipodal (azm : list R) :
  Spec.identical azm -> Spec.antipodal_degenerate azm.
Proof.
  intros [theta H]. exists theta.
  eapply Forall_impl; [ | exact H ]. simpl. intros a ->. now left.
Qed.

Lemma length_five {A : Type} (l : list A) :
  length l = 5%nat -> exists a1 a2 a3 a4 a5, l = [a1; a2; a3; a4; a5].
Proof.
  intros H.
  destruct l as [ | a1 [ | a2 [ | a3 [ | a4 [ | a5 [ | a6 l]]]]]];
    try discriminate.
  now exists a1, a2, a3, a4, a5.
Qed.

(** C5: with five distinct azimuths of [0, 360) at an elevation strictly
    between 0 and 90 degrees the geometry matrix is regular and the
    inversion succeeds; with five identical azimuths, or five azimuths on one
    line through the lidar, the matrix is singular, the inversion raises
    LinAlgError and so does the retrieval, whatever the observations. *)
Theorem geometry_inversion (d : SixBeamMethod.GetRestructuredData)
  (freq freq90 : Z) :
  let elv := SixBeamMethod.elv (SixBeamMethod.data_transf d) in
  let azm := SixBeamMethod.azm (SixBeamMethod.data_transf d) in
  length azm = 5%nat ->
  (0 < elv < 90 -> Forall (fun a => 0 <= a < 360) azm -> NoDup azm ->
   exists M,
     SixBeamMethod.get_m_matrix elv azm = Ok M
     /\ np.det M <> 0
     /\ SixBeamMethod.get_m_matrix_inv M = Ok (np.inverse M))
  /\ (Spec.identical azm \/ Spec.antipodal_degenerate azm ->
      exists M,
        SixBeamMethod.get_m_matrix elv azm = Ok M
        /\ np.det M = 0
        /\ SixBeamMethod.get_m_matrix_inv M = Raise LinAlgError
        /\ SixBeamMethod.init (SixBeamMethod.Restructured d) freq freq90
           = Raise LinAlgError).
Proof.
  intros elv azm Hlen.
  destruct (length_five _ Hlen) as (a1 & a2 & a3 & a4 & a5 & Hazm).
  split.
  - intros Helv Hr Hn. rewrite Hazm in *.
    eexists. split; [apply get_m_matrix_five | ].
    assert (Hdet : np.det
              [SixBeamMethod.m_matrix_line (np.deg2rad elv) (np.deg2rad a1);
               SixBeamMethod.m_matrix_line (np.deg2rad elv) (np.deg2rad a2);
               SixBeamMethod.m_matrix_line (np.deg2rad elv) (np.deg2rad a3);
               SixBeamMethod.m_matrix_line (np.deg2rad elv) (np.deg2rad a4);
               SixBeamMethod.m_matrix_line (np.deg2rad elv) (np.deg2rad a5);
               [0; 0; 1; 0; 0; 0]] <> 0).
    { rewrite det_m_matrix.
      destruct (cos_sin_slanted Helv) as [Hc Hs].
      apply Rmult_integral_contrapositive_currified;
        [ | now apply half_difference_product_neq_0 ].
      repeat apply Rmult_integral_contrapositive_currified;
        try (apply pow_nonzero; assumption); lra. }
    split; [exact Hdet | ].
    unfold SixBeamMethod.get_m_matrix_inv, np.linalg_inv.
    destruct (Req_dec_T _ 0) as [E | _]; [contradiction | reflexivity].
  - intros Hdeg.
    assert (Ha : Spec.antipodal_degenerate azm).
    { destruct Hdeg as [Hi | Ha]; [now apply identical_antipodal | exact Ha]. }
    rewrite Hazm in Ha.
    assert (Hdet : np.det
              [SixBeamMethod.m_matrix_line (np.deg2rad elv) (np.deg2rad a1);
               SixBeamMethod.m_matrix_line (np.deg2rad elv) (np.deg2rad a2);
               SixBeamMethod.m_matrix_line (np.deg2rad elv) (np.deg2rad a3);
               SixBeamMethod.m_matrix_line (np.deg2rad elv) (np.deg2rad a4);
               SixBeamMethod.m_matrix_line (np.deg2rad elv) (np.deg2rad a5);
               [0; 0; 1; 0; 0; 0]] = 0).
    { rewrite det_m_matrix, (half_difference_product_antipodal Ha). ring. }
    assert (Hinv : SixBeamMethod.get_m_matrix_inv
              [SixBeamMethod.m_matrix_line (np.deg2rad elv) (np.deg2rad a1);
               SixBeamMethod.m_matrix_line (np.deg2rad elv) (np.deg2rad a2);
               SixBeamMethod.m_matrix_line (np.deg2rad elv) (np.deg2rad a3);
               SixBeamMethod.m_matrix_line (np.deg2rad elv) (np.deg2rad a4);
               SixBeamMethod.m_matrix_line (np.deg2rad elv) (np.deg2rad a5);
               [0; 0; 1; 0; 0; 0]] = Raise LinAlgError).
    { unfold SixBeamMethod.get_m_matrix_inv, np.linalg_inv.
      destruct (Req_dec_T _ 0) as [_ | N]; [reflexivity | contradiction]. }
    eexists. split; [rewrite Hazm; apply get_m_matrix_five | ].
    split; [exact Hdet | ]. split; [exact Hinv | ].
    unfold SixBeamMethod.init. fold elv. fold azm.
    rewrite Hazm, get_m_matrix_five. unfold bind at 1.
    rewrite Hinv. reflexivity.
Qed.

(** * The rolling variance *)

Lemma sum_map_mult (c : R) (l : list R) :
  np.sum (map (Rmult c) l) = c * np.sum l.
Proof.
  induction l as [ | x l IH]; simpl.
  - ring.
  - unfold np.sum in *. simpl. rewrite IH. ring.
Qed.

Lemma mean_map_mult (c : R) (l : list R) :
  xr.mean (map (Rmult c) l) = c * xr.mean l.
Proof.
  unfold xr.mean. rewrite sum_map_mult, length_map. unfold Rdiv. ring.
Qed.

(** The variance does not see the sign of the samples. *)
Lemma var_negated (l : list R) : xr.var (map (Rmult (-1)) l) = xr.var l.
Proof.
  unfold xr.var. rewrite mean_map_mult, map_map.
  f_equal. apply map_ext. intros x. ring.
Qed.

Lemma sum_nonneg (l : list R) : Forall (fun x => 0 <= x) l -> 0 <= np.sum l.
Proof.
  induction 1 as [ | x l Hx _ IH]; unfold np.sum in *; simpl; lra.
Qed.

Lemma var_nonneg (l : list R) : 0 <= xr.var l.
Proof.
  unfold xr.var, xr.mean. rewrite length_map.
  assert (Hs : 0 <= np.sum (map (fun x => (x - np.sum l / INR (length l)) ^ 2) l)).
  { apply sum_nonneg, Forall_forall. intros y Hy.
    apply in_map_iff in Hy. destruct Hy as (x & <- & _).
    apply pow2_ge_0. }
  destruct l as [ | x l].
  - simpl. unfold np.sum. simpl. unfold Rdiv. rewrite Rmult_0_l. lra.
  - apply Rmult_le_pos; [exact Hs | ].
    apply Rlt_le, Rinv_0_lt_compat, lt_0_INR. simpl. lia.
Qed.

Lemma getz_map {A B : Type} (f : A -> B) (l : list A) (d : A) (i : Z) :
  xr.getz (map f l) (f d) i = f (xr.getz l d i).
Proof.
  unfold xr.getz. destruct (i <? 0)%Z; [reflexivity | apply map_nth].
Qed.

Lemma window_map (f : option R -> option R) (w : Z) (xs : list (option R))
  (i : nat) :
  f None = None -> xr.window w (map f xs) i = map f (xr.window w xs i).
Proof.
  intros Hf. unfold xr.window. rewrite map_map. apply map_ext. intros k.
  rewrite <- Hf at 1. apply getz_map.
Qed.

Lemma present_lift1 (g : R -> R) (l : list (option R)) :
  xr.present (map (np.lift1 g) l) = map g (xr.present l).
Proof.
  induction l as [ | [x | ] l IH]; simpl; [ | rewrite IH | ]; auto.
Qed.

Lemma rolling_var_at_negated (w mp : Z) (xs : list (option R)) (i : nat) :
  xr.rolling_var_at w mp (map (np.lift1 (Rmult (-1))) xs) i
  = xr.rolling_var_at w mp xs i.
Proof.
  unfold xr.rolling_var_at.
  rewrite window_map by reflexivity.
  rewrite present_lift1, length_map, var_negated. reflexivity.
Qed.

Lemma mapi_ext {A B : Type} (f g : nat -> A -> B) (l : list A) :
  (forall i a, nth_error l i = Some a -> f i a = g i a) ->
  xr.mapi f l = xr.mapi g l.
Proof.
  intros H. unfold xr.mapi. apply map_ext_in. intros [i a] Hin.
  apply H.
  apply In_nth_error in Hin. destruct Hin as [n Hn].
  assert (Hlt : (n < length (combine (seq 0 (length l)) l))%nat).
  { apply nth_error_Some. congruence. }
  rewrite length_combine, length_seq, Nat.min_id in Hlt.
  pose proof (nth_error_nth _ _ (O, a) Hn) as Hnth.
  rewrite (combine_nth _ _ _ O a) in Hnth by now rewrite length_seq.
  rewrite seq_nth in Hnth by assumption. simpl in Hnth.
  injection Hnth as <- Ha.
  rewrite <- Ha. apply nth_error_nth'. assumption.
Qed.

Lemma mapi_map {A B C : Type} (f : nat -> B -> C) (g : A -> B) (l : list A) :
  xr.mapi f (map g l) = xr.mapi (fun i a => f i (g a)) l.
Proof.
  unfold xr.mapi. rewrite length_map.
  generalize (seq 0 (length l)). induction l as [ | a l IH]; intros [ | n s];
    simpl; try reflexivity.
  now rewrite IH.
Qed.

Lemma series2_map (f : option R -> option R) (a : list (list (option R)))
  (r : nat) :
  f None = None -> xr.series2 (map (map f) a) r = map f (xr.series2 a r).
Proof.
  intros Hf. unfold xr.series2. rewrite !map_map. apply map_ext. intros row.
  rewrite <- Hf at 1. apply map_nth.
Qed.

Lemma rolling_var2_negated (w mp : Z) (a : list (list (option R))) :
  xr.rolling_var2 w mp (map (map (np.lift1 (Rmult (-1)))) a)
  = xr.rolling_var2 w mp a.
Proof.
  unfold xr.rolling_var2. rewrite mapi_map.
  apply mapi_ext. intros t row _.
  rewrite mapi_map. apply mapi_ext. intros r x _.
  rewrite series2_map by reflexivity.
  apply rolling_var_at_negated.
Qed.

(** C10: the rolling variance of the negated series is the rolling variance
    of the series, at every label, for every window and every number of
    required samples; so the variance of the vertical beam, and with it the
    rVariance90 of [calc_variances], is what it would be without the factor
    -1. *)
Theorem variance_of_negated_series :
  (forall (w mp : Z) (xs : list (option R)),
      xr.rolling_var w mp (map (np.lift1 (Rmult (-1))) xs)
      = xr.rolling_var w mp xs)
  /\ (forall (data : list (list (option R))) (freq : Z),
         SixBeamMethod.get_variance90
           (map (map (np.lift1 (Rmult (-1)))) data) freq
         = SixBeamMethod.get_variance90 data freq)
  /\ (forall (d : SixBeamMethod.GetRestructuredData) (freq freq90 : Z)
        (rv : SixBeamMethod.radial_variances_t),
         SixBeamMethod.calc_variances d freq freq90 = Ok rv ->
         SixBeamMethod.get_variance90
           (SixBeamMethod.values90 (SixBeamMethod.data_transf_90 d)) freq90
         = Ok (SixBeamMethod.rVariance90 rv)).
Proof.
  assert (H2 : forall (data : list (list (option R))) (freq : Z),
             SixBeamMethod.get_variance90
               (map (map (np.lift1 (Rmult (-1)))) data) freq
             = SixBeamMethod.get_variance90 data freq).
  { intros data freq. unfold SixBeamMethod.get_variance90.
    now rewrite rolling_var2_negated. }
  split; [ | split; [exact H2 | ] ].
  - intros w mp xs. unfold xr.rolling_var. rewrite length_map.
    apply map_ext. intros i. apply rolling_var_at_negated.
  - intros d freq freq90 rv H.
    unfold SixBeamMethod.calc_variances in H.
    rewrite H2 in H.
    destruct (SixBeamMethod.get_variance _ freq) as [v | e];
      simpl in H; [ | discriminate].
    destruct (SixBeamMethod.get_variance90 _ freq90) as [v90 | e];
      simpl in H; [ | discriminate].
    injection H as <-. reflexivity.
Qed.

(** ** Entries of the arrays *)

Lemma nth_error_mapi {A B : Type} (f : nat -> A -> B) (l : list A) (n : nat) :
  nth_error (xr.mapi f l) n = option_map (f n) (nth_error l n).
Proof.
  unfold xr.mapi.
  assert (H : forall (l : list A) (k n : nat),
             nth_error (map (fun '(i, a) => f i a)
                            (combine (seq k (length l)) l)) n
             = option_map (f (k + n)%nat) (nth_error l n)).
  { clear. induction l as [ | a l IH]; intros k [ | n]; simpl;
      try reflexivity.
    - now rewrite Nat.add_0_r.
    - rewrite IH. now rewrite Nat.add_succ_r. }
  apply (H l O n).
Qed.

Lemma nth_error_combine {A B : Type} (a : list A) (b : list B) (n : nat) :
  nth_error (combine a b) n
  = match nth_error a n, nth_error b n with
    | Some x, Some y => Some (x, y)
    | _, _ => None
    end.
Proof.
  revert b n. induction a as [ | x a IH]; intros [ | y b] [ | n]; simpl;
    try reflexivity.
  - now destruct (nth_error a n).
  - apply IH.
Qed.

Lemma at2_map {A B : Type} (f : A -> B) (a : list (list A)) (t r : nat) :
  Spec.at2 (map (map f) a) t r = option_map f (Spec.at2 a t r).
Proof.
  unfold Spec.at2. rewrite nth_error_map.
  destruct (nth_error a t) as [row | ]; simpl; [ | reflexivity].
  apply nth_error_map.
Qed.

Lemma at2_rolling_var2 (w mp : Z) (a : list (list (option R))) (t r : nat) :
  Spec.at2 (xr.rolling_var2 w mp a) t r
  = option_map (fun _ => xr.rolling_var_at w mp (xr.series2 a r) t)
      (Spec.at2 a t r).
Proof.
  unfold Spec.at2, xr.rolling_var2. rewrite nth_error_mapi.
  destruct (nth_error a t) as [row | ]; simpl; [ | reflexivity].
  apply nth_error_mapi.
Qed.

Lemma at3_rolling_var3 (w mp : Z) (a : list (list (list (option R))))
  (t r z : nat) :
  Spec.at3 (xr.rolling_var3 w mp a) t r z
  = option_map (fun _ => xr.rolling_var_at w mp (xr.series3 a r z) t)
      (Spec.at3 a t r z).
Proof.
  unfold Spec.at3, Spec.at2, xr.rolling_var3. rewrite nth_error_mapi.
  destruct (nth_error a t) as [plane | ]; simpl; [ | reflexivity].
  rewrite nth_error_mapi.
  destruct (nth_error plane r) as [row | ]; simpl; [ | reflexivity].
  apply nth_error_mapi.
Qed.

Lemma min_periods_floor (freq : Z) :
  (0 <= freq)%Z -> SixBeamMethod.min_periods freq = (3 * freq / 10)%Z.
Proof.
  intros H. unfold SixBeamMethod.min_periods.
  apply Z.quot_div_nonneg; lia.
Qed.

Lemma rolling_check_ok (freq : Z) :
  (4 <= freq)%Z ->
  xr.rolling_check freq (SixBeamMethod.min_periods freq) = Ok tt.
Proof.
  intros H. unfold xr.rolling_check.
  rewrite min_periods_floor by lia.
  assert (1 <= 3 * freq / 10)%Z.
  { apply Z.div_le_lower_bound; lia. }
  destruct (Z.leb_spec freq 0); [lia | ].
  destruct (Z.leb_spec (3 * freq / 10) 0); [lia | reflexivity].
Qed.

(** A window of fewer than four profiles asks for no sample at all, which
    [rolling] refuses. *)
Lemma rolling_check_small (freq : Z) :
  (freq < 4)%Z ->
  xr.rolling_check freq (SixBeamMethod.min_periods freq) = Raise ValueError.
Proof.
  intros H. unfold xr.rolling_check.
  destruct (Z.leb_spec freq 0); [reflexivity | ].
  rewrite min_periods_floor by lia.
  assert (3 * freq / 10 = 0)%Z as -> by (apply Z.div_small; lia).
  reflexivity.
Qed.

Lemma rolling_var_at_emits (w mp : Z) (xs : list (option R)) (i : nat) :
  xr.rolling_var_at w mp xs i <> None
  <-> (mp <= Spec.present_in_window w xs i)%Z.
Proof.
  unfold xr.rolling_var_at, Spec.present_in_window.
  destruct (Z.leb_spec mp (Z.of_nat (length (xr.present (xr.window w xs i)))));
    split; intros H'; try congruence; try lia.
Qed.

(** C8, as the code has it: for a window of at least four profiles
    [get_variance] raises nothing, and the variance at a time is a value if
    and only if the samples present in the centred window are at least the
    integer part of 0.3 freq; so it is a value whenever 30% of the window is
    present, and NaN otherwise only below that integer part. *)
Theorem get_variance_emits (freq : Z)
  (slanted : list (list (list (option R))))
  (vertical : list (list (option R))) :
  (4 <= freq)%Z ->
  (exists out,
      SixBeamMethod.get_variance slanted freq = Ok out
      /\ forall t r z x,
        Spec.at3 slanted t r z = Some x ->
        exists v,
          Spec.at3 out t r z = Some v
          /\ (v <> None
              <-> (3 * freq / 10
                   <= Spec.present_in_window freq (xr.series3 slanted r z) t)%Z)
          /\ ((3 * freq
               <= 10 * Spec.present_in_window freq (xr.series3 slanted r z) t)%Z
              -> v <> None))
  /\ (exists out,
         SixBeamMethod.get_variance90 vertical freq = Ok out
         /\ forall t r x,
           Spec.at2 vertical t r = Some x ->
           exists v,
             Spec.at2 out t r = Some v
             /\ (v <> None
                 <-> (3 * freq / 10
                      <= Spec.present_in_window freq (xr.series2 vertical r) t)%Z)
             /\ ((3 * freq
                  <= 10 * Spec.present_in_window freq (xr.series2 vertical r) t)%Z
                 -> v <> None)).
Proof.
  intros Hf.
  assert (Himp : forall n : Z, (3 * freq <= 10 * n)%Z -> (3 * freq / 10 <= n)%Z).
  { intros n Hn. apply Z.div_le_upper_bound; lia. }
  split.
  - unfold SixBeamMethod.get_variance. rewrite rolling_check_ok by assumption.
    simpl. eexists. split; [reflexivity | ].
    intros t r z x Hx. rewrite at3_rolling_var3, Hx. simpl.
    eexists. split; [reflexivity | ].
    rewrite min_periods_floor by lia.
    split; [apply rolling_var_at_emits | ].
    intros Hn. apply rolling_var_at_emits. now apply Himp.
  - unfold SixBeamMethod.get_variance90. rewrite rolling_check_ok by assumption.
    simpl. eexists. split; [reflexivity | ].
    intros t r x Hx. rewrite at2_rolling_var2, Hx. simpl.
    eexists. split; [reflexivity | ].
    rewrite min_periods_floor by lia.
    split; [apply rolling_var_at_emits | ].
    intros Hn. apply rolling_var_at_emits. now apply Himp.
Qed.

Ltac compute_data :=
  cbv - [IZR INR Rplus Rmult Rminus Ropp Rdiv Rinv xr.var cos sin PI sqrt atan
         Req_dec_T Rlt_dec Rle_dec Rge_dec up np.inverse np.det
         SixBeamMethod.m_matrix_line].

(** C8, against the claim as stated: with a window of five profiles one
    sample is enough; the variance at the third of five times is a value
    though a single sample of the window, 20% of it, is present. *)
Lemma get_variance_below_30_percent :
  let vertical := [[Some 1]; [None]; [None]; [None]; [None]] in
  exists out v,
    SixBeamMethod.get_variance90 vertical 5 = Ok out
    /\ Spec.at2 out 2 0 = Some (Some v)
    /\ (10 * Spec.present_in_window 5 (xr.series2 vertical 0) 2 < 3 * 5)%Z.
Proof.
  intros vertical. eexists. eexists.
  split; [reflexivity | ].
  split.
  - unfold vertical. compute_data. reflexivity.
  - compute_data. reflexivity.
Qed.

(** * The inverse of the geometry matrix *)

Section VerticalRow.

Variables a1 b1 c1 d1 e1 f1 a2 b2 c2 d2 e2 f2 a3 b3 c3 d3 e3 f3 : R.
Variables a4 b4 c4 d4 e4 f4 a5 b5 c5 d5 e5 f5 : R.

(** Cofactors along the column of var_w of a matrix whose last row is
    (0, 0, 1, 0, 0, 0). *)
Lemma cofactor_vertical_column :
  let M := [[a1; b1; c1; d1; e1; f1]; [a2; b2; c2; d2; e2; f2];
            [a3; b3; c3; d3; e3; f3]; [a4; b4; c4; d4; e4; f4];
            [a5; b5; c5; d5; e5; f5]; [0; 0; 1; 0; 0; 0]] in
  map (fun j => np.cofactor M j 2) (seq 0 6) = [0; 0; 0; 0; 0; np.det M].
Proof.
  cbv zeta. unfold_det.
  repeat (f_equal; try ring).
Qed.

End VerticalRow.

(** The row of var_w of the inverse is (0, 0, 0, 0, 0, 1). *)
Lemma inverse_row_w (phi t1 t2 t3 t4 t5 : R) :
  let M := [SixBeamMethod.m_matrix_line phi t1;
            SixBeamMethod.m_matrix_line phi t2;
            SixBeamMethod.m_matrix_line phi t3;
            SixBeamMethod.m_matrix_line phi t4;
            SixBeamMethod.m_matrix_line phi t5; [0; 0; 1; 0; 0; 0]] in
  np.det M <> 0 -> nth 2 (np.inverse M) [] = [0; 0; 0; 0; 0; 1].
Proof.
  intros M HM. unfold np.inverse.
  change (length M) with 6%nat.
  change (nth 2 (map (fun i => map (fun j => np.cofactor M j i / np.det M)
                                   (seq 0 6)) (seq 0 6)) [])
    with (map (fun j => np.cofactor M j 2 / np.det M) (seq 0 6)).
  rewrite <- (map_map (fun j => np.cofactor M j 2) (fun c => c / np.det M)).
  assert (Hc : map (fun j => np.cofactor M j 2) (seq 0 6)
               = [0; 0; 0; 0; 0; np.det M]).
  { unfold M, SixBeamMethod.m_matrix_line.
    apply cofactor_vertical_column. }
  rewrite Hc. cbn [map].
  repeat (f_equal; try (field; exact HM)).
Qed.

(** The product of the row (0, 0, 0, 0, 0, 1) with a column: its last
    entry, unless an entry of the column is NaN. *)
Lemma unit_row_times_column (s : list (option R)) (s90 : option R) :
  length s = 5%nat ->
  np.nansum_strict
    (map (fun '(a, x) => np.lift1 (Rmult a) x)
         (combine [0; 0; 0; 0; 0; 1] (s ++ [s90])))
  = if Spec.all_defined s then s90 else None.
Proof.
  intros H. destruct (length_five _ H) as (o1 & o2 & o3 & o4 & o5 & ->).
  destruct o1, o2, o3, o4, o5, s90; simpl; try reflexivity.
  f_equal. ring.
Qed.

Lemma nth_matvec (M : np.matrix) (v : list (option R)) (i : nat) :
  (i < length M)%nat ->
  nth i (np.matvec M v) None
  = np.nansum_strict
      (map (fun '(a, x) => np.lift1 (Rmult a) x) (combine (nth i M []) v)).
Proof.
  intros H. unfold np.matvec.
  rewrite (nth_indep _ None (np.nansum_strict
      (map (fun '(a, x) => np.lift1 (Rmult a) x) (combine [] v))))
    by now rewrite length_map.
  apply (map_nth (fun row => np.nansum_strict
      (map (fun '(a, x) => np.lift1 (Rmult a) x) (combine row v)))).
Qed.

Lemma length_inverse (M : np.matrix) : length (np.inverse M) = length M.
Proof. unfold np.inverse. now rewrite length_map, length_seq. Qed.

(** * The retrieved components, cell by cell *)

Lemma nearest_In {A : Type} (later : bool) (t : Z) (src : list (Z * A))
  (ti : Z) (v : A) :
  xr.nearest later t src = Some (ti, v) -> In (ti, v) src.
Proof.
  induction src as [ | [tj w] src IH]; simpl; [discriminate | ].
  destruct (xr.nearest later t src) as [[tk u] | ].
  - destruct (xr.closer later t tj tk); intros [= <- <-]; auto.
  - intros [= <- <-]. auto.
Qed.

Lemma interp_nearest_length (n : nat)
  (src : list (Z * list (list (option R)))) (target : list Z) :
  Forall (Forall (fun c : list (option R) => length c = n)) (map snd src) ->
  Forall (Forall (fun c : list (option R) => length c = n))
         (xr.interp_nearest src target).
Proof.
  intros H. unfold xr.interp_nearest. apply Forall_forall.
  intros plane Hin. apply in_map_iff in Hin. destruct Hin as (t & <- & _).
  destruct (xr.nearest false t src) as [[ti v] | ] eqn:E; [ | constructor].
  apply nearest_In in E.
  assert (Hv : Forall (fun c : list (option R) => length c = n) v).
  { rewrite Forall_forall in H. apply H.
    change v with (snd (ti, v)). now apply in_map. }
  destruct (xr.out_of_bounds t src); [ | exact Hv].
  apply Forall_forall. intros c Hc.
  apply in_map_iff in Hc. destruct Hc as (c' & <- & Hc').
  rewrite length_map. rewrite Forall_forall in Hv. now apply Hv.
Qed.

Lemma at2_Forall {A : Type} (P : A -> Prop) (a : list (list A)) (t r : nat)
  (c : A) :
  Forall (Forall P) a -> Spec.at2 a t r = Some c -> P c.
Proof.
  unfold Spec.at2. intros H E.
  destruct (nth_error a t) as [row | ] eqn:Et; [ | discriminate].
  apply nth_error_In in Et, E.
  rewrite Forall_forall in H. specialize (H _ Et).
  rewrite Forall_forall in H. now apply H.
Qed.

Lemma length_mapi {A B : Type} (f : nat -> A -> B) (l : list A) :
  length (xr.mapi f l) = length l.
Proof.
  unfold xr.mapi.
  now rewrite length_map, length_combine, length_seq, Nat.min_id.
Qed.

Lemma at2_rolling_var3 (w mp : Z) (a : list (list (list (option R))))
  (t r : nat) :
  Spec.at2 (xr.rolling_var3 w mp a) t r
  = option_map
      (xr.mapi (fun z _ => xr.rolling_var_at w mp (xr.series3 a r z) t))
      (Spec.at2 a t r).
Proof.
  unfold Spec.at2, xr.rolling_var3. rewrite nth_error_mapi.
  destruct (nth_error a t) as [plane | ]; simpl; [ | reflexivity].
  rewrite nth_error_mapi. reflexivity.
Qed.

Lemma at2_s_matrix (rv : SixBeamMethod.radial_variances_t)
  (S : list (list (list (option R)))) (t r : nat) :
  SixBeamMethod.get_s_matrix rv = Ok S ->
  Spec.at2 S t r
  = match Spec.at2 (SixBeamMethod.rVariance rv) t r,
          Spec.at2 (SixBeamMethod.rVariance90 rv) t r with
    | Some s, Some s90 => Some (s ++ [s90])
    | _, _ => None
    end.
Proof.
  unfold SixBeamMethod.get_s_matrix.
  destruct (SixBeamMethod.same_shape _ _); [ | discriminate].
  intros [= <-]. unfold Spec.at2.
  rewrite nth_error_map, nth_error_combine.
  destruct (nth_error (SixBeamMethod.rVariance rv) t) as [plane | ];
    [ | reflexivity].
  destruct (nth_error (SixBeamMethod.rVariance90 rv) t) as [row90 | ]; simpl.
  - rewrite nth_error_map, nth_error_combine.
    destruct (nth_error plane r), (nth_error row90 r); reflexivity.
  - now destruct (nth_error plane r).
Qed.

Lemma calc_variances_ok (d : SixBeamMethod.GetRestructuredData)
  (freq freq90 : Z) (rv : SixBeamMethod.radial_variances_t) :
  SixBeamMethod.calc_variances d freq freq90 = Ok rv ->
  SixBeamMethod.rVariance rv
  = xr.rolling_var3 freq (SixBeamMethod.min_periods freq)
      (xr.interp_nearest
         (combine (SixBeamMethod.time (SixBeamMethod.data_transf d))
                  (SixBeamMethod.values (SixBeamMethod.data_transf d)))
         (SixBeamMethod.time90 (SixBeamMethod.data_transf_90 d)))
  /\ SixBeamMethod.rVariance90 rv
     = xr.rolling_var2 freq90 (SixBeamMethod.min_periods freq90)
         (map (map (np.lift1 (Rmult (-1))))
              (SixBeamMethod.values90 (SixBeamMethod.data_transf_90 d))).
Proof.
  unfold SixBeamMethod.calc_variances, SixBeamMethod.get_variance,
    SixBeamMethod.get_variance90.
  destruct (xr.rolling_check freq _); simpl; [ | discriminate].
  destruct (xr.rolling_check freq90 _); simpl; [ | discriminate].
  intros [= <-]. simpl. split; reflexivity.
Qed.

Lemma get_m_matrix_ok (elv : R) (azm : list R) (M : np.matrix) :
  SixBeamMethod.get_m_matrix elv azm = Ok M ->
  exists a1 a2 a3 a4 a5,
    azm = [a1; a2; a3; a4; a5]
    /\ M = [SixBeamMethod.m_matrix_line (np.deg2rad elv) (np.deg2rad a1);
            SixBeamMethod.m_matrix_line (np.deg2rad elv) (np.deg2rad a2);
            SixBeamMethod.m_matrix_line (np.deg2rad elv) (np.deg2rad a3);
            SixBeamMethod.m_matrix_line (np.deg2rad elv) (np.deg2rad a4);
            SixBeamMethod.m_matrix_line (np.deg2rad elv) (np.deg2rad a5);
            [0; 0; 1; 0; 0; 0]].
Proof.
  intros H.
  destruct (Nat.eq_dec (length azm) 5) as [E | N].
  - destruct (length_five _ E) as (a1 & a2 & a3 & a4 & a5 & ->).
    rewrite get_m_matrix_five in H. injection H as <-.
    now exists a1, a2, a3, a4, a5.
  - rewrite get_m_matrix_not_five in H by assumption. discriminate.
Qed.

(** What a retrieval that returns has computed. *)
Lemma init_ok (d : SixBeamMethod.GetRestructuredData) (freq freq90 : Z)
  (ds : SixBeamMethod.var_comp_ds_t) :
  SixBeamMethod.init (SixBeamMethod.Restructured d) freq freq90 = Ok ds ->
  exists M rv S,
    SixBeamMethod.get_m_matrix
      (SixBeamMethod.elv (SixBeamMethod.data_transf d))
      (SixBeamMethod.azm (SixBeamMethod.data_transf d)) = Ok M
    /\ np.det M <> 0
    /\ SixBeamMethod.calc_variances d freq freq90 = Ok rv
    /\ SixBeamMethod.get_s_matrix rv = Ok S
    /\ ds = SixBeamMethod.get_variance_ds
              (SixBeamMethod.time90 (SixBeamMethod.data_transf_90 d))
              (SixBeamMethod.get_sigma (np.inverse M) S).
Proof.
  unfold SixBeamMethod.init. intros H.
  destruct (SixBeamMethod.get_m_matrix _ _) as [M | e]; simpl in H;
    [ | discriminate].
  unfold SixBeamMethod.get_m_matrix_inv, np.linalg_inv in H.
  destruct (Req_dec_T (np.det M) 0) as [E | N]; simpl in H; [discriminate | ].
  destruct (SixBeamMethod.calc_variances d freq freq90) as [rv | e];
    simpl in H; [ | discriminate].
  destruct (SixBeamMethod.get_s_matrix rv) as [S | e] eqn:ES; simpl in H;
    [ | discriminate].
  injection H as <-. now exists M, rv, S.
Qed.

(** The same, the other way round. *)
Lemma init_returns (d : SixBeamMethod.GetRestructuredData) (freq freq90 : Z)
  (M : np.matrix) (rv : SixBeamMethod.radial_variances_t)
  (S : list (list (list (option R)))) :
  SixBeamMethod.get_m_matrix
    (SixBeamMethod.elv (SixBeamMethod.data_transf d))
    (SixBeamMethod.azm (SixBeamMethod.data_transf d)) = Ok M ->
  np.det M <> 0 ->
  SixBeamMethod.calc_variances d freq freq90 = Ok rv ->
  SixBeamMethod.get_s_matrix rv = Ok S ->
  SixBeamMethod.init (SixBeamMethod.Restructured d) freq freq90
  = Ok (SixBeamMethod.get_variance_ds
          (SixBeamMethod.time90 (SixBeamMethod.data_transf_90 d))
          (SixBeamMethod.get_sigma (np.inverse M) S)).
Proof.
  intros HM Hdet Hrv HS. unfold SixBeamMethod.init.
  rewrite HM. simpl.
  unfold SixBeamMethod.get_m_matrix_inv, np.linalg_inv.
  destruct (Req_dec_T (np.det M) 0) as [E | N]; [contradiction | ].
  simpl. rewrite Hrv. simpl. rewrite HS. reflexivity.
Qed.

(** The component [i] of SIGMA at a cell: the row [i] of the inverse times
    the six variances of the cell. *)
Lemma at2_component (Minv : np.matrix) (rv : SixBeamMethod.radial_variances_t)
  (S : list (list (list (option R)))) (i t r : nat) :
  SixBeamMethod.get_s_matrix rv = Ok S ->
  Spec.at2 (SixBeamMethod.component (SixBeamMethod.get_sigma Minv S) i) t r
  = match Spec.at2 (SixBeamMethod.rVariance rv) t r,
          Spec.at2 (SixBeamMethod.rVariance90 rv) t r with
    | Some s, Some s90 => Some (nth i (np.matvec Minv (s ++ [s90])) None)
    | _, _ => None
    end.
Proof.
  intros HS. unfold SixBeamMethod.component, SixBeamMethod.get_sigma.
  rewrite !at2_map, (at2_s_matrix _ _ _ HS).
  destruct (Spec.at2 (SixBeamMethod.rVariance rv) t r),
    (Spec.at2 (SixBeamMethod.rVariance90 rv) t r); reflexivity.
Qed.

(** The slanted variances of a cell are five. *)
Lemma rVariance_length (d : SixBeamMethod.GetRestructuredData)
  (freq freq90 : Z) (rv : SixBeamMethod.radial_variances_t) (t r : nat)
  (s : list (option R)) :
  Spec.well_formed d ->
  SixBeamMethod.calc_variances d freq freq90 = Ok rv ->
  Spec.at2 (SixBeamMethod.rVariance rv) t r = Some s ->
  length s = length (SixBeamMethod.azm (SixBeamMethod.data_transf d)).
Proof.
  intros Hwf Hrv Hs.
  destruct (calc_variances_ok _ _ _ Hrv) as [E _].
  rewrite E, at2_rolling_var3 in Hs.
  destruct (Spec.at2 _ t r) as [c | ] eqn:Ec; [ | discriminate].
  injection Hs as <-. rewrite length_mapi.
  eapply at2_Forall with (P := fun c : list (option R) => length c = _);
    [ | exact Ec].
  apply interp_nearest_length.
  apply Forall_forall. intros v Hin.
  apply in_map_iff in Hin. destruct Hin as ([ti v'] & <- & Hin).
  apply in_combine_r in Hin. simpl.
  unfold Spec.well_formed in Hwf. rewrite Forall_forall in Hwf.
  now apply Hwf.
Qed.

Lemma det_m_matrix_neq_0 (elv a1 a2 a3 a4 a5 : R) :
  0 < elv < 90 ->
  Forall (fun a => 0 <= a < 360) [a1; a2; a3; a4; a5] ->
  NoDup [a1; a2; a3; a4; a5] ->
  np.det [SixBeamMethod.m_matrix_line (np.deg2rad elv) (np.deg2rad a1);
          SixBeamMethod.m_matrix_line (np.deg2rad elv) (np.deg2rad a2);
          SixBeamMethod.m_matrix_line (np.deg2rad elv) (np.deg2rad a3);
          SixBeamMethod.m_matrix_line (np.deg2rad elv) (np.deg2rad a4);
          SixBeamMethod.m_matrix_line (np.deg2rad elv) (np.deg2rad a5);
          [0; 0; 1; 0; 0; 0]] <> 0.
Proof.
  intros Helv Hr Hn. rewrite det_m_matrix.
  destruct (cos_sin_slanted Helv) as [Hc Hs].
  apply Rmult_integral_contrapositive_currified;
    [ | now apply half_difference_product_neq_0 ].
  repeat apply Rmult_integral_contrapositive_currified;
    try (apply pow_nonzero; assumption); lra.
Qed.

Lemma example_azimuths :
  Forall (fun a => 0 <= a < 360) [0; 72; 144; 216; 288]
  /\ NoDup [0; 72; 144; 216; 288].
Proof.
  split.
  - repeat constructor; lra.
  - repeat constructor; simpl; intros H;
      repeat (destruct H as [H | H]; [lra | ]); exact H.
Qed.

(** The variance of the vertical component, cell by cell: the variance of
    the vertical beam when the five slanted variances of the cell are
    numbers, NaN when one of them is. *)
Lemma var_w_cell (d : SixBeamMethod.GetRestructuredData) (freq freq90 : Z)
  (ds : SixBeamMethod.var_comp_ds_t) :
  Spec.well_formed d ->
  SixBeamMethod.init (SixBeamMethod.Restructured d) freq freq90 = Ok ds ->
  exists rv,
    SixBeamMethod.calc_variances d freq freq90 = Ok rv
    /\ forall t r,
      Spec.at2 (SixBeamMethod.var_w ds) t r
      = match Spec.at2 (SixBeamMethod.rVariance rv) t r,
              Spec.at2 (SixBeamMethod.rVariance90 rv) t r with
        | Some s, Some s90 => Some (if Spec.all_defined s then s90 else None)
        | _, _ => None
        end.
Proof.
  intros Hwf Hinit.
  destruct (init_ok _ _ _ Hinit) as (M & rv & S & HM & Hdet & Hrv & HS & ->).
  exists rv. split; [exact Hrv | ].
  intros t r.
  destruct (get_m_matrix_ok _ _ HM) as (a1 & a2 & a3 & a4 & a5 & Hazm & ->).
  change (SixBeamMethod.var_w (SixBeamMethod.get_variance_ds ?t ?sg))
    with (SixBeamMethod.component sg 2).
  rewrite (at2_component _ _ _ _ _ HS).
  destruct (Spec.at2 (SixBeamMethod.rVariance rv) t r) as [s | ] eqn:Hs;
    [ | reflexivity].
  destruct (Spec.at2 (SixBeamMethod.rVariance90 rv) t r) as [s90 | ] eqn:Hs90;
    [ | reflexivity].
  rewrite nth_matvec by (rewrite length_inverse; simpl; lia).
  rewrite inverse_row_w by exact Hdet.
  rewrite unit_row_times_column; [reflexivity | ].
  rewrite (@rVariance_length _ _ _ _ _ _ _ Hwf Hrv Hs), Hazm. reflexivity.
Qed.

(** C9, as the code has it: in exact arithmetic the var_w of a retrieval that
    returns is, at every (time, range) cell whose five slanted variances are
    numbers, the rolling variance of the vertical beam, whatever those five
    numbers are; at a cell where one of the five is NaN, var_w is NaN. *)
Theorem var_w_is_vertical_variance (d : SixBeamMethod.GetRestructuredData)
  (freq freq90 : Z) (ds : SixBeamMethod.var_comp_ds_t) :
  Spec.well_formed d ->
  SixBeamMethod.init (SixBeamMethod.Restructured d) freq freq90 = Ok ds ->
  exists rv,
    SixBeamMethod.calc_variances d freq freq90 = Ok rv
    /\ (forall t r s s90,
           Spec.at2 (SixBeamMethod.rVariance rv) t r = Some s ->
           Spec.at2 (SixBeamMethod.rVariance90 rv) t r = Some s90 ->
           Spec.all_defined s = true ->
           Spec.at2 (SixBeamMethod.var_w ds) t r = Some s90)
    /\ (forall t r s s90,
           Spec.at2 (SixBeamMethod.rVariance rv) t r = Some s ->
           Spec.at2 (SixBeamMethod.rVariance90 rv) t r = Some s90 ->
           Spec.all_defined s = false ->
           Spec.at2 (SixBeamMethod.var_w ds) t r = Some None).
Proof.
  intros Hwf Hinit.
  destruct (var_w_cell _ _ Hwf Hinit) as (rv & Hrv & Hcell).
  exists rv. split; [exact Hrv | ].
  split; intros t r s s90 Hs Hs90 Hdef;
    rewrite Hcell, Hs, Hs90, Hdef; reflexivity.
Qed.

Lemma example_regular :
  np.det [SixBeamMethod.m_matrix_line (np.deg2rad 75) (np.deg2rad 0);
          SixBeamMethod.m_matrix_line (np.deg2rad 75) (np.deg2rad 72);
          SixBeamMethod.m_matrix_line (np.deg2rad 75) (np.deg2rad 144);
          SixBeamMethod.m_matrix_line (np.deg2rad 75) (np.deg2rad 216);
          SixBeamMethod.m_matrix_line (np.deg2rad 75) (np.deg2rad 288);
          [0; 0; 1; 0; 0; 0]] <> 0.
Proof.
  destruct example_azimuths as [Hr Hn].
  apply det_m_matrix_neq_0; [lra | exact Hr | exact Hn].
Qed.

Lemma var_alternating : xr.var [-1 * 0; -1 * 1; -1 * 0] = 2 / 9.
Proof. unfold xr.var, xr.mean, np.sum. simpl. field. Qed.

Lemma var_steady : xr.var [0; 0; 0] = 0.
Proof. unfold xr.var, xr.mean, np.sum. simpl. field. Qed.

(** C9, against the claim as stated: with the slanted beams masked, the
    variance of the vertical beam at the second profile is a number and
    var_w is NaN. *)
Lemma var_w_masked_slanted :
  exists ds rv v,
    SixBeamMethod.init (SixBeamMethod.Restructured Examples.masked_slanted)
      4 4 = Ok ds
    /\ SixBeamMethod.calc_variances Examples.masked_slanted 4 4 = Ok rv
    /\ Spec.at2 (SixBeamMethod.rVariance90 rv) 1 0 = Some (Some v)
    /\ Spec.at2 (SixBeamMethod.var_w ds) 1 0 = Some None.
Proof.
  assert (Hrv : exists rv,
             SixBeamMethod.calc_variances Examples.masked_slanted 4 4 = Ok rv
             /\ Spec.at2 (SixBeamMethod.rVariance rv) 1 0
                = Some [None; None; None; None; None]
             /\ Spec.at2 (SixBeamMethod.rVariance90 rv) 1 0
                = Some (Some (xr.var [-1 * 0; -1 * 1; -1 * 0]))
             /\ exists S, SixBeamMethod.get_s_matrix rv = Ok S).
  { eexists. split; [compute_data; reflexivity | ].
    split; [compute_data; reflexivity | ].
    split; [compute_data; reflexivity | ].
    compute_data. eexists. reflexivity. }
  destruct Hrv as (rv & Hrv & Hs & Hs90 & S & HS).
  assert (Hinit := init_returns Examples.masked_slanted 4 4
                     (get_m_matrix_five 75 0 72 144 216 288)
                     example_regular Hrv HS).
  assert (Hwf : Spec.well_formed Examples.masked_slanted).
  { repeat constructor. }
  destruct (var_w_cell _ _ Hwf Hinit) as (rv' & Hrv' & Hcell).
  rewrite Hrv in Hrv'. injection Hrv' as <-.
  eexists. exists rv. eexists.
  split; [exact Hinit | ]. split; [exact Hrv | ]. split; [exact Hs90 | ].
  rewrite Hcell, Hs, Hs90. reflexivity.
Qed.

(** ** The horizontal variances are not variances *)

(** Cofactors of the last row, along the columns of var_u and var_v. *)
Lemma cofactor_horizontal (p q s1 c1 s2 c2 s3 c3 s4 c4 s5 c5 : R) :
  let M := [Spec.half_angle_row p q s1 c1; Spec.half_angle_row p q s2 c2;
            Spec.half_angle_row p q s3 c3; Spec.half_angle_row p q s4 c4;
            Spec.half_angle_row p q s5 c5; [0; 0; 1; 0; 0; 0]] in
  p ^ 2 * np.cofactor M 5 0 = - q ^ 2 * np.det M
  /\ p ^ 2 * np.cofactor M 5 1 = - q ^ 2 * np.det M.
Proof.
  cbv zeta. unfold Spec.half_angle_row. unfold_det. split; ring.
Qed.

(** With a variance on the vertical beam alone, var_u is that variance times
    minus the square of the tangent of the elevation. *)
Lemma var_u_vertical_only (phi t1 t2 t3 t4 t5 v : R) :
  let M := [SixBeamMethod.m_matrix_line phi t1;
            SixBeamMethod.m_matrix_line phi t2;
            SixBeamMethod.m_matrix_line phi t3;
            SixBeamMethod.m_matrix_line phi t4;
            SixBeamMethod.m_matrix_line phi t5; [0; 0; 1; 0; 0; 0]] in
  np.det M <> 0 -> cos phi <> 0 ->
  nth 0 (np.matvec (np.inverse M)
           [Some 0; Some 0; Some 0; Some 0; Some 0; Some v]) None
  = Some (- (sin phi / cos phi) ^ 2 * v).
Proof.
  intros M HM Hp.
  assert (HC : cos phi ^ 2 * np.cofactor M 5 0 = - sin phi ^ 2 * np.det M).
  { unfold M. rewrite !m_matrix_line_half_angle.
    apply cofactor_horizontal. }
  rewrite nth_matvec by (rewrite length_inverse; simpl; lia).
  unfold np.inverse. change (length M) with 6%nat.
  cbn [seq map nth combine np.nansum_strict fold_right np.lift1 np.lift2].
  f_equal.
  set (C := np.cofactor M 5 0) in *. set (D := np.det M) in *.
  assert (HCD : C = - (sin phi / cos phi) ^ 2 * D).
  { apply Rmult_eq_reg_l with (cos phi ^ 2);
      [ | now apply pow_nonzero ].
    rewrite HC. field. exact Hp. }
  rewrite HCD. field. split; assumption.
Qed.

(** C2, against the claim as stated: with steady slanted beams and a
    fluctuating vertical beam var_u is negative. *)
Lemma var_u_negative :
  exists ds x,
    SixBeamMethod.init (SixBeamMethod.Restructured Examples.steady_slanted)
      4 4 = Ok ds
    /\ Spec.at2 (SixBeamMethod.var_u ds) 1 0 = Some (Some x)
    /\ x < 0.
Proof.
  assert (Hrv : exists rv,
             SixBeamMethod.calc_variances Examples.steady_slanted 4 4 = Ok rv
             /\ Spec.at2 (SixBeamMethod.rVariance rv) 1 0
                = Some [Some (xr.var [0; 0; 0]); Some (xr.var [0; 0; 0]);
                        Some (xr.var [0; 0; 0]); Some (xr.var [0; 0; 0]);
                        Some (xr.var [0; 0; 0])]
             /\ Spec.at2 (SixBeamMethod.rVariance90 rv) 1 0
                = Some (Some (xr.var [-1 * 0; -1 * 1; -1 * 0]))
             /\ exists S, SixBeamMethod.get_s_matrix rv = Ok S).
  { eexists. split; [compute_data; reflexivity | ].
    split; [compute_data; reflexivity | ].
    split; [compute_data; reflexivity | ].
    compute_data. eexists. reflexivity. }
  destruct Hrv as (rv & Hrv & Hs & Hs90 & S & HS).
  assert (Hinit := init_returns Examples.steady_slanted 4 4
                     (get_m_matrix_five 75 0 72 144 216 288)
                     example_regular Hrv HS).
  destruct (@cos_sin_slanted 75) as [Hc Hsn]; [lra | ].
  eexists. exists (- (sin (np.deg2rad 75) / cos (np.deg2rad 75)) ^ 2 * (2 / 9)).
  split; [exact Hinit | ]. split.
  - change (SixBeamMethod.var_u (SixBeamMethod.get_variance_ds ?t ?sg))
      with (SixBeamMethod.component sg 0).
    rewrite (at2_component _ _ _ _ _ HS), Hs, Hs90.
    cbn [app]. rewrite var_steady, var_alternating. f_equal.
    apply var_u_vertical_only; [exact example_regular | exact Hc].
  - assert (0 < (sin (np.deg2rad 75) / cos (np.deg2rad 75)) ^ 2).
    { rewrite <- Rsqr_pow2. apply Rsqr_pos_lt. unfold Rdiv.
      apply Rmult_integral_contrapositive_currified;
        [exact Hsn | now apply Rinv_neq_0_compat]. }
    nra.
Qed.

(** C2, as the code has it: var_w is nowhere negative; at every cell where
    it is a number it is a rolling variance of the vertical beam.  Nothing of
    the kind holds of var_u and var_v, which are combinations of the six
    variances with coefficients of both signs. *)
Theorem var_w_nonnegative (d : SixBeamMethod.GetRestructuredData)
  (freq freq90 : Z) (ds : SixBeamMethod.var_comp_ds_t) (t r : nat) (x : R) :
  Spec.well_formed d ->
  SixBeamMethod.init (SixBeamMethod.Restructured d) freq freq90 = Ok ds ->
  Spec.at2 (SixBeamMethod.var_w ds) t r = Some (Some x) ->
  0 <= x.
Proof.
  intros Hwf Hinit Hx.
  destruct (var_w_cell _ _ Hwf Hinit) as (rv & Hrv & Hcell).
  rewrite Hcell in Hx.
  destruct (Spec.at2 (SixBeamMethod.rVariance rv) t r) as [s | ];
    [ | discriminate].
  destruct (Spec.at2 (SixBeamMethod.rVariance90 rv) t r) as [s90 | ] eqn:Hs90;
    [ | discriminate].
  destruct (Spec.all_defined s); [ | discriminate].
  injection Hx as ->.
  destruct (calc_variances_ok _ _ _ Hrv) as [_ E].
  rewrite E, at2_rolling_var2 in Hs90.
  destruct (Spec.at2 _ t r); [ | discriminate].
  simpl in Hs90. injection Hs90 as Hs90.
  unfold xr.rolling_var_at in Hs90.
  destruct (_ <=? _)%Z; [ | discriminate].
  injection Hs90 as <-. apply var_nonneg.
Qed.

(** * The transform of a first harmonic *)

Lemma sum_app (l1 l2 : list R) : np.sum (l1 ++ l2) = np.sum l1 + np.sum l2.
Proof.
  unfold np.sum. induction l1 as [ | x l1 IH]; simpl; [ring | ].
  rewrite IH. ring.
Qed.

Lemma sum_seq_S (f : nat -> R) (n : nat) :
  np.sum (map f (seq 0 (S n))) = np.sum (map f (seq 0 n)) + f n.
Proof.
  rewrite seq_S, map_app, sum_app. simpl. unfold np.sum. simpl. ring.
Qed.


(** Sums of cosines and of sines of angles in arithmetic progression. *)
Lemma cos_sum_telescope (delta beta : R) (n : nat) :
  2 * sin (delta / 2)
  * np.sum (map (fun j => cos (INR j * delta + beta)) (seq 0 n))
  = sin ((INR n - 1 / 2) * delta + beta) - sin (beta - delta / 2).
Proof.
  induction n as [ | n IH].
  - simpl. unfold np.sum. simpl.
    replace ((0 - 1 / 2) * delta + beta) with (beta - delta / 2) by field.
    ring.
  - rewrite sum_seq_S, Rmult_plus_distr_l, IH, S_INR.
    pose proof (form4 ((INR n + 1 - 1 / 2) * delta + beta)
                      ((INR n - 1 / 2) * delta + beta)) as F.
    replace (((INR n + 1 - 1 / 2) * delta + beta
              + ((INR n - 1 / 2) * delta + beta)) / 2)
      with (INR n * delta + beta) in F by field.
    replace (((INR n + 1 - 1 / 2) * delta + beta
              - ((INR n - 1 / 2) * delta + beta)) / 2)
      with (delta / 2) in F by field.
    lra.
Qed.

Lemma sin_sum_telescope (delta beta : R) (n : nat) :
  2 * sin (delta / 2)
  * np.sum (map (fun j => sin (INR j * delta + beta)) (seq 0 n))
  = cos (beta - delta / 2) - cos ((INR n - 1 / 2) * delta + beta).
Proof.
  induction n as [ | n IH].
  - simpl. unfold np.sum. simpl.
    replace ((0 - 1 / 2) * delta + beta) with (beta - delta / 2) by field.
    ring.
  - rewrite sum_seq_S, Rmult_plus_distr_l, IH, S_INR.
    pose proof (form2 ((INR n - 1 / 2) * delta + beta)
                      ((INR n + 1 - 1 / 2) * delta + beta)) as F.
    replace (((INR n - 1 / 2) * delta + beta
              + ((INR n + 1 - 1 / 2) * delta + beta)) / 2)
      with (INR n * delta + beta) in F by field.
    replace (((INR n - 1 / 2) * delta + beta
              - ((INR n + 1 - 1 / 2) * delta + beta)) / 2)
      with (- (delta / 2)) in F by field.
    rewrite sin_neg in F. lra.
Qed.

(** Over whole turns the sums vanish. *)
Lemma cos_sum_zero (n m : nat) (delta beta : R) :
  INR n * delta = 2 * INR m * PI -> 0 < delta / 2 < PI ->
  np.sum (map (fun j => cos (INR j * delta + beta)) (seq 0 n)) = 0.
Proof.
  intros Hturn Hd.
  pose proof (cos_sum_telescope delta beta n) as T.
  replace ((INR n - 1 / 2) * delta + beta)
    with (beta - delta / 2 + 2 * INR m * PI) in T by (rewrite <- Hturn; field).
  rewrite sin_period in T.
  assert (Hs : 0 < sin (delta / 2)) by (apply sin_gt_0; lra).
  nra.
Qed.

Lemma sin_sum_zero (n m : nat) (delta beta : R) :
  INR n * delta = 2 * INR m * PI -> 0 < delta / 2 < PI ->
  np.sum (map (fun j => sin (INR j * delta + beta)) (seq 0 n)) = 0.
Proof.
  intros Hturn Hd.
  pose proof (sin_sum_telescope delta beta n) as T.
  replace ((INR n - 1 / 2) * delta + beta)
    with (beta - delta / 2 + 2 * INR m * PI) in T by (rewrite <- Hturn; field).
  rewrite cos_period in T.
  assert (Hs : 0 < sin (delta / 2)) by (apply sin_gt_0; lra).
  nra.
Qed.

Lemma combine_map_self {A B : Type} (g : A -> B) (l : list A) :
  combine l (map g l) = map (fun x => (x, g x)) l.
Proof. induction l as [ | x l IH]; simpl; [ | rewrite IH]; reflexivity. Qed.

Lemma mapi_map_seq {B C : Type} (f : nat -> B -> C) (g : nat -> B) (n : nat) :
  xr.mapi f (map g (seq 0 n)) = map (fun j => f j (g j)) (seq 0 n).
Proof.
  unfold xr.mapi. rewrite length_map, length_seq, combine_map_self, map_map.
  reflexivity.
Qed.




(** ** The azimuths of a scan *)

Lemma diff_cons (x : R) (l : list R) :
  fftWindPropRet.diff (x :: l)
  = match l with
    | [] => []
    | y :: _ => (y - x) :: fftWindPropRet.diff l
    end.
Proof. destruct l; reflexivity. Qed.

Lemma diff_map_seq (g : nat -> R) (s n : nat) :
  fftWindPropRet.diff (map g (seq s n))
  = map (fun j => g (S j) - g j) (seq s (n - 1)).
Proof.
  revert s. induction n as [ | n IH]; intros s; [reflexivity | ].
  cbn [seq map]. rewrite diff_cons.
  destruct n as [ | n]; [reflexivity | ].
  rewrite IH. cbn [seq map Nat.sub]. rewrite Nat.sub_0_r. reflexivity.
Qed.

Lemma map_const_repeat {A B : Type} (c : B) (l : list A) :
  map (fun _ => c) l = repeat c (length l).
Proof. induction l as [ | x l IH]; simpl; [ | rewrite IH]; reflexivity. Qed.

(** The differences of the azimuths of a scan are all 360 / n. *)
Lemma diff_scan (a0 : R) (n : nat) :
  fftWindPropRet.diff (Spec.equally_spaced_from a0 n)
  = repeat (360 / INR n) (n - 1).
Proof.
  unfold Spec.equally_spaced_from. rewrite diff_map_seq.
  destruct n as [ | n]; [reflexivity | ].
  rewrite (map_ext _ (fun _ => 360 / INR (S n))).
  - now rewrite map_const_repeat, length_seq.
  - intros j. rewrite (S_INR j).
    assert (INR (S n) <> 0) by (apply not_0_INR; lia).
    field. assumption.
Qed.

Lemma length_scan (a0 : R) (n : nat) :
  length (Spec.equally_spaced_from a0 n) = n.
Proof. unfold Spec.equally_spaced_from. now rewrite length_map, length_seq. Qed.

Lemma step_positive (n : nat) : (1 <= n)%nat -> 0 < 360 / INR n.
Proof.
  intros H. apply Rdiv_lt_0_compat; [lra | ]. apply lt_0_INR. lia.
Qed.

Lemma spacing_scan (a0 : R) (n : nat) :
  (2 <= n)%nat ->
  fftWindPropRet.spacing (Spec.equally_spaced_from a0 n) = 360 / INR n.
Proof.
  intros H. unfold fftWindPropRet.spacing. rewrite diff_scan.
  destruct n as [ | [ | n]]; try lia. cbn [Nat.sub repeat nth].
  apply Rabs_right. apply Rle_ge, Rlt_le, step_positive. lia.
Qed.

Lemma evenly_spaced_scan (a0 : R) (n : nat) :
  fftWindPropRet.evenly_spaced (Spec.equally_spaced_from a0 n) = true.
Proof.
  unfold fftWindPropRet.evenly_spaced. rewrite diff_scan.
  apply forallb_forall. intros d Hd.
  assert (E : d = 360 / INR n) by (now apply repeat_spec in Hd).
  destruct (n - 1)%nat as [ | m]; [destruct Hd | ]. subst d.
  cbn [repeat nth].
  replace (360 / INR n - 360 / INR n) with 0 by ring.
  rewrite Rabs_R0.
  destruct (Rle_dec 0 (1 / 10 ^ 8 + 1 / 1000 * Rabs (360 / INR n)))
    as [_ | N]; [reflexivity | ].
  exfalso. apply N. pose proof (Rabs_pos (360 / INR n)). lra.
Qed.

(** xrft accepts the azimuths of a scan of two beams or more. *)
Lemma xrft_check_scan (a0 : R) (n : nat) :
  (2 <= n)%nat ->
  fftWindPropRet.xrft_check (Spec.equally_spaced_from a0 n) = Ok tt.
Proof.
  intros H. unfold fftWindPropRet.xrft_check.
  rewrite evenly_spaced_scan, spacing_scan by exact H.
  rewrite diff_scan.
  destruct n as [ | [ | n]]; try lia. cbn [Nat.sub repeat negb].
  destruct (Req_dec_T (360 / INR (S (S n))) 0) as [E | _]; [ | reflexivity].
  assert (0 < 360 / INR (S (S n))) by (apply step_positive; lia). lra.
Qed.

Lemma xrft_check_two (azm : list R) :
  fftWindPropRet.xrft_check azm = Ok tt -> (2 <= length azm)%nat.
Proof.
  unfold fftWindPropRet.xrft_check.
  destruct azm as [ | x [ | y azm]]; simpl; try discriminate.
  intros _. lia.
Qed.

Lemma hd_scan (a0 : R) (n : nat) :
  (1 <= n)%nat -> hd 0 (Spec.equally_spaced_from a0 n) = a0.
Proof.
  intros H. destruct n as [ | n]; [lia | ].
  unfold Spec.equally_spaced_from. cbn [seq map hd].
  assert (INR (S n) <> 0) by (apply not_0_INR; lia).
  simpl INR at 1. field. assumption.
Qed.

Lemma last_scan (a0 : R) (n : nat) :
  last (Spec.equally_spaced_from a0 (S n)) 0 = a0 + 360 * INR n / INR (S n).
Proof.
  unfold Spec.equally_spaced_from.
  rewrite seq_S, map_app. cbn [map]. now rewrite last_last.
Qed.

Lemma first_below_last (a0 : R) (n : nat) :
  (2 <= n)%nat ->
  hd 0 (Spec.equally_spaced_from a0 n)
  < last (Spec.equally_spaced_from a0 n) 0.
Proof.
  intros H. rewrite hd_scan by lia.
  destruct n as [ | n]; [lia | ]. rewrite last_scan.
  assert (0 < 360 * INR n / INR (S n)).
  { apply Rdiv_lt_0_compat.
    - apply Rmult_lt_0_compat; [lra | ]. apply lt_0_INR. lia.
    - apply lt_0_INR. lia. }
  lra.
Qed.

Lemma descending_scan (a0 : R) (n : nat) :
  (2 <= n)%nat ->
  fftWindPropRet.descending (Spec.equally_spaced_from a0 n) = false.
Proof.
  intros H. unfold fftWindPropRet.descending.
  pose proof (first_below_last a0 H).
  destruct (Rlt_dec _ _); [lra | reflexivity].
Qed.

Lemma nth_scan (a0 : R) (n j : nat) :
  (j < n)%nat ->
  nth j (Spec.equally_spaced_from a0 n) 0 = a0 + 360 * INR j / INR n.
Proof.
  intros H. unfold Spec.equally_spaced_from.
  rewrite (nth_indep _ 0 (a0 + 360 * INR 0 / INR n))
    by (now rewrite length_map, length_seq).
  rewrite (map_nth (fun j => a0 + 360 * INR j / INR n)).
  now rewrite seq_nth.
Qed.

Lemma lag_scan (a0 : R) (n : nat) :
  (2 <= n)%nat ->
  fftWindPropRet.lag (Spec.equally_spaced_from a0 n)
  = a0 + 360 * INR (n / 2) / INR n.
Proof.
  intros H. unfold fftWindPropRet.lag.
  pose proof (first_below_last a0 H).
  destruct (Rlt_dec _ _); [ | lra].
  rewrite length_scan. apply nth_scan.
  apply Nat.div_lt; lia.
Qed.

(** A scan from 0 degree. *)
Lemma equally_spaced_from_0 (n : nat) :
  Spec.equally_spaced_from 0 n = Spec.equally_spaced n.
Proof.
  unfold Spec.equally_spaced_from, Spec.equally_spaced.
  apply map_ext. intros j. ring.
Qed.

(** ** A scan downwards *)











(** ** The transform along a scan *)

(** Along a scan the sample [m] is referred to its own azimuth: the angle of
    the coefficient of frequency index [k] is [k] times that azimuth. *)
Lemma coefficient_scan (a0 : R) (n : nat) (xs : list R) (k : Z) :
  (2 <= n)%nat -> length xs = n ->
  fftWindPropRet.coefficient (Spec.equally_spaced_from a0 n) xs k
  = (360 / INR n
     * np.sum (xr.mapi
                 (fun m x =>
                    x * cos (IZR k * (INR m * (2 * PI / INR n)
                                      + np.deg2rad a0)))
                 xs),
     - (360 / INR n
        * np.sum (xr.mapi
                    (fun m x =>
                       x * sin (IZR k * (INR m * (2 * PI / INR n)
                                         + np.deg2rad a0)))
                    xs))).
Proof.
  intros Hn Hlen.
  assert (HN : INR n <> 0) by (apply not_0_INR; lia).
  unfold fftWindPropRet.coefficient, fftWindPropRet.ascending.
  rewrite spacing_scan, lag_scan, descending_scan, Hlen by exact Hn.
  assert (E : forall m : nat,
             2 * PI * (IZR k / (INR n * (360 / INR n)))
             * (a0 + 360 * INR (n / 2) / INR n
                + (INR m - INR (n / 2)) * (360 / INR n))
             = IZR k * (INR m * (2 * PI / INR n) + np.deg2rad a0)).
  { intros m. unfold np.deg2rad. field. exact HN. }
  f_equal; [ | f_equal]; f_equal; f_equal; apply mapi_ext; intros m x _;
    now rewrite E.
Qed.





(** ** The angle of a point *)

Lemma radius_factor (x y : R) :
  x <> 0 -> sqrt (x ^ 2 + y ^ 2) = Rabs x * sqrt (1 + Rsqr (y / x)).
Proof.
  intros Hx. rewrite <- sqrt_Rsqr_abs, <- sqrt_mult.
  - f_equal. unfold Rsqr. field. exact Hx.
  - apply Rle_0_sqr.
  - pose proof (Rle_0_sqr (y / x)). lra.
Qed.

Lemma root_positive (z : R) : 0 < sqrt (1 + Rsqr z).
Proof. apply sqrt_lt_R0. pose proof (Rle_0_sqr z). lra. Qed.

(** [arctan2 y x] is an angle of the point (x, y). *)
Lemma arctan2_polar (x y : R) :
  x <> 0 \/ y <> 0 ->
  sqrt (x ^ 2 + y ^ 2) * cos (np.arctan2 y x) = x
  /\ sqrt (x ^ 2 + y ^ 2) * sin (np.arctan2 y x) = y.
Proof.
  intros Hxy. unfold np.arctan2.
  pose proof (root_positive (y / x)) as Hw.
  destruct (Rlt_dec 0 x) as [Hpos | Hnpos].
  - rewrite radius_factor by lra. rewrite Rabs_right by lra.
    rewrite cos_atan, sin_atan. split; field; lra.
  - destruct (Rlt_dec x 0) as [Hneg | Hnneg].
    + rewrite radius_factor by lra. rewrite Rabs_left by lra.
      destruct (Rle_dec 0 y) as [Hy | Hy].
      * rewrite neg_cos, neg_sin, cos_atan, sin_atan. split; field; lra.
      * rewrite cos_minus, sin_minus, cos_PI, sin_PI, cos_atan, sin_atan.
        split; field; lra.
    + assert (Hx : x = 0) by lra. subst x.
      replace (0 ^ 2 + y ^ 2) with (y ^ 2) by ring.
      destruct (Rlt_dec 0 y) as [Hy | Hy].
      * rewrite sqrt_pow2 by lra. rewrite cos_PI2, sin_PI2. split; ring.
      * destruct (Rlt_dec y 0) as [Hy' | Hy'].
        -- replace (y ^ 2) with ((- y) ^ 2) by ring.
           rewrite sqrt_pow2 by lra.
           rewrite cos_neg, sin_neg, cos_PI2, sin_PI2. split; ring.
        -- exfalso. destruct Hxy; lra.
Qed.




(** ** The retrieval, cell by cell *)

Lemma all_present_map_Some (xs : list R) :
  fftWindPropRet.all_present (map Some xs) = Some xs.
Proof.
  unfold fftWindPropRet.all_present.
  induction xs as [ | x xs IH]; simpl; [reflexivity | ].
  now rewrite IH.
Qed.

(** The coefficient picked in the transform of a cell without NaN. *)
Lemma selected_coefficient (azm xs : list R) :
  (2 <= length xs)%nat ->
  nth (length xs - 2) (fftWindPropRet.xrft_fft azm (map Some xs)) None
  = Some (fftWindPropRet.coefficient azm xs
            (Spec.selected_frequency (length xs))).
Proof.
  intros H. unfold fftWindPropRet.xrft_fft.
  rewrite all_present_map_Some.
  rewrite (nth_indep _ None
             (Some (fftWindPropRet.coefficient azm xs
                      (fftWindPropRet.freq_index (length xs) 0))))
    by (rewrite length_map, length_seq; lia).
  rewrite (map_nth (fun j => Some (fftWindPropRet.coefficient azm xs
                                     (fftWindPropRet.freq_index (length xs) j)))).
  rewrite seq_nth by lia. reflexivity.
Qed.

Lemma isel_last_but_one (n : nat) :
  (2 <= n)%nat -> fftWindPropRet.isel_position n (-2) = Ok (n - 2)%nat.
Proof.
  intros H. unfold fftWindPropRet.isel_position.
  change (-2 <? 0)%Z with true. cbv iota.
  assert (E1 : (-2 + Z.of_nat n <? 0)%Z = false) by (apply Z.ltb_ge; lia).
  assert (E2 : (Z.of_nat n <=? -2 + Z.of_nat n)%Z = false)
    by (apply Z.leb_gt; lia).
  rewrite E1, E2. cbn [orb]. f_equal. lia.
Qed.

(** On azimuths that xrft accepts the coefficient picked is the last but
    one. *)
Lemma getCompAmp_checked (obs : fftWindPropRet.DopplerObs) :
  fftWindPropRet.xrft_check (fftWindPropRet.azm obs) = Ok tt ->
  fftWindPropRet.getCompAmp obs
  = Ok (map (map (fun c =>
                    nth (length (fftWindPropRet.azm obs) - 2)
                        (fftWindPropRet.xrft_fft (fftWindPropRet.azm obs) c)
                        None))
            (fftWindPropRet.values obs)).
Proof.
  intros H. unfold fftWindPropRet.getCompAmp. rewrite H. cbn [bind].
  rewrite isel_last_but_one by (now apply xrft_check_two). reflexivity.
Qed.

(** A retrieval that returns had azimuths that xrft accepts. *)
Lemma windProp_checked (obs : fftWindPropRet.DopplerObs)
  (wp : fftWindPropRet.windProp_t) :
  fftWindPropRet.windProp obs = Ok wp ->
  fftWindPropRet.xrft_check (fftWindPropRet.azm obs) = Ok tt.
Proof.
  intros H.
  destruct (fftWindPropRet.xrft_check (fftWindPropRet.azm obs))
    as [[] | e] eqn:E; [reflexivity | ].
  unfold fftWindPropRet.windProp, fftWindPropRet.getCompAmp in H.
  rewrite E in H. discriminate.
Qed.

(** The speed and the direction retrieved in a cell, from the coefficient
    picked in its transform. *)
Lemma windProp_cell (obs : fftWindPropRet.DopplerObs) :
  fftWindPropRet.xrft_check (fftWindPropRet.azm obs) = Ok tt ->
  exists wp,
    fftWindPropRet.windProp obs = Ok wp
    /\ forall t r c,
      Spec.at2 (fftWindPropRet.values obs) t r = Some c ->
      let z := nth (length (fftWindPropRet.azm obs) - 2)
                   (fftWindPropRet.xrft_fft (fftWindPropRet.azm obs) c)
                   None in
      Spec.at2 (fftWindPropRet.horizontal_wind_speed wp) t r
      = Some (np.lift1
                (fun s => s / cos (np.deg2rad (fftWindPropRet.elv obs)))
                (fftWindPropRet.lift_complex
                   (fun z => 2 * fftWindPropRet.Cabs z
                             / INR (length (fftWindPropRet.azm obs))) z))
      /\ Spec.at2 (fftWindPropRet.horizontal_wind_direction wp) t r
         = Some (np.lift1 (fun p => p + 180)
                   (fftWindPropRet.lift_complex
                      (fun z => - np.rad2deg (np.arctan2 (snd z) (fst z)))
                      z)).
Proof.
  intros Hn. unfold fftWindPropRet.windProp.
  rewrite getCompAmp_checked by exact Hn. simpl.
  eexists. split; [reflexivity | ].
  intros t r c Hc. simpl.
  unfold fftWindPropRet.getHorWindSpeed, fftWindPropRet.getRadWindSpeed,
    fftWindPropRet.getWindDir, fftWindPropRet.getPhase.
  rewrite !at2_map, Hc. simpl. split; reflexivity.
Qed.

Lemma length_equally_spaced (n : nat) : length (Spec.equally_spaced n) = n.
Proof. unfold Spec.equally_spaced. now rewrite length_map, length_seq. Qed.




(** ** Scans around the full circle *)









(** * The DBS retrieval *)

Lemma combine_map_map {A B C : Type} (f : A -> B) (g : A -> C) (l : list A) :
  combine (map f l) (map g l) = map (fun x => (f x, g x)) l.
Proof. induction l as [ | x l IH]; simpl; [ | rewrite IH]; reflexivity. Qed.

Lemma filter_map_comm {A B : Type} (P : B -> bool) (g : A -> B) (l : list A) :
  filter P (map g l) = map g (filter (fun x => P (g x)) l).
Proof.
  induction l as [ | x l IH]; simpl; [reflexivity | ].
  destruct (P (g x)); simpl; now rewrite IH.
Qed.

Lemma filter_filter {A : Type} (P Q : A -> bool) (l : list A) :
  filter Q (filter P l) = filter (fun x => P x && Q x) l.
Proof.
  induction l as [ | x l IH]; simpl; [reflexivity | ].
  destruct (P x); simpl; [ | exact IH].
  destruct (Q x); now rewrite IH.
Qed.

Lemma combine_positions {A B : Type} (da : A) (db : B) (a : list A)
  (b : list B) :
  length b = length a ->
  combine a b = map (fun i => (nth i a da, nth i b db)) (seq 0 (length a)).
Proof.
  revert b. induction a as [ | x a IH]; intros [ | y b] H; simpl in *;
    try discriminate; try reflexivity.
  f_equal. rewrite <- seq_shift, map_map. apply IH. lia.
Qed.

Lemma map_fst_combine_eq {A B : Type} (a : list A) (b : list B) :
  length b = length a -> map fst (combine a b) = a.
Proof.
  revert b. induction a as [ | x a IH]; intros [ | y b] H; simpl in *;
    try discriminate; try reflexivity.
  f_equal. apply IH. lia.
Qed.

Lemma map_snd_combine_eq {A B : Type} (a : list A) (b : list B) :
  length b = length a -> map snd (combine a b) = b.
Proof.
  revert b. induction a as [ | x a IH]; intros [ | y b] H; simpl in *;
    try discriminate; try reflexivity.
  f_equal. apply IH. lia.
Qed.

Lemma index_of_nth (l : list Z) (i : nat) :
  NoDup l -> (i < length l)%nat ->
  getWindProperties5Beam.index_of (nth i l 0%Z) l = i.
Proof.
  revert i. induction l as [ | x l IH]; intros i Hn Hi; simpl in *; [lia | ].
  inversion Hn as [ | ? ? Hx Hl]; subst.
  destruct i as [ | i].
  - now rewrite Z.eqb_refl.
  - destruct (Z.eqb_spec x (nth i l 0%Z)) as [E | N].
    + exfalso. apply Hx. rewrite E. apply nth_In. lia.
    + f_equal. apply IH; [assumption | lia].
Qed.

(** Selecting by the labels of some positions selects those positions. *)
Lemma sel_positions {A : Type} (d0 : A) (times : list Z) (col : list A)
  (idx : list nat) :
  NoDup times -> length col = length times ->
  Forall (fun i => (i < length times)%nat) idx ->
  getWindProperties5Beam.sel d0 (combine times col)
    (map (fun i => nth i times 0%Z) idx)
  = map (fun i => (nth i times 0%Z, nth i col d0)) idx.
Proof.
  intros Hn Hl Hidx. unfold getWindProperties5Beam.sel.
  rewrite map_fst_combine_eq, map_snd_combine_eq by assumption.
  rewrite map_map. apply map_ext_in. intros i Hi.
  rewrite Forall_forall in Hidx.
  rewrite index_of_nth; [reflexivity | assumption | now apply Hidx].
Qed.

Lemma time_where_positions {A : Type} (p : A -> bool) (dx : A)
  (times : list Z) (xs : list A) :
  length xs = length times ->
  getWindProperties5Beam.time_where p (combine times xs)
  = map (fun i => nth i times 0%Z)
        (filter (fun i => p (nth i xs dx)) (seq 0 (length times))).
Proof.
  intros Hl. unfold getWindProperties5Beam.time_where.
  rewrite (combine_positions 0%Z dx) by assumption.
  rewrite filter_map_comm, map_map. reflexivity.
Qed.

Lemma positions_in_range (P : nat -> bool) (n : nat) :
  Forall (fun i => (i < n)%nat) (filter P (seq 0 n)).
Proof.
  apply Forall_forall. intros i Hi.
  apply filter_In in Hi. destruct Hi as [Hi _].
  apply in_seq in Hi. lia.
Qed.

(** The fields of the slanted beams, position by position. *)
Lemma get_beams_positions (d : getWindProperties5Beam.Dataset) (tol : Z) :
  Spec.well_formed_dbs d ->
  let times := getWindProperties5Beam.time d in
  let idx := filter (Spec.slanted d) (seq 0 (length times)) in
  let b := getWindProperties5Beam.get_beams d tol in
  getWindProperties5Beam.azimuthNon90 b
  = map (fun i => (nth i times 0%Z, Spec.nominal_azimuth d i)) idx
  /\ getWindProperties5Beam.elevetionNon90 b
     = map (fun i =>
              (nth i times 0%Z,
               getWindProperties5Beam.round1
                 (nth i (getWindProperties5Beam.elevation d) 0))) idx
  /\ getWindProperties5Beam.radWindSpeedNon90 b
     = map (fun i =>
              (nth i times 0%Z,
               nth i (getWindProperties5Beam.radial_wind_speed d) [])) idx
  /\ getWindProperties5Beam.meanTimeNon90 b
     = map (fun i =>
              (nth i times 0%Z,
               nth i (getWindProperties5Beam.scan_mean_time d) 0%Z)) idx.
Proof.
  intros (Hn & He & Ha & Hm & Hh & Hv & Hs & Hc) times idx b.
  assert (Hidx : Forall (fun i => (i < length times)%nat) idx)
    by apply positions_in_range.
  assert (Ht : getWindProperties5Beam.time_where
                 (fun e => negb (getWindProperties5Beam.Req_bool e 90))
                 (combine times
                    (map getWindProperties5Beam.round1
                         (getWindProperties5Beam.elevation d)))
               = map (fun i => nth i times 0%Z) idx).
  { rewrite (time_where_positions _ (getWindProperties5Beam.round1 0))
      by (rewrite length_map; exact He).
    f_equal. apply filter_ext. intros i. unfold Spec.slanted.
    now rewrite (map_nth getWindProperties5Beam.round1). }
  unfold b, getWindProperties5Beam.get_beams. cbn.
  fold times. rewrite !Ht.
  rewrite !sel_positions by (try rewrite length_map; assumption).
  rewrite !map_map. cbn.
  repeat split; try reflexivity.
  apply map_ext_in. intros i Hi. f_equal.
  rewrite Forall_forall in Hidx. specialize (Hidx _ Hi).
  rewrite (nth_indep _ 0 (getWindProperties5Beam.round1 0))
    by (rewrite length_map; fold times in He; lia).
  apply (map_nth getWindProperties5Beam.round1).
Qed.

(** The beams of one azimuth, as the constructor and
    [calcHorWindComp_single_dbs] select them by label, are the slanted
    profiles of that nominal azimuth, each with the mean time of its scan. *)
Lemma beam_group_positions (d : getWindProperties5Beam.Dataset) (tol : Z)
  (target : R) :
  Spec.well_formed_dbs d ->
  getWindProperties5Beam.beam_group
    (getWindProperties5Beam.get_beams d tol) target
  = Spec.group d target.
Proof.
  intros Hwf.
  destruct (get_beams_positions tol Hwf) as (Haz & Hel & Hrw & Hmt).
  unfold getWindProperties5Beam.beam_group,
    getWindProperties5Beam.compWindSpeed,
    getWindProperties5Beam.where_drop,
    getWindProperties5Beam.assign_time.
  rewrite Haz, Hel, Hrw, Hmt.
  rewrite !combine_map_map, !map_map, !combine_map_map.
  rewrite !filter_map_comm, !map_map, combine_map_map, map_map.
  cbn. rewrite filter_filter.
  reflexivity.
Qed.

(** ** The masks *)

Lemma length_where2 {C : Type} (p : C -> bool) (a : list (list (option R)))
  (cond : list (list C)) :
  length cond = length a ->
  length (getWindProperties5Beam.where2 p a cond) = length a.
Proof.
  intros H. unfold getWindProperties5Beam.where2.
  rewrite length_map, length_combine, H. apply Nat.min_id.
Qed.

Lemma masked_dataset_fields (d : getWindProperties5Beam.Dataset)
  (statusFilter : bool) (cnr : option R) :
  let d' := Spec.masked_dataset d statusFilter cnr in
  getWindProperties5Beam.time d' = getWindProperties5Beam.time d
  /\ getWindProperties5Beam.elevation d' = getWindProperties5Beam.elevation d
  /\ getWindProperties5Beam.azimuth d' = getWindProperties5Beam.azimuth d
  /\ getWindProperties5Beam.scan_mean_time d'
     = getWindProperties5Beam.scan_mean_time d
  /\ getWindProperties5Beam.measurement_height d'
     = getWindProperties5Beam.measurement_height d
  /\ getWindProperties5Beam.radial_wind_speed_status d'
     = getWindProperties5Beam.radial_wind_speed_status d
  /\ getWindProperties5Beam.cnr d' = getWindProperties5Beam.cnr d.
Proof.
  unfold Spec.masked_dataset, getWindProperties5Beam.filter_cnr,
    getWindProperties5Beam.filter_status.
  destruct statusFilter, cnr; cbn; repeat split; reflexivity.
Qed.

Lemma set_radial_wind_speed_well_formed (d : getWindProperties5Beam.Dataset)
  (v : list (list (option R))) :
  Spec.well_formed_dbs d ->
  length v = length (getWindProperties5Beam.time d) ->
  Spec.well_formed_dbs (getWindProperties5Beam.set_radial_wind_speed d v).
Proof.
  intros (Hn & He & Ha & Hm & Hh & Hv & Hs & Hc) Hl.
  repeat split; assumption.
Qed.

Lemma masked_dataset_well_formed (d : getWindProperties5Beam.Dataset)
  (statusFilter : bool) (cnr : option R) :
  Spec.well_formed_dbs d ->
  Spec.well_formed_dbs (Spec.masked_dataset d statusFilter cnr).
Proof.
  intros Hwf.
  assert (H1 : Spec.well_formed_dbs
                 (getWindProperties5Beam.filter_status statusFilter d)).
  { unfold getWindProperties5Beam.filter_status.
    destruct statusFilter; [ | exact Hwf].
    apply set_radial_wind_speed_well_formed; [exact Hwf | ].
    destruct Hwf as (Hn & He & Ha & Hm & Hh & Hv & Hs & Hc).
    rewrite length_where2; congruence. }
  unfold Spec.masked_dataset, getWindProperties5Beam.filter_cnr.
  destruct cnr as [c | ]; [ | exact H1].
  apply set_radial_wind_speed_well_formed; [exact H1 | ].
  destruct H1 as (Hn & He & Ha & Hm & Hh & Hv & Hs & Hc).
  rewrite length_where2; congruence.
Qed.

Lemma init_masked (d : getWindProperties5Beam.Dataset) (statusFilter : bool)
  (cnr : option R) (method : getWindProperties5Beam.method_t) (tol : Z) :
  getWindProperties5Beam.init d statusFilter cnr method tol
  = (Spec.masked_dataset d statusFilter cnr,
     do checked <- getWindProperties5Beam.check_time_index
                     (Spec.masked_dataset d statusFilter cnr);
     getWindProperties5Beam.retrieve
       (getWindProperties5Beam.get_beams
          (Spec.masked_dataset d statusFilter cnr) tol) method).
Proof. reflexivity. Qed.

(** ** The time index *)

(** When the constructor returns, the retrieval has returned. *)
Lemma constructor_returns (d : getWindProperties5Beam.Dataset)
  (statusFilter : bool) (cnr : option R)
  (method : getWindProperties5Beam.method_t) (tol : Z)
  (obj : getWindProperties5Beam.t) :
  snd (getWindProperties5Beam.init d statusFilter cnr method tol) = Ok obj ->
  getWindProperties5Beam.retrieve
    (getWindProperties5Beam.get_beams
       (Spec.masked_dataset d statusFilter cnr) tol) method
  = Ok obj.
Proof.
  rewrite init_masked. cbn [snd].
  destruct (getWindProperties5Beam.check_time_index _) as [[] | e];
    cbn [bind]; [auto | discriminate].
Qed.

Lemma existsb_eqb_In (x : Z) (l : list Z) :
  existsb (Z.eqb x) l = true <-> In x l.
Proof.
  rewrite existsb_exists. split.
  - intros (y & Hy & E). apply Z.eqb_eq in E. now subst y.
  - intros H. exists x. split; [exact H | apply Z.eqb_refl].
Qed.

Lemma has_duplicates_NoDup (l : list Z) :
  xr.has_duplicates l = false <-> NoDup l.
Proof.
  induction l as [ | x l IH]; cbn [xr.has_duplicates].
  - split; [constructor | reflexivity].
  - rewrite orb_false_iff, IH. split.
    + intros [Hx Hl]. constructor; [ | exact Hl].
      intros Hin. apply existsb_eqb_In in Hin. congruence.
    + intros H. inversion H as [ | ? ? Hx Hl]; subst. split; [ | exact Hl].
      destruct (existsb (Z.eqb x) l) eqn:E; [ | reflexivity].
      apply existsb_eqb_In in E. contradiction.
Qed.

(** An index of distinct labels in order is accepted, whatever is asked
    for. *)
Lemma nearest_check_in_order (index target : list Z) :
  NoDup index -> xr.is_monotonic index = true ->
  xr.nearest_check index target = Ok tt.
Proof.
  intros Hn Hm. unfold xr.nearest_check.
  apply has_duplicates_NoDup in Hn. rewrite Hn, Hm.
  now destruct target.
Qed.

Lemma check_time_index_masked (d : getWindProperties5Beam.Dataset)
  (statusFilter : bool) (cnr : option R) :
  getWindProperties5Beam.check_time_index
    (Spec.masked_dataset d statusFilter cnr)
  = getWindProperties5Beam.check_time_index d.
Proof.
  destruct (masked_dataset_fields d statusFilter cnr) as (Ht & He & _).
  unfold getWindProperties5Beam.check_time_index. now rewrite Ht, He.
Qed.

(** On a dataset whose times are distinct and in order the constructor
    returns or raises what the retrieval does. *)
Lemma constructor_in_order (d : getWindProperties5Beam.Dataset)
  (statusFilter : bool) (cnr : option R)
  (method : getWindProperties5Beam.method_t) (tol : Z) :
  Spec.well_formed_dbs d ->
  xr.is_monotonic (getWindProperties5Beam.time d) = true ->
  snd (getWindProperties5Beam.init d statusFilter cnr method tol)
  = getWindProperties5Beam.retrieve
      (getWindProperties5Beam.get_beams
         (Spec.masked_dataset d statusFilter cnr) tol) method.
Proof.
  intros (Hn & _) Hm. rewrite init_masked. cbn [snd].
  rewrite check_time_index_masked.
  unfold getWindProperties5Beam.check_time_index.
  now rewrite nearest_check_in_order.
Qed.

(** ** Aligned arithmetic *)

Lemma lookup_row_by_row (f : option R -> option R -> option R)
  (a b : getWindProperties5Beam.DataArray (list (option R))) (T : Z) :
  map fst a = map fst b ->
  getWindProperties5Beam.lookup T (getWindProperties5Beam.row_by_row f a b)
  = match getWindProperties5Beam.lookup T a,
          getWindProperties5Beam.lookup T b with
    | Some x, Some y => Some (getWindProperties5Beam.zip_with f x y)
    | _, _ => None
    end.
Proof.
  unfold getWindProperties5Beam.row_by_row.
  revert b. induction a as [ | [t x] a IH]; intros [ | [t' y] b] H;
    try discriminate; [reflexivity | ].
  cbn in H. injection H as <- H.
  cbn [combine map fst snd getWindProperties5Beam.lookup].
  destruct (Z.eqb t T); [reflexivity | now apply IH].
Qed.

Lemma lookup_inner_join (f : option R -> option R -> option R)
  (a b : getWindProperties5Beam.DataArray (list (option R))) (T : Z) :
  getWindProperties5Beam.lookup T (getWindProperties5Beam.inner_join f a b)
  = match getWindProperties5Beam.lookup T a,
          getWindProperties5Beam.lookup T b with
    | Some x, Some y => Some (getWindProperties5Beam.zip_with f x y)
    | _, _ => None
    end.
Proof.
  unfold getWindProperties5Beam.inner_join.
  induction a as [ | [t x] a IH]; [reflexivity | ].
  cbn [flat_map fst snd getWindProperties5Beam.lookup].
  destruct (Z.eqb_spec t T) as [E | N].
  - subst t.
    destruct (getWindProperties5Beam.lookup T b) as [y | ] eqn:Eb.
    + cbn. now rewrite Z.eqb_refl.
    + cbn. rewrite IH.
      now destruct (getWindProperties5Beam.lookup T a).
  - destruct (getWindProperties5Beam.lookup t b) as [y | ]; cbn.
    + destruct (Z.eqb_spec t T); [contradiction | exact IH].
    + exact IH.
Qed.

(** What an arithmetic operation returns, when it returns. *)
Lemma aligned_returns (f : option R -> option R -> option R)
  (a b r : getWindProperties5Beam.DataArray (list (option R))) :
  getWindProperties5Beam.aligned f a b = Ok r ->
  (map fst a = map fst b /\ r = getWindProperties5Beam.row_by_row f a b)
  \/ (map fst a <> map fst b
      /\ NoDup (map fst a) /\ NoDup (map fst b)
      /\ r = getWindProperties5Beam.inner_join f a b).
Proof.
  unfold getWindProperties5Beam.aligned.
  destruct (list_eq_dec Z.eq_dec (map fst a) (map fst b)) as [E | N].
  - intros [= <-]. now left.
  - destruct (xr.has_duplicates (map fst a)) eqn:Da; [discriminate | ].
    destruct (xr.has_duplicates (map fst b)) eqn:Db; [discriminate | ].
    intros [= <-]. right.
    apply has_duplicates_NoDup in Da, Db. auto.
Qed.

(** Arrays of distinct labels are never refused. *)
Lemma aligned_distinct (f : option R -> option R -> option R)
  (a b : getWindProperties5Beam.DataArray (list (option R))) :
  NoDup (map fst a) -> NoDup (map fst b) ->
  exists r, getWindProperties5Beam.aligned f a b = Ok r.
Proof.
  intros Ha Hb. unfold getWindProperties5Beam.aligned.
  apply has_duplicates_NoDup in Ha, Hb. rewrite Ha, Hb.
  destruct (list_eq_dec Z.eq_dec _ _); eexists; reflexivity.
Qed.

(** Arrays on the same labels are never refused. *)
Lemma aligned_same_labels (f : option R -> option R -> option R)
  (a b : getWindProperties5Beam.DataArray (list (option R))) :
  map fst a = map fst b ->
  getWindProperties5Beam.aligned f a b
  = Ok (getWindProperties5Beam.row_by_row f a b).
Proof.
  intros E. unfold getWindProperties5Beam.aligned.
  destruct (list_eq_dec Z.eq_dec _ _); [reflexivity | contradiction].
Qed.

Lemma lookup_aligned (f : option R -> option R -> option R)
  (a b r : getWindProperties5Beam.DataArray (list (option R))) (T : Z) :
  getWindProperties5Beam.aligned f a b = Ok r ->
  getWindProperties5Beam.lookup T r
  = match getWindProperties5Beam.lookup T a,
          getWindProperties5Beam.lookup T b with
    | Some x, Some y => Some (getWindProperties5Beam.zip_with f x y)
    | _, _ => None
    end.
Proof.
  intros H. destruct (aligned_returns _ _ _ H) as [[E ->] | (_ & _ & _ & ->)].
  - now apply lookup_row_by_row.
  - apply lookup_inner_join.
Qed.

Lemma lookup_pointwise (f : option R -> option R)
  (a : getWindProperties5Beam.DataArray (list (option R))) (T : Z) :
  getWindProperties5Beam.lookup T (getWindProperties5Beam.pointwise f a)
  = option_map (map f) (getWindProperties5Beam.lookup T a).
Proof.
  unfold getWindProperties5Beam.pointwise.
  induction a as [ | [t x] a IH]; [reflexivity | ].
  cbn. destruct (Z.eqb t T); [reflexivity | exact IH].
Qed.

Lemma opposite_of_difference (x y : list (option R)) :
  map (np.lift1 Ropp) (getWindProperties5Beam.zip_with (np.lift2 Rminus) x y)
  = Spec.minus_difference x y.
Proof.
  unfold getWindProperties5Beam.zip_with, Spec.minus_difference.
  now rewrite map_map.
Qed.

(** What a difference returns, when it returns. *)
Lemma opposite_difference_returns
  (n s r : getWindProperties5Beam.DataArray (list (option R))) :
  getWindProperties5Beam.opposite_difference n s = Ok r ->
  exists d,
    getWindProperties5Beam.aligned (np.lift2 Rminus) n s = Ok d
    /\ r = getWindProperties5Beam.pointwise (np.lift1 Ropp) d.
Proof.
  unfold getWindProperties5Beam.opposite_difference.
  destruct (getWindProperties5Beam.aligned _ n s) as [d | e]; cbn [bind];
    [ | discriminate].
  intros [= <-]. now exists d.
Qed.

Lemma lookup_opposite_difference
  (n s r : getWindProperties5Beam.DataArray (list (option R))) (T : Z) :
  getWindProperties5Beam.opposite_difference n s = Ok r ->
  getWindProperties5Beam.lookup T r
  = match getWindProperties5Beam.lookup T n,
          getWindProperties5Beam.lookup T s with
    | Some x, Some y => Some (Spec.minus_difference x y)
    | _, _ => None
    end.
Proof.
  intros H. destruct (opposite_difference_returns _ _ H) as (d & Hd & ->).
  rewrite lookup_pointwise, (lookup_aligned _ _ _ T Hd).
  destruct (getWindProperties5Beam.lookup T n),
    (getWindProperties5Beam.lookup T s); cbn; try reflexivity.
  now rewrite opposite_of_difference.
Qed.

Lemma has_label_In (a : getWindProperties5Beam.DataArray (list (option R)))
  (T : Z) :
  In T (map fst a) -> Spec.has_label a T = true.
Proof.
  unfold Spec.has_label.
  induction a as [ | [t x] a IH]; cbn; [intros [] | ].
  destruct (Z.eqb_spec t T) as [E | N]; [reflexivity | ].
  intros [E | H]; [contradiction | now apply IH].
Qed.

Lemma filter_all {A : Type} (P : A -> bool) (l : list A) :
  (forall x, In x l -> P x = true) -> filter P l = l.
Proof.
  induction l as [ | x l IH]; intros H; simpl; [reflexivity | ].
  rewrite (H x) by now left. f_equal. apply IH. intros y Hy. apply H.
  now right.
Qed.

Lemma labels_pointwise (f : option R -> option R)
  (a : getWindProperties5Beam.DataArray (list (option R))) :
  map fst (getWindProperties5Beam.pointwise f a) = map fst a.
Proof.
  unfold getWindProperties5Beam.pointwise. rewrite map_map. reflexivity.
Qed.

Lemma labels_row_by_row (f : option R -> option R -> option R)
  (a b : getWindProperties5Beam.DataArray (list (option R))) :
  map fst a = map fst b ->
  map fst (getWindProperties5Beam.row_by_row f a b) = map fst a.
Proof.
  unfold getWindProperties5Beam.row_by_row. rewrite map_map. cbn [fst].
  revert b. induction a as [ | [t x] a IH]; intros [ | [t' y] b] H;
    try discriminate; [reflexivity | ].
  cbn in H. injection H as <- H. cbn. f_equal. now apply IH.
Qed.

Lemma labels_inner_join (f : option R -> option R -> option R)
  (a b : getWindProperties5Beam.DataArray (list (option R))) :
  map fst (getWindProperties5Beam.inner_join f a b)
  = filter (Spec.has_label b) (map fst a).
Proof.
  unfold getWindProperties5Beam.inner_join, Spec.has_label.
  induction a as [ | [t x] a IH]; [reflexivity | ].
  cbn. destruct (getWindProperties5Beam.lookup t b); cbn; now rewrite IH.
Qed.

(** The labels of the result of an operation: those of the first array
    found in the second. *)
Lemma labels_aligned (f : option R -> option R -> option R)
  (a b r : getWindProperties5Beam.DataArray (list (option R))) :
  getWindProperties5Beam.aligned f a b = Ok r ->
  map fst r = filter (Spec.has_label b) (map fst a).
Proof.
  intros H. destruct (aligned_returns _ _ _ H) as [[E ->] | (_ & _ & _ & ->)].
  - rewrite labels_row_by_row by exact E.
    symmetry. apply filter_all. intros T HT. apply has_label_In.
    now rewrite <- E.
  - apply labels_inner_join.
Qed.

(** What a retrieval that returns has stored, whatever the policy. *)
Lemma retrieve_returns (b : getWindProperties5Beam.beams_t)
  (m : getWindProperties5Beam.method_t) (obj : getWindProperties5Beam.t) :
  getWindProperties5Beam.retrieve b m = Ok obj ->
  exists t0 heights rest,
    getWindProperties5Beam.rangeVal90 b = (t0, heights) :: rest
    /\ getWindProperties5Beam.verWindSpeed obj
       = {| getWindProperties5Beam.name := "compW"%string;
            getWindProperties5Beam.range := heights;
            getWindProperties5Beam.comp :=
              getWindProperties5Beam.verWindSpeed90 b |}
    /\ match m with
       | getWindProperties5Beam.continuous =>
           getWindProperties5Beam.calcHorWindComp_continuous b
       | getWindProperties5Beam.single_dbs =>
           getWindProperties5Beam.calcHorWindComp_single_dbs b
       | getWindProperties5Beam.other_method => Raise AttributeError
       end
       = Ok (getWindProperties5Beam.compV obj,
             getWindProperties5Beam.compU obj)
    /\ getWindProperties5Beam.range (getWindProperties5Beam.compV obj)
       = heights
    /\ getWindProperties5Beam.range (getWindProperties5Beam.compU obj)
       = heights
    /\ getWindProperties5Beam.calcHorWindSpeed
         (getWindProperties5Beam.compV obj)
         (getWindProperties5Beam.compU obj)
       = Ok (getWindProperties5Beam.horWindSpeed obj)
    /\ getWindProperties5Beam.calcHorWindDir
         (getWindProperties5Beam.compV obj)
         (getWindProperties5Beam.compU obj)
       = Ok (getWindProperties5Beam.horWindDir obj).
Proof.
  unfold getWindProperties5Beam.retrieve,
    getWindProperties5Beam.correctVertWindComp,
    getWindProperties5Beam.correctWindComp.
  destruct (getWindProperties5Beam.rangeVal90 b) as [ | [t0 heights] rest]
    eqn:Hr; cbn [bind]; [discriminate | ].
  destruct (match m with
            | getWindProperties5Beam.single_dbs => _
            | getWindProperties5Beam.continuous => _
            | getWindProperties5Beam.other_method => _
            end) as [[V U] | e] eqn:Hc; cbn [bind fst snd];
    [ | discriminate].
  destruct (getWindProperties5Beam.calcHorWindSpeed V U) as [speed | e]
    eqn:Hs; cbn [bind]; [ | discriminate].
  destruct (getWindProperties5Beam.calcHorWindDir V U) as [dir | e] eqn:Hd;
    cbn [bind]; [ | discriminate].
  intros [= <-]. cbn. exists t0, heights, rest.
  split; [reflexivity | ]. split; [reflexivity | ].
  split; [reflexivity | ].
  assert (HR : getWindProperties5Beam.range V = heights
               /\ getWindProperties5Beam.range U = heights).
  { destruct m; [ | | discriminate];
      unfold getWindProperties5Beam.calcHorWindComp_single_dbs,
        getWindProperties5Beam.calcHorWindComp_continuous,
        getWindProperties5Beam.correctWindComp in Hc;
      rewrite Hr in Hc;
      destruct (getWindProperties5Beam.opposite_difference _ _) as [x | e];
      cbn [bind] in Hc; try discriminate;
      destruct (getWindProperties5Beam.opposite_difference _ _) as [y | e];
      cbn [bind] in Hc; try discriminate;
      injection Hc as <- <-; split; reflexivity. }
  destruct HR as [HV HU].
  split; [exact HV | ]. split; [exact HU | ].
  split; [exact Hs | exact Hd].
Qed.

(** What the single-scan retrieval returns. *)
Lemma retrieve_single_dbs (b : getWindProperties5Beam.beams_t)
  (obj : getWindProperties5Beam.t) :
  getWindProperties5Beam.retrieve b getWindProperties5Beam.single_dbs = Ok obj ->
  getWindProperties5Beam.opposite_difference
    (getWindProperties5Beam.beam_group b 0)
    (getWindProperties5Beam.beam_group b 180)
  = Ok (getWindProperties5Beam.comp (getWindProperties5Beam.compV obj))
  /\ getWindProperties5Beam.opposite_difference
       (getWindProperties5Beam.beam_group b 90)
       (getWindProperties5Beam.beam_group b 270)
     = Ok (getWindProperties5Beam.comp (getWindProperties5Beam.compU obj)).
Proof.
  intros H.
  destruct (@retrieve_returns _ _ _ H)
    as (t0 & heights & rest & Hr & _ & Hc & _).
  unfold getWindProperties5Beam.calcHorWindComp_single_dbs,
    getWindProperties5Beam.correctWindComp in Hc.
  rewrite Hr in Hc.
  destruct (getWindProperties5Beam.opposite_difference
              (getWindProperties5Beam.beam_group b 0) _) as [V | e];
    cbn [bind] in Hc; [ | discriminate].
  destruct (getWindProperties5Beam.opposite_difference
              (getWindProperties5Beam.beam_group b 90) _) as [U | e];
    cbn [bind] in Hc; [ | discriminate].
  injection Hc as HV HU. rewrite <- HV, <- HU. split; reflexivity.
Qed.

Lemma nth_error_zip_with {A B C : Type} (f : A -> B -> C) (x : list A)
  (y : list B) (g : nat) :
  nth_error (getWindProperties5Beam.zip_with f x y) g
  = match nth_error x g, nth_error y g with
    | Some a, Some b => Some (f a b)
    | _, _ => None
    end.
Proof.
  unfold getWindProperties5Beam.zip_with.
  rewrite nth_error_map, nth_error_combine.
  destruct (nth_error x g), (nth_error y g); reflexivity.
Qed.

(** ** The beams that meet *)








(** ** Opposite beams with the same velocity *)






Lemma beam_positions_masked (d : getWindProperties5Beam.Dataset)
  (statusFilter : bool) (cnr : option R) (target : R) :
  Spec.beam_positions (Spec.masked_dataset d statusFilter cnr) target
  = Spec.beam_positions d target.
Proof.
  destruct (masked_dataset_fields d statusFilter cnr)
    as (Ht & He & Ha & _).
  unfold Spec.beam_positions, Spec.slanted, Spec.nominal_azimuth.
  now rewrite Ht, He, Ha.
Qed.



(** * The retrievals on the examples *)

Lemma rint_IZR (z : Z) : getWindProperties5Beam.rint (IZR z) = z.
Proof.
  unfold getWindProperties5Beam.rint.
  assert (Hup : up (IZR z) = (z + 1)%Z).
  { symmetry. apply tech_up; rewrite plus_IZR; lra. }
  rewrite Hup. replace (z + 1 - 1)%Z with z by lia.
  replace (IZR z - IZR z) with 0 by ring.
  destruct (Rlt_dec 0 (1 / 2)) as [_ | N]; [reflexivity | lra].
Qed.

(** A multiple of 0.1 is its own rounding. *)
Lemma round1_exact (x : R) (z : Z) :
  x * 10 = IZR z -> getWindProperties5Beam.round1 x = x.
Proof.
  intros H. unfold getWindProperties5Beam.round1.
  rewrite H, rint_IZR, <- H. field.
Qed.

Lemma Req_bool_true (a b : R) :
  a = b -> getWindProperties5Beam.Req_bool a b = true.
Proof.
  intros H. unfold getWindProperties5Beam.Req_bool.
  destruct (Req_dec_T a b); [reflexivity | contradiction].
Qed.

Lemma Req_bool_false (a b : R) :
  a <> b -> getWindProperties5Beam.Req_bool a b = false.
Proof.
  intros H. unfold getWindProperties5Beam.Req_bool.
  destruct (Req_dec_T a b); [contradiction | reflexivity].
Qed.

Lemma round1_examples :
  getWindProperties5Beam.round1 0 = 0
  /\ getWindProperties5Beam.round1 75 = 75
  /\ getWindProperties5Beam.round1 90 = 90
  /\ getWindProperties5Beam.round1 180 = 180
  /\ getWindProperties5Beam.round1 270 = 270.
Proof.
  repeat split;
    [ apply round1_exact with (z := 0%Z)
    | apply round1_exact with (z := 750%Z)
    | apply round1_exact with (z := 900%Z)
    | apply round1_exact with (z := 1800%Z)
    | apply round1_exact with (z := 2700%Z) ]; lra.
Qed.

Ltac round_numbers :=
  let H0 := fresh in
  let H75 := fresh in
  let H90 := fresh in
  let H180 := fresh in
  let H270 := fresh in
  destruct round1_examples as (H0 & H75 & H90 & H180 & H270);
  rewrite ?H0, ?H75, ?H90, ?H180, ?H270;
  clear H0 H75 H90 H180 H270;
  repeat match goal with
         | |- context [getWindProperties5Beam.Req_bool ?a ?b] =>
             first [ rewrite (@Req_bool_true a b) by lra
                   | rewrite (@Req_bool_false a b) by lra ]
         end.

Lemma filter_by_flags {A : Type} (P : A -> bool) (l : list A) :
  filter P l = map fst (filter snd (combine l (map P l))).
Proof.
  induction l as [ | x l IH]; simpl; [reflexivity | ].
  destruct (P x); simpl; now rewrite IH.
Qed.

Lemma beam_positions_by_flags (d : getWindProperties5Beam.Dataset)
  (target : R) :
  Spec.beam_positions d target
  = map fst
      (filter snd
         (combine (seq 0 (length (getWindProperties5Beam.time d)))
            (map (fun i =>
                    Spec.slanted d i
                    && getWindProperties5Beam.Req_bool
                         (Spec.nominal_azimuth d i) target)
                 (seq 0 (length (getWindProperties5Beam.time d)))))).
Proof. apply filter_by_flags. Qed.

Lemma dbs_scan_positions :
  Spec.beam_positions Examples.dbs_scan 0 = [1%nat]
  /\ Spec.beam_positions Examples.dbs_scan 90 = [2%nat]
  /\ Spec.beam_positions Examples.dbs_scan 180 = [3%nat]
  /\ Spec.beam_positions Examples.dbs_scan 270 = [4%nat].
Proof.
  rewrite !beam_positions_by_flags.
  unfold Spec.slanted, Spec.nominal_azimuth, Examples.dbs_scan.
  cbn [length seq map nth getWindProperties5Beam.time
       getWindProperties5Beam.elevation getWindProperties5Beam.azimuth].
  round_numbers. repeat split; reflexivity.
Qed.

Lemma dbs_scan_well_formed : Spec.well_formed_dbs Examples.dbs_scan.
Proof.
  repeat split; try reflexivity.
  repeat constructor; simpl; intros H;
    repeat (destruct H as [H | H]; [discriminate | ]); exact H.
Qed.


Lemma dbs_scan_one_beam_per_scan : Spec.one_beam_per_scan Examples.dbs_scan.
Proof.
  destruct dbs_scan_positions as (P0 & P90 & P180 & P270).
  unfold Spec.one_beam_per_scan.
  repeat (apply Forall_cons; [ | ]); try apply Forall_nil;
    rewrite ?P0, ?P90, ?P180, ?P270;
    (apply NoDup_cons; [intros [] | apply NoDup_nil]).
Qed.

Lemma one_beam_per_scan_masked (d : getWindProperties5Beam.Dataset)
  (statusFilter : bool) (cnr : option R) :
  Spec.one_beam_per_scan d ->
  Spec.one_beam_per_scan (Spec.masked_dataset d statusFilter cnr).
Proof.
  destruct (masked_dataset_fields d statusFilter cnr)
    as (_ & _ & _ & Hsm & _).
  unfold Spec.one_beam_per_scan. intros H.
  eapply Forall_impl; [ | exact H]. cbv beta. intros target Hn.
  rewrite beam_positions_masked.
  unfold Spec.mean_time in *. now rewrite Hsm.
Qed.

(** A difference of arrays of distinct labels is returned, on distinct
    labels. *)
Lemma opposite_difference_distinct
  (n s : getWindProperties5Beam.DataArray (list (option R))) :
  NoDup (map fst n) -> NoDup (map fst s) ->
  exists r,
    getWindProperties5Beam.opposite_difference n s = Ok r
    /\ NoDup (map fst r).
Proof.
  intros Hn Hs.
  destruct (aligned_distinct (np.lift2 Rminus) _ _ Hn Hs) as [x Hx].
  unfold getWindProperties5Beam.opposite_difference. rewrite Hx. cbn [bind].
  eexists. split; [reflexivity | ].
  rewrite labels_pointwise, (labels_aligned _ _ _ Hx).
  now apply NoDup_filter.
Qed.

(** The speed and the direction of components on distinct labels are
    returned. *)
Lemma speed_and_direction_distinct (V U : getWindProperties5Beam.WindComp) :
  NoDup (map fst (getWindProperties5Beam.comp V)) ->
  NoDup (map fst (getWindProperties5Beam.comp U)) ->
  (exists s, getWindProperties5Beam.calcHorWindSpeed V U = Ok s)
  /\ (exists x, getWindProperties5Beam.calcHorWindDir V U = Ok x).
Proof.
  intros HV HU.
  unfold getWindProperties5Beam.calcHorWindSpeed,
    getWindProperties5Beam.calcHorWindDir.
  split.
  - destruct (aligned_distinct (np.lift2 Rplus)
                (getWindProperties5Beam.pointwise
                   (np.lift1 (fun x => x ^ 2)) (getWindProperties5Beam.comp V))
                (getWindProperties5Beam.pointwise
                   (np.lift1 (fun x => x ^ 2)) (getWindProperties5Beam.comp U)))
      as [x Hx]; try (now rewrite labels_pointwise).
    rewrite Hx. cbn [bind]. eexists. reflexivity.
  - destruct (aligned_distinct (np.lift2 np.arctan2)
                (getWindProperties5Beam.pointwise
                   (np.lift1 Ropp) (getWindProperties5Beam.comp U))
                (getWindProperties5Beam.pointwise
                   (np.lift1 Ropp) (getWindProperties5Beam.comp V)))
      as [x Hx]; try (now rewrite labels_pointwise).
    rewrite Hx. cbn [bind]. eexists. reflexivity.
Qed.

(** The vertical profiles of a dataset that holds one. *)
Lemma vertical_profile_held (d : getWindProperties5Beam.Dataset) (tol : Z)
  (i : nat) :
  Spec.well_formed_dbs d ->
  (i < length (getWindProperties5Beam.time d))%nat ->
  getWindProperties5Beam.round1 (nth i (getWindProperties5Beam.elevation d) 0)
  = 90 ->
  getWindProperties5Beam.rangeVal90 (getWindProperties5Beam.get_beams d tol)
  <> [].
Proof.
  intros (Hn & He & _) Hi H90.
  unfold getWindProperties5Beam.get_beams.
  cbn [getWindProperties5Beam.rangeVal90].
  rewrite (time_where_positions _ (getWindProperties5Beam.round1 0))
    by (rewrite length_map; exact He).
  unfold getWindProperties5Beam.sel. rewrite map_map.
  intros E. apply map_eq_nil in E.
  assert (Hin : In i (filter
                        (fun i =>
                           getWindProperties5Beam.Req_bool
                             (nth i (map getWindProperties5Beam.round1
                                         (getWindProperties5Beam.elevation d))
                                  (getWindProperties5Beam.round1 0)) 90)
                        (seq 0 (length (getWindProperties5Beam.time d))))).
  { apply filter_In. split; [apply in_seq; lia | ].
    rewrite (map_nth getWindProperties5Beam.round1).
    now apply Req_bool_true. }
  rewrite E in Hin. exact Hin.
Qed.

(** The single-scan retrieval returns as soon as the dataset holds a
    vertical profile and no two beams of one azimuth in the same scan. *)
Lemma retrieve_single_dbs_returns (d : getWindProperties5Beam.Dataset)
  (tol : Z) (i : nat) :
  Spec.well_formed_dbs d ->
  Spec.one_beam_per_scan d ->
  (i < length (getWindProperties5Beam.time d))%nat ->
  getWindProperties5Beam.round1 (nth i (getWindProperties5Beam.elevation d) 0)
  = 90 ->
  exists obj,
    getWindProperties5Beam.retrieve (getWindProperties5Beam.get_beams d tol)
      getWindProperties5Beam.single_dbs = Ok obj.
Proof.
  intros Hwf Hone Hi H90.
  pose proof (vertical_profile_held tol Hwf Hi H90) as Hne.
  assert (Hg : forall target,
             In target [0; 90; 180; 270] ->
             NoDup (map fst
                      (getWindProperties5Beam.beam_group
                         (getWindProperties5Beam.get_beams d tol) target))).
  { intros target Hin. rewrite beam_group_positions by exact Hwf.
    unfold Spec.group. rewrite map_map. cbn [fst].
    unfold Spec.one_beam_per_scan in Hone. rewrite Forall_forall in Hone.
    exact (Hone _ Hin). }
  destruct (@opposite_difference_distinct
              (getWindProperties5Beam.beam_group
                 (getWindProperties5Beam.get_beams d tol) 0)
              (getWindProperties5Beam.beam_group
                 (getWindProperties5Beam.get_beams d tol) 180))
    as (V & HV & HVn); try (apply Hg; simpl; tauto).
  destruct (@opposite_difference_distinct
              (getWindProperties5Beam.beam_group
                 (getWindProperties5Beam.get_beams d tol) 90)
              (getWindProperties5Beam.beam_group
                 (getWindProperties5Beam.get_beams d tol) 270))
    as (U & HU & HUn); try (apply Hg; simpl; tauto).
  unfold getWindProperties5Beam.retrieve,
    getWindProperties5Beam.correctVertWindComp,
    getWindProperties5Beam.calcHorWindComp_single_dbs,
    getWindProperties5Beam.correctWindComp.
  destruct (getWindProperties5Beam.rangeVal90 _) as [ | [t0 heights] rest];
    [contradiction | ].
  rewrite HV, HU. cbn [bind fst snd].
  destruct (@speed_and_direction_distinct
              {| getWindProperties5Beam.name := "compV"%string;
                 getWindProperties5Beam.range := heights;
                 getWindProperties5Beam.comp := V |}
              {| getWindProperties5Beam.name := "compU"%string;
                 getWindProperties5Beam.range := heights;
                 getWindProperties5Beam.comp := U |} HVn HUn)
    as [[s Hs] [x Hx]].
  rewrite Hs, Hx. cbn [bind]. eexists. reflexivity.
Qed.

Lemma dbs_scan_returns (statusFilter : bool) (cnr : option R) (tol : Z) :
  exists obj,
    snd (getWindProperties5Beam.init Examples.dbs_scan statusFilter cnr
           getWindProperties5Beam.single_dbs tol) = Ok obj.
Proof.
  rewrite constructor_in_order
    by (first [apply dbs_scan_well_formed | reflexivity]).
  apply retrieve_single_dbs_returns with (i := 0%nat).
  - apply masked_dataset_well_formed, dbs_scan_well_formed.
  - apply one_beam_per_scan_masked, dbs_scan_one_beam_per_scan.
  - destruct (masked_dataset_fields Examples.dbs_scan statusFilter cnr)
      as (Ht & _). rewrite Ht. simpl. lia.
  - destruct (masked_dataset_fields Examples.dbs_scan statusFilter cnr)
      as (_ & He & _). rewrite He. simpl nth.
    apply round1_exact with (z := 900%Z). lra.
Qed.

Ltac compute_dbs :=
  cbv - [IZR INR Rplus Rmult Rminus Ropp Rdiv Rinv cos sin PI sqrt atan
         Req_dec_T Rlt_dec Rle_dec Rge_dec up np.deg2rad
         getWindProperties5Beam.round1 getWindProperties5Beam.Req_bool].



(** ** The caller's dataset *)

Lemma at2_where2 {C : Type} (p : C -> bool) (a : list (list (option R)))
  (cond : list (list C)) (t g : nat) :
  Spec.at2 (getWindProperties5Beam.where2 p a cond) t g
  = match Spec.at2 a t g, Spec.at2 cond t g with
    | Some v, Some c => Some (if p c then v else None)
    | _, _ => None
    end.
Proof.
  unfold Spec.at2, getWindProperties5Beam.where2.
  rewrite nth_error_map, nth_error_combine.
  destruct (nth_error a t) as [row | ]; [ | reflexivity].
  destruct (nth_error cond t) as [crow | ]; cbn.
  - rewrite nth_error_map, nth_error_combine.
    destruct (nth_error row g), (nth_error crow g); reflexivity.
  - now destruct (nth_error row g).
Qed.

(** C3, as the code has it: the constructor leaves the caller's dataset
    untouched when neither mask is asked for; otherwise it replaces the
    caller's radial_wind_speed, and only that field, by the masked field, in
    which a sample is kept when it passes the masks asked for and is NaN
    when it does not. *)
Theorem constructor_masks_in_place (d : getWindProperties5Beam.Dataset)
  (statusFilter : bool) (cnr : option R)
  (method : getWindProperties5Beam.method_t) (tol : Z) :
  let d' := fst (getWindProperties5Beam.init d statusFilter cnr method tol) in
  fst (getWindProperties5Beam.init d false None method tol) = d
  /\ (getWindProperties5Beam.time d' = getWindProperties5Beam.time d
      /\ getWindProperties5Beam.elevation d'
         = getWindProperties5Beam.elevation d
      /\ getWindProperties5Beam.azimuth d' = getWindProperties5Beam.azimuth d
      /\ getWindProperties5Beam.scan_mean_time d'
         = getWindProperties5Beam.scan_mean_time d
      /\ getWindProperties5Beam.measurement_height d'
         = getWindProperties5Beam.measurement_height d
      /\ getWindProperties5Beam.radial_wind_speed_status d'
         = getWindProperties5Beam.radial_wind_speed_status d
      /\ getWindProperties5Beam.cnr d' = getWindProperties5Beam.cnr d)
  /\ (forall t g v s c,
         Spec.at2 (getWindProperties5Beam.radial_wind_speed d) t g = Some v ->
         Spec.at2 (getWindProperties5Beam.radial_wind_speed_status d) t g
         = Some s ->
         Spec.at2 (getWindProperties5Beam.cnr d) t g = Some c ->
         Spec.at2 (getWindProperties5Beam.radial_wind_speed d') t g
         = Some (if Spec.kept statusFilter cnr s c then v else None)).
Proof.
  intros d'. unfold d'. rewrite !init_masked. cbn [fst].
  split; [reflexivity | ].
  split; [apply masked_dataset_fields | ].
  intros t g v s c Hv Hs Hc.
  unfold Spec.masked_dataset, getWindProperties5Beam.filter_cnr,
    getWindProperties5Beam.filter_status, Spec.kept.
  destruct statusFilter, cnr as [cm | ];
    cbn [getWindProperties5Beam.radial_wind_speed
         getWindProperties5Beam.set_radial_wind_speed
         getWindProperties5Beam.cnr negb orb];
    rewrite ?at2_where2, ?Hv, ?Hs, ?Hc; try reflexivity.
  - destruct (Z.eqb s 1), (getWindProperties5Beam.Rge_bool cm c);
      reflexivity.
  - now rewrite andb_true_r.
Qed.

(** C3, against the claim as stated: after the constructor has run with the
    status mask, the velocity of the eastern beam of the caller's dataset
    is NaN; the dataset is not what it was. *)
Lemma constructor_overwrites_input :
  fst (getWindProperties5Beam.init Examples.dbs_scan true None
         getWindProperties5Beam.single_dbs 8)
  <> Examples.dbs_scan
  /\ Spec.at2 (getWindProperties5Beam.radial_wind_speed Examples.dbs_scan) 2 0
     = Some (Some 1)
  /\ Spec.at2 (getWindProperties5Beam.radial_wind_speed
                 (fst (getWindProperties5Beam.init Examples.dbs_scan true None
                         getWindProperties5Beam.single_dbs 8))) 2 0
     = Some None.
Proof.
  split; [ | split; reflexivity].
  intros H.
  apply (f_equal (fun d =>
                    Spec.at2 (getWindProperties5Beam.radial_wind_speed d) 2 0))
    in H.
  discriminate H.
Qed.

(** * The theorems at work on the examples *)

Lemma steady_slanted_well_formed : Spec.well_formed Examples.steady_slanted.
Proof. repeat constructor. Qed.

Lemma steady_slanted_retrieval :
  exists ds,
    SixBeamMethod.init (SixBeamMethod.Restructured Examples.steady_slanted)
      4 4 = Ok ds
    /\ Spec.at2 (SixBeamMethod.var_w ds) 1 0 = Some (Some (2 / 9)).
Proof.
  assert (Hrv : exists rv,
             SixBeamMethod.calc_variances Examples.steady_slanted 4 4 = Ok rv
             /\ Spec.at2 (SixBeamMethod.rVariance rv) 1 0
                = Some [Some (xr.var [0; 0; 0]); Some (xr.var [0; 0; 0]);
                        Some (xr.var [0; 0; 0]); Some (xr.var [0; 0; 0]);
                        Some (xr.var [0; 0; 0])]
             /\ Spec.at2 (SixBeamMethod.rVariance90 rv) 1 0
                = Some (Some (xr.var [-1 * 0; -1 * 1; -1 * 0]))
             /\ exists S, SixBeamMethod.get_s_matrix rv = Ok S).
  { eexists. split; [compute_data; reflexivity | ].
    split; [compute_data; reflexivity | ].
    split; [compute_data; reflexivity | ].
    compute_data. eexists. reflexivity. }
  destruct Hrv as (rv & Hrv & Hs & Hs90 & S & HS).
  assert (Hinit := init_returns Examples.steady_slanted 4 4
                     (get_m_matrix_five 75 0 72 144 216 288)
                     example_regular Hrv HS).
  eexists. split; [exact Hinit | ].
  destruct (var_w_cell _ _ steady_slanted_well_formed Hinit)
    as (rv' & Hrv' & Hcell).
  rewrite Hrv in Hrv'. injection Hrv' as <-.
  rewrite Hcell, Hs, Hs90. cbn. now rewrite var_alternating.
Qed.


Lemma var_w_nonnegative_witness :
  exists ds x,
    SixBeamMethod.init (SixBeamMethod.Restructured Examples.steady_slanted)
      4 4 = Ok ds
    /\ Spec.at2 (SixBeamMethod.var_w ds) 1 0 = Some (Some x)
    /\ 0 <= x.
Proof.
  destruct steady_slanted_retrieval as (ds & Hinit & Hcell).
  exists ds, (2 / 9). split; [exact Hinit | ]. split; [exact Hcell | ].
  exact (@var_w_nonnegative Examples.steady_slanted 4 4 ds 1 0 (2 / 9)
           steady_slanted_well_formed Hinit Hcell).
Defined.

Lemma constructor_masks_in_place_witness :
  Spec.at2 (getWindProperties5Beam.radial_wind_speed
              (fst (getWindProperties5Beam.init Examples.dbs_scan true None
                      getWindProperties5Beam.single_dbs 8))) 2 0
  = Some (if Spec.kept true None 0 (Some 0) then Some 1 else None).
Proof.
  destruct (constructor_masks_in_place Examples.dbs_scan true None
              getWindProperties5Beam.single_dbs 8) as (_ & _ & H).
  apply H; reflexivity.
Defined.

Lemma geometry_inversion_witness :
  (exists M,
      SixBeamMethod.get_m_matrix 75 [0; 72; 144; 216; 288] = Ok M
      /\ np.det M <> 0
      /\ SixBeamMethod.get_m_matrix_inv M = Ok (np.inverse M))
  /\ (exists M,
         SixBeamMethod.get_m_matrix 75 [0; 180; 0; 180; 0] = Ok M
         /\ np.det M = 0
         /\ SixBeamMethod.get_m_matrix_inv M = Raise LinAlgError
         /\ SixBeamMethod.init
              (SixBeamMethod.Restructured Examples.on_one_line) 4 4
            = Raise LinAlgError).
Proof.
  split.
  - destruct (geometry_inversion Examples.steady_slanted 4 4 eq_refl)
      as [H _].
    apply H.
    + simpl. lra.
    + apply example_azimuths.
    + apply example_azimuths.
  - destruct (geometry_inversion Examples.on_one_line 4 4 eq_refl)
      as [_ H].
    apply H. right. exists 0.
    simpl.
    repeat (apply Forall_cons; [first [left; lra | right; lra] | ]).
    apply Forall_nil.
Defined.



Lemma get_variance_emits_witness :
  exists out,
    SixBeamMethod.get_variance90 [[Some 1]; [None]; [Some 2]] 10 = Ok out.
Proof.
  destruct (@get_variance_emits 10 [] [[Some 1]; [None]; [Some 2]])
    as [_ [out [H _]]].
  - lia.
  - exists out. exact H.
Defined.

Lemma var_w_is_vertical_variance_witness :
  exists ds rv,
    SixBeamMethod.init (SixBeamMethod.Restructured Examples.steady_slanted)
      4 4 = Ok ds
    /\ SixBeamMethod.calc_variances Examples.steady_slanted 4 4 = Ok rv.
Proof.
  destruct steady_slanted_retrieval as (ds & Hinit & _).
  destruct (@var_w_is_vertical_variance Examples.steady_slanted 4 4 ds
              steady_slanted_well_formed Hinit) as (rv & Hrv & _).
  exists ds, rv. split; assumption.
Defined.

(** * Further properties of the six-beam method *)

(** ** Degenerate geometries *)

Lemma sin_half_difference_zero (a b : R) :
  sin ((np.deg2rad a - np.deg2rad b) / 2) = 0 <-> Notions.congruent a b.
Proof.
  pose proof PI_RGT_0 as Hpi. unfold Notions.congruent, np.deg2rad. split.
  - intros H. destruct (sin_eq_0_0 _ H) as [k Hk]. exists k.
    apply Rmult_eq_reg_r with (PI / 360); [ | lra].
    replace (360 * IZR k * (PI / 360)) with (IZR k * PI) by field.
    rewrite <- Hk. field.
  - intros [k Hk]. apply sin_eq_0_1. exists k.
    replace ((a * (PI / 180) - b * (PI / 180)) / 2)
      with ((a - b) * (PI / 360)) by field.
    rewrite Hk. field.
Qed.

Lemma half_difference_product_zero (a1 a2 a3 a4 a5 : R) :
  Spec.half_difference_product (np.deg2rad a1) (np.deg2rad a2)
    (np.deg2rad a3) (np.deg2rad a4) (np.deg2rad a5) = 0
  <-> Notions.repeated_direction [a1; a2; a3; a4; a5].
Proof.
  unfold Spec.half_difference_product, Notions.repeated_direction. split.
  - intros H.
    repeat (apply Rmult_integral in H; destruct H as [H | H]);
      apply sin_half_difference_zero in H.
    + exists 0%nat, 1%nat. simpl. split; [lia | exact H].
    + exists 0%nat, 2%nat. simpl. split; [lia | exact H].
    + exists 0%nat, 3%nat. simpl. split; [lia | exact H].
    + exists 0%nat, 4%nat. simpl. split; [lia | exact H].
    + exists 1%nat, 2%nat. simpl. split; [lia | exact H].
    + exists 1%nat, 3%nat. simpl. split; [lia | exact H].
    + exists 1%nat, 4%nat. simpl. split; [lia | exact H].
    + exists 2%nat, 3%nat. simpl. split; [lia | exact H].
    + exists 2%nat, 4%nat. simpl. split; [lia | exact H].
    + exists 3%nat, 4%nat. simpl. split; [lia | exact H].
  - intros (i & j & Hij & H). simpl in Hij.
    destruct i as [ | [ | [ | [ | i]]]]; destruct j as [ | [ | [ | [ | [ | j]]]]];
      try lia; simpl in H; apply sin_half_difference_zero in H;
      rewrite H; ring.
Qed.

Lemma elevation_multiple_of_90 (elv : R) :
  cos (np.deg2rad elv) = 0 \/ sin (np.deg2rad elv) = 0
  <-> exists k : Z, elv = 90 * IZR k.
Proof.
  pose proof PI_RGT_0 as Hpi. unfold np.deg2rad. split.
  - intros [H | H].
    + destruct (cos_eq_0_0 _ H) as [k Hk]. exists (2 * k + 1)%Z.
      rewrite plus_IZR, mult_IZR.
      apply Rmult_eq_reg_r with (PI / 180); [ | lra].
      rewrite Hk. field.
    + destruct (sin_eq_0_0 _ H) as [k Hk]. exists (2 * k)%Z.
      rewrite mult_IZR.
      apply Rmult_eq_reg_r with (PI / 180); [ | lra].
      rewrite Hk. field.
  - intros [k Hk]. subst elv.
    destruct (Z.Even_or_Odd k) as [[m Hm] | [m Hm]]; subst k.
    + right. apply sin_eq_0_1. exists m. rewrite mult_IZR. field.
    + left. apply cos_eq_0_1. exists m. rewrite plus_IZR, mult_IZR. field.
Qed.

(** X1: in exact arithmetic the geometry matrix that get_m_matrix builds
    for a scan of five azimuths is singular exactly when the geometry is
    degenerate: the elevation is a multiple of 90 degrees, or two of the
    azimuths differ by a multiple of 360 degrees. *)
Theorem singular_iff_degenerate (elv : R) (azm : list R) (M : np.matrix) :
  SixBeamMethod.get_m_matrix elv azm = Ok M ->
  length azm = 5%nat
  /\ (np.det M = 0 <-> Notions.degenerate elv azm).
Proof.
  intros HM.
  destruct (@get_m_matrix_ok _ _ _ HM) as (a1 & a2 & a3 & a4 & a5 & E & ->).
  rewrite E. split; [reflexivity | ].
  unfold Notions.degenerate.
  rewrite det_m_matrix, <- elevation_multiple_of_90,
    <- half_difference_product_zero.
  split.
  - intros H.
    apply Rmult_integral in H. destruct H as [H | H]; [ | now right].
    apply Rmult_integral in H. destruct H as [H | H].
    + apply Rmult_integral in H. destruct H as [H | H]; [lra | ].
      left. left. destruct (Req_dec (cos (np.deg2rad elv)) 0) as [E0 | N];
        [exact E0 | ].
      exfalso. exact (pow_nonzero _ 8 N H).
    + left. right. destruct (Req_dec (sin (np.deg2rad elv)) 0) as [E0 | N];
        [exact E0 | ].
      exfalso. exact (pow_nonzero _ 2 N H).
  - intros [[H | H] | H]; rewrite H; ring.
Qed.

(** ** What the constructor refuses *)

(** X2: the constructor raises TypeError on anything but restructured data
    and ValueError on a scan that has not five azimuths, whatever the
    windows and the observations; and a window shorter than four profiles
    is refused with ValueError, for the slanted and for the vertical
    observations, since it asks for no sample at all. *)
Theorem init_rejects (d : SixBeamMethod.GetRestructuredData)
  (freq freq90 : Z) :
  SixBeamMethod.init SixBeamMethod.OtherObject freq freq90 = Raise TypeError
  /\ (length (SixBeamMethod.azm (SixBeamMethod.data_transf d)) <> 5%nat ->
      SixBeamMethod.init (SixBeamMethod.Restructured d) freq freq90
      = Raise ValueError)
  /\ (forall slanted vertical,
         (freq < 4)%Z ->
         SixBeamMethod.get_variance slanted freq = Raise ValueError
         /\ SixBeamMethod.get_variance90 vertical freq = Raise ValueError).
Proof.
  split; [reflexivity | ]. split.
  - intros Hlen. unfold SixBeamMethod.init.
    now rewrite get_m_matrix_not_five.
  - intros slanted vertical H4.
    unfold SixBeamMethod.get_variance, SixBeamMethod.get_variance90.
    now rewrite rolling_check_small.
Qed.

(** ** NaN in the six components *)

Lemma nansum_strict_defined (row : list R) (v : list (option R)) :
  length row = length v ->
  np.nansum_strict (map (fun '(a, x) => np.lift1 (Rmult a) x) (combine row v))
  <> None
  <-> Spec.all_defined v = true.
Proof.
  revert v. induction row as [ | a row IH]; intros [ | x v] Hl;
    try discriminate.
  - simpl. split; [reflexivity | discriminate].
  - injection Hl as Hl. specialize (IH v Hl).
    cbn [combine map np.nansum_strict fold_right Spec.all_defined forallb].
    change (fold_right (np.lift2 Rplus) (Some 0)
              (map (fun '(a, x) => np.lift1 (Rmult a) x) (combine row v)))
      with (np.nansum_strict
              (map (fun '(a, x) => np.lift1 (Rmult a) x) (combine row v))).
    change (forallb (fun o : option R =>
                       match o with Some _ => true | None => false end) v)
      with (Spec.all_defined v).
    destruct x as [x | ]; cbn [np.lift1 np.lift2 andb].
    + destruct (np.nansum_strict _) as [s | ].
      * split; [intros _; apply IH; discriminate | discriminate].
      * split; [intros H; now contradiction H | ].
        intros H. apply IH in H. now contradiction H.
    + split; [intros H; now contradiction H | discriminate].
Qed.

Lemma length_inverse_row (M : np.matrix) (i : nat) :
  (i < length M)%nat -> length (nth i (np.inverse M) []) = length M.
Proof.
  intros H. unfold np.inverse.
  rewrite (nth_indep _ []
             (map (fun j => np.cofactor M j 0 / np.det M)
                  (seq 0 (length M))))
    by now rewrite length_map, length_seq.
  rewrite (map_nth (fun i => map (fun j => np.cofactor M j i / np.det M)
                                 (seq 0 (length M)))).
  now rewrite length_map, length_seq.
Qed.

Lemma components_In (ds : SixBeamMethod.var_comp_ds_t)
  (t90 : list Z) (sigma : list (list (list (option R))))
  (c : list (list (option R))) :
  ds = SixBeamMethod.get_variance_ds t90 sigma ->
  In c (Notions.components ds) ->
  exists i, (i < 6)%nat /\ c = SixBeamMethod.component sigma i.
Proof.
  intros -> Hc. unfold Notions.components in Hc. cbn in Hc.
  destruct Hc as [<- | [<- | [<- | [<- | [<- | [<- | []]]]]]];
    [exists 0%nat | exists 1%nat | exists 2%nat | exists 3%nat
     | exists 4%nat | exists 5%nat];
    (split; [lia | reflexivity]).
Qed.

(** X3: at a (time, range) cell, each of the six components is a number
    when the five slanted variances and the vertical variance of the cell are
    all numbers, and each of the six is NaN as soon as one of these six
    variances is NaN. *)
Theorem components_nan_together (d : SixBeamMethod.GetRestructuredData)
  (freq freq90 : Z) (ds : SixBeamMethod.var_comp_ds_t) :
  Spec.well_formed d ->
  SixBeamMethod.init (SixBeamMethod.Restructured d) freq freq90 = Ok ds ->
  exists rv,
    SixBeamMethod.calc_variances d freq freq90 = Ok rv
    /\ forall t r s s90 c,
      Spec.at2 (SixBeamMethod.rVariance rv) t r = Some s ->
      Spec.at2 (SixBeamMethod.rVariance90 rv) t r = Some s90 ->
      In c (Notions.components ds) ->
      exists v,
        Spec.at2 c t r = Some v
        /\ (v <> None <-> Spec.all_defined (s ++ [s90]) = true).
Proof.
  intros Hwf Hinit.
  destruct (@init_ok _ _ _ _ Hinit)
    as (M & rv & S & HM & Hdet & Hrv & HS & Hds).
  exists rv. split; [exact Hrv | ].
  intros t r s s90 c Hs Hs90 Hc.
  destruct (@components_In _ _ _ _ Hds Hc) as (i & Hi & ->).
  rewrite (@at2_component _ _ _ _ _ _ HS), Hs, Hs90.
  eexists. split; [reflexivity | ].
  destruct (@get_m_matrix_ok _ _ _ HM) as (a1 & a2 & a3 & a4 & a5 & Hazm & HMe).
  assert (HlM : length M = 6%nat) by (rewrite HMe; reflexivity).
  rewrite nth_matvec by (rewrite length_inverse; lia).
  apply nansum_strict_defined.
  rewrite length_inverse_row by lia.
  rewrite length_app, (@rVariance_length _ _ _ _ _ _ _ Hwf Hrv Hs), Hazm, HlM.
  reflexivity.
Qed.

(** ** The radial variances *)

(** X4: every radial variance handed to the inversion, slanted or vertical,
    is NaN or a number that is not negative. *)
Theorem radial_variances_nonnegative (d : SixBeamMethod.GetRestructuredData)
  (freq freq90 : Z) (rv : SixBeamMethod.radial_variances_t) :
  SixBeamMethod.calc_variances d freq freq90 = Ok rv ->
  (forall t r z x,
      Spec.at3 (SixBeamMethod.rVariance rv) t r z = Some (Some x) -> 0 <= x)
  /\ (forall t r x,
         Spec.at2 (SixBeamMethod.rVariance90 rv) t r = Some (Some x) ->
         0 <= x).
Proof.
  intros Hrv. destruct (calc_variances_ok _ _ _ Hrv) as [E E90].
  assert (Hat : forall w mp xs i x,
             xr.rolling_var_at w mp xs i = Some x -> 0 <= x).
  { intros w mp xs i x. unfold xr.rolling_var_at.
    destruct (_ <=? _)%Z; [ | discriminate].
    intros [= <-]. apply var_nonneg. }
  split.
  - intros t r z x. rewrite E, at3_rolling_var3.
    destruct (Spec.at3 _ t r z); [ | discriminate].
    simpl. intros [= H]. exact (Hat _ _ _ _ _ H).
  - intros t r x. rewrite E90, at2_rolling_var2.
    destruct (Spec.at2 _ t r); [ | discriminate].
    simpl. intros [= H]. exact (Hat _ _ _ _ _ H).
Qed.

Lemma sum_map_scale_shift (c b : R) (l : list R) :
  np.sum (map (fun x => c * x + b) l) = c * np.sum l + b * INR (length l).
Proof.
  unfold np.sum. induction l as [ | x l IH].
  - simpl. ring.
  - cbn [map fold_right length]. rewrite IH, S_INR. ring.
Qed.

Lemma var_scale_shift (c b : R) (l : list R) :
  xr.var (map (fun x => c * x + b) l) = c ^ 2 * xr.var l.
Proof.
  destruct l as [ | x0 l].
  - unfold xr.var, xr.mean, np.sum. simpl. unfold Rdiv. ring.
  - set (l' := x0 :: l).
    assert (Hn : INR (length l') <> 0).
    { apply not_0_INR. discriminate. }
    assert (Hm : xr.mean (map (fun x => c * x + b) l') = c * xr.mean l' + b).
    { unfold xr.mean. rewrite sum_map_scale_shift, length_map.
      field. exact Hn. }
    unfold xr.var. rewrite Hm, map_map.
    rewrite <- (mean_map_mult (c ^ 2)), map_map.
    f_equal. apply map_ext. intros x. ring.
Qed.

Lemma rolling_var_at_scale_shift (c b : R) (w mp : Z) (xs : list (option R))
  (i : nat) :
  xr.rolling_var_at w mp (map (np.lift1 (fun x => c * x + b)) xs) i
  = np.lift1 (Rmult (c ^ 2)) (xr.rolling_var_at w mp xs i).
Proof.
  unfold xr.rolling_var_at.
  rewrite window_map by reflexivity.
  rewrite present_lift1, length_map, var_scale_shift.
  now destruct (_ <=? _)%Z.
Qed.

Lemma series3_map (f : option R -> option R)
  (a : list (list (list (option R)))) (r z : nat) :
  f None = None ->
  xr.series3 (map (map (map f)) a) r z = map f (xr.series3 a r z).
Proof.
  intros Hf. unfold xr.series3. rewrite !map_map. apply map_ext.
  intros plane.
  change (@nil (option R)) with (map f []) at 1.
  rewrite (map_nth (map f)). rewrite <- Hf at 1. apply map_nth.
Qed.

Lemma mapi_as_map {A B C : Type} (f : nat -> A -> B) (g : B -> C)
  (l : list A) :
  map g (xr.mapi f l) = xr.mapi (fun i a => g (f i a)) l.
Proof.
  unfold xr.mapi. rewrite map_map. apply map_ext. now intros [i a].
Qed.

Lemma rolling_var2_scale_shift (c b : R) (w mp : Z)
  (a : list (list (option R))) :
  xr.rolling_var2 w mp (map (map (np.lift1 (fun x => c * x + b))) a)
  = map (map (np.lift1 (Rmult (c ^ 2)))) (xr.rolling_var2 w mp a).
Proof.
  unfold xr.rolling_var2.
  rewrite mapi_map, mapi_as_map. apply mapi_ext. intros t row _.
  rewrite mapi_map, mapi_as_map. apply mapi_ext. intros r x _.
  rewrite series2_map by reflexivity.
  apply rolling_var_at_scale_shift.
Qed.

Lemma rolling_var3_scale_shift (c b : R) (w mp : Z)
  (a : list (list (list (option R)))) :
  xr.rolling_var3 w mp (map (map (map (np.lift1 (fun x => c * x + b)))) a)
  = map (map (map (np.lift1 (Rmult (c ^ 2))))) (xr.rolling_var3 w mp a).
Proof.
  unfold xr.rolling_var3.
  rewrite mapi_map, mapi_as_map. apply mapi_ext. intros t plane _.
  rewrite mapi_map, mapi_as_map. apply mapi_ext. intros r row _.
  rewrite mapi_map, mapi_as_map. apply mapi_ext. intros z x _.
  rewrite series3_map by reflexivity.
  apply rolling_var_at_scale_shift.
Qed.

(** X5: the rolling variance does not see an offset of the velocities and
    scales with the square of a factor: the variances of c x + b are c^2
    times the variances of x, NaN where these are NaN, for the vertical and
    for the slanted observations, and the same windows are refused. *)
Theorem variance_of_rescaled_series (c b : R) (freq : Z) :
  let f := np.lift1 (fun x => c * x + b) in
  let g := np.lift1 (Rmult (c ^ 2)) in
  (forall (xs : list (option R)) (mp : Z),
      xr.rolling_var freq mp (map f xs) = map g (xr.rolling_var freq mp xs))
  /\ (forall data : list (list (option R)),
         SixBeamMethod.get_variance90 (map (map f) data) freq
         = match SixBeamMethod.get_variance90 data freq with
           | Ok v => Ok (map (map g) v)
           | Raise e => Raise e
           end)
  /\ (forall data : list (list (list (option R))),
         SixBeamMethod.get_variance (map (map (map f)) data) freq
         = match SixBeamMethod.get_variance data freq with
           | Ok v => Ok (map (map (map g)) v)
           | Raise e => Raise e
           end).
Proof.
  intros f g. split; [ | split].
  - intros xs mp. unfold xr.rolling_var. rewrite length_map, map_map.
    apply map_ext. intros i. apply rolling_var_at_scale_shift.
  - intros data. unfold SixBeamMethod.get_variance90.
    destruct (xr.rolling_check freq _) as [[] | e]; simpl; [ | reflexivity].
    f_equal. apply rolling_var2_scale_shift.
  - intros data. unfold SixBeamMethod.get_variance.
    destruct (xr.rolling_check freq _) as [[] | e]; simpl; [ | reflexivity].
    f_equal. apply rolling_var3_scale_shift.
Qed.

(** ** Interpolation onto the times of the vertical beam *)

Lemma nearest_member {A : Type} (later : bool) (t : Z) (src : list (Z * A))
  (v : A) :
  NoDup (map fst src) -> In (t, v) src ->
  xr.nearest later t src = Some (t, v).
Proof.
  induction src as [ | [ti w] src IH]; intros Hn Hin; [contradiction | ].
  cbn [map fst] in Hn. inversion Hn as [ | ? ? Hti Hn']; subst.
  cbn [xr.nearest]. destruct Hin as [E | Hin].
  - injection E as -> ->.
    destruct (xr.nearest later t src) as [[tj u] | ] eqn:En; [ | reflexivity].
    apply nearest_In in En.
    assert (Hne : tj <> t).
    { intros ->. apply Hti. change t with (fst (t, u)). now apply in_map. }
    unfold xr.closer. cbv zeta.
    replace (Z.abs (t - t)) with 0%Z by lia.
    destruct (Z.ltb_spec 0 (Z.abs (t - tj))); [reflexivity | lia].
  - rewrite (IH Hn' Hin).
    assert (Hne : ti <> t).
    { intros ->. apply Hti. change t with (fst (t, v)). now apply in_map. }
    unfold xr.closer. cbv zeta.
    replace (Z.abs (t - t)) with 0%Z by lia.
    destruct (Z.ltb_spec (Z.abs (t - ti)) 0); [lia | ].
    destruct (Z.eqb_spec (Z.abs (t - ti)) 0); [lia | reflexivity].
Qed.

Lemma out_of_bounds_member {A : Type} (t : Z) (src : list (Z * A)) (v : A) :
  In (t, v) src -> xr.out_of_bounds t src = false.
Proof.
  intros Hin. unfold xr.out_of_bounds.
  apply orb_false_iff. split.
  - destruct (forallb _ src) eqn:E; [ | reflexivity].
    rewrite forallb_forall in E. specialize (E _ Hin). simpl in E.
    apply Z.ltb_lt in E. lia.
  - destruct (forallb _ src) eqn:E; [ | reflexivity].
    rewrite forallb_forall in E. specialize (E _ Hin). simpl in E.
    apply Z.ltb_lt in E. lia.
Qed.

Lemma interp_nearest_same_times (times : list Z)
  (vals : list (list (list (option R)))) :
  NoDup times -> length vals = length times ->
  xr.interp_nearest (combine times vals) times = vals.
Proof.
  intros Hn Hl. unfold xr.interp_nearest.
  set (src := combine times vals).
  assert (Hf : map fst src = times) by now apply map_fst_combine_eq.
  assert (Hs : map snd src = vals) by now apply map_snd_combine_eq.
  rewrite <- Hf at 1. rewrite <- Hs at 1. rewrite map_map.
  apply map_ext_in. intros [t v] Hin. cbn [fst snd].
  rewrite (nearest_member false) with (v := v);
    [ | now rewrite Hf | exact Hin].
  now rewrite (out_of_bounds_member _ _ _ Hin).
Qed.

(** X6: when the slanted and the vertical observations are on the same
    times, each time once, the interpolation onto the vertical times changes
    nothing: the slanted variances are the rolling variances of the slanted
    observations as they are. *)
Theorem variances_on_common_times (d : SixBeamMethod.GetRestructuredData)
  (freq freq90 : Z) (rv : SixBeamMethod.radial_variances_t) :
  let slanted := SixBeamMethod.data_transf d in
  SixBeamMethod.time slanted
  = SixBeamMethod.time90 (SixBeamMethod.data_transf_90 d) ->
  NoDup (SixBeamMethod.time slanted) ->
  length (SixBeamMethod.values slanted) = length (SixBeamMethod.time slanted) ->
  SixBeamMethod.calc_variances d freq freq90 = Ok rv ->
  SixBeamMethod.get_variance (SixBeamMethod.values slanted) freq
  = Ok (SixBeamMethod.rVariance rv).
Proof.
  intros slanted Ht Hn Hl Hrv.
  unfold SixBeamMethod.calc_variances in Hrv. fold slanted in Hrv.
  rewrite <- Ht, interp_nearest_same_times in Hrv by assumption.
  destruct (SixBeamMethod.get_variance _ freq) as [v | e];
    simpl in Hrv; [ | discriminate].
  destruct (SixBeamMethod.get_variance90 _ freq90) as [v90 | e];
    simpl in Hrv; [ | discriminate].
  injection Hrv as <-. reflexivity.
Qed.

(** ** The cells of the retrieved dataset *)

Lemma same_shape_at2 (a : list (list (list (option R))))
  (b : list (list (option R))) (t r : nat) :
  SixBeamMethod.same_shape a b = true ->
  Spec.at2 a t r = None <-> Spec.at2 b t r = None.
Proof.
  unfold SixBeamMethod.same_shape. intros H.
  apply andb_prop in H. destruct H as [Hl Hrow].
  apply Nat.eqb_eq in Hl. rewrite forallb_forall in Hrow.
  unfold Spec.at2.
  destruct (nth_error a t) as [x | ] eqn:Ea;
    destruct (nth_error b t) as [y | ] eqn:Eb.
  - assert (Hin : In (x, y) (combine a b)).
    { apply nth_error_In with t. now rewrite nth_error_combine, Ea, Eb. }
    specialize (Hrow _ Hin). cbn in Hrow. apply Nat.eqb_eq in Hrow.
    rewrite !nth_error_None, Hrow. reflexivity.
  - exfalso. apply nth_error_None in Eb.
    assert (t < length a)%nat by (apply nth_error_Some; congruence). lia.
  - exfalso. apply nth_error_None in Ea.
    assert (t < length b)%nat by (apply nth_error_Some; congruence). lia.
  - tauto.
Qed.

(** X7: the retrieved dataset is on the times of the vertical beam, and each
    of its six components has a cell exactly where the vertical observations
    have one. *)
Theorem dataset_on_vertical_cells (d : SixBeamMethod.GetRestructuredData)
  (freq freq90 : Z) (ds : SixBeamMethod.var_comp_ds_t) :
  SixBeamMethod.init (SixBeamMethod.Restructured d) freq freq90 = Ok ds ->
  SixBeamMethod.ds_time ds
  = SixBeamMethod.time90 (SixBeamMethod.data_transf_90 d)
  /\ forall c t r,
      In c (Notions.components ds) ->
      Spec.at2 c t r = None
      <-> Spec.at2 (SixBeamMethod.values90 (SixBeamMethod.data_transf_90 d))
            t r = None.
Proof.
  intros Hinit.
  destruct (@init_ok _ _ _ _ Hinit)
    as (M & rv & S & HM & Hdet & Hrv & HS & Hds).
  split; [rewrite Hds; reflexivity | ].
  intros c t r Hc.
  destruct (@components_In _ _ _ _ Hds Hc) as (i & Hi & ->).
  rewrite (@at2_component _ _ _ _ _ _ HS).
  assert (Hshape : SixBeamMethod.same_shape (SixBeamMethod.rVariance rv)
                     (SixBeamMethod.rVariance90 rv) = true).
  { unfold SixBeamMethod.get_s_matrix in HS.
    destruct (SixBeamMethod.same_shape _ _); [reflexivity | discriminate]. }
  pose proof (same_shape_at2 _ _ t r Hshape) as Hsh.
  destruct (calc_variances_ok _ _ _ Hrv) as [_ E90].
  assert (H90 : Spec.at2 (SixBeamMethod.rVariance90 rv) t r = None
                <-> Spec.at2 (SixBeamMethod.values90
                                (SixBeamMethod.data_transf_90 d)) t r = None).
  { rewrite E90, at2_rolling_var2, at2_map.
    destruct (Spec.at2 (SixBeamMethod.values90 _) t r); simpl; split;
      intros H; try discriminate; reflexivity. }
  rewrite <- H90.
  destruct (Spec.at2 (SixBeamMethod.rVariance rv) t r) as [s | ];
    destruct (Spec.at2 (SixBeamMethod.rVariance90 rv) t r) as [s90 | ];
    first [tauto | split; discriminate].
Qed.

(** * Further properties of the retrieval from a full scan *)

(** ** The four products, cell by cell *)

Lemma at2_getAzmWind (obs : fftWindPropRet.DopplerObs)
  (rad phase : list (list (option R))) (a : R) (t r : nat) :
  Spec.at2 (fftWindPropRet.getAzmWind obs rad phase a) t r
  = match Spec.at2 rad t r, Spec.at2 phase t r with
    | Some s, Some p =>
        Some (np.lift2
                (fun s p =>
                   s * sin (np.deg2rad a + np.deg2rad (p + 180))
                   / cos (np.deg2rad (fftWindPropRet.elv obs)))
                s p)
    | _, _ => None
    end.
Proof.
  unfold Spec.at2, fftWindPropRet.getAzmWind.
  rewrite nth_error_map, nth_error_combine.
  destruct (nth_error rad t) as [speeds | ]; [ | reflexivity].
  destruct (nth_error phase t) as [phases | ]; simpl.
  - rewrite nth_error_map, nth_error_combine.
    destruct (nth_error speeds r), (nth_error phases r); reflexivity.
  - now destruct (nth_error speeds r).
Qed.

(** A retrieval that returns had at least two azimuths. *)
Lemma windProp_needs_two (obs : fftWindPropRet.DopplerObs)
  (wp : fftWindPropRet.windProp_t) :
  fftWindPropRet.windProp obs = Ok wp ->
  (2 <= length (fftWindPropRet.azm obs))%nat.
Proof.
  intros H. now apply xrft_check_two, (@windProp_checked _ _ H).
Qed.

(** The four products of a cell, from the coefficient picked in its
    transform. *)
Lemma windProp_products (obs : fftWindPropRet.DopplerObs)
  (wp : fftWindPropRet.windProp_t) (t r : nat) (c : list (option R)) :
  fftWindPropRet.windProp obs = Ok wp ->
  Spec.at2 (fftWindPropRet.values obs) t r = Some c ->
  let n := length (fftWindPropRet.azm obs) in
  let e := np.deg2rad (fftWindPropRet.elv obs) in
  match nth (n - 2) (fftWindPropRet.xrft_fft (fftWindPropRet.azm obs) c)
            None with
  | Some z =>
      let rad := 2 * fftWindPropRet.Cabs z / INR n in
      let dir := - np.rad2deg (np.arctan2 (snd z) (fst z)) + 180 in
      Spec.at2 (fftWindPropRet.horizontal_wind_speed wp) t r
      = Some (Some (rad / cos e))
      /\ Spec.at2 (fftWindPropRet.horizontal_wind_direction wp) t r
         = Some (Some dir)
      /\ Spec.at2 (fftWindPropRet.zonal_wind wp) t r
         = Some (Some (rad * sin (np.deg2rad 0 + np.deg2rad dir) / cos e))
      /\ Spec.at2 (fftWindPropRet.meridional_wind wp) t r
         = Some (Some (rad * sin (np.deg2rad 90 + np.deg2rad dir) / cos e))
  | None =>
      Spec.at2 (fftWindPropRet.horizontal_wind_speed wp) t r = Some None
      /\ Spec.at2 (fftWindPropRet.horizontal_wind_direction wp) t r
         = Some None
      /\ Spec.at2 (fftWindPropRet.zonal_wind wp) t r = Some None
      /\ Spec.at2 (fftWindPropRet.meridional_wind wp) t r = Some None
  end.
Proof.
  intros Hwp Hc n e.
  pose proof (@windProp_checked _ _ Hwp) as Hn.
  unfold fftWindPropRet.windProp in Hwp.
  rewrite getCompAmp_checked in Hwp by exact Hn. simpl in Hwp.
  injection Hwp as <-. fold n.
  cbn [fftWindPropRet.horizontal_wind_speed
       fftWindPropRet.horizontal_wind_direction
       fftWindPropRet.zonal_wind fftWindPropRet.meridional_wind].
  rewrite !at2_getAzmWind.
  unfold fftWindPropRet.getHorWindSpeed, fftWindPropRet.getRadWindSpeed,
    fftWindPropRet.getWindDir, fftWindPropRet.getPhase.
  rewrite !at2_map, Hc. fold n. fold e. simpl.
  destruct (nth (n - 2) (fftWindPropRet.xrft_fft _ c) None) as [z | ]; simpl;
    repeat split; reflexivity.
Qed.

Lemma all_defined_map_Some (c : list (option R)) :
  Spec.all_defined c = true -> exists xs, c = map Some xs.
Proof.
  induction c as [ | [x | ] c IH]; simpl; intros H.
  - now exists [].
  - destruct (IH H) as [xs ->]. now exists (x :: xs).
  - discriminate.
Qed.

Lemma all_present_undefined (c : list (option R)) :
  Spec.all_defined c = false -> fftWindPropRet.all_present c = None.
Proof.
  induction c as [ | [x | ] c IH]; simpl; intros H.
  - discriminate.
  - unfold fftWindPropRet.all_present in *. simpl. now rewrite (IH H).
  - reflexivity.
Qed.

Lemma nth_all_None {A B : Type} (l : list A) (i : nat) :
  nth i (map (fun _ => @None B) l) None = None.
Proof.
  revert i. induction l as [ | x l IH]; intros [ | i]; simpl;
    try reflexivity.
  apply IH.
Qed.

(** X8: at a (time, range) cell with one sample per azimuth, the four
    products are numbers when no sample of the cell is NaN, and the four of
    them are NaN as soon as one sample is. *)
Theorem nan_sample_blanks_cell (obs : fftWindPropRet.DopplerObs)
  (wp : fftWindPropRet.windProp_t) (t r : nat) (c : list (option R)) :
  fftWindPropRet.windProp obs = Ok wp ->
  Spec.at2 (fftWindPropRet.values obs) t r = Some c ->
  length c = length (fftWindPropRet.azm obs) ->
  (Spec.all_defined c = true ->
   exists s dd u v,
     Spec.at2 (fftWindPropRet.horizontal_wind_speed wp) t r = Some (Some s)
     /\ Spec.at2 (fftWindPropRet.horizontal_wind_direction wp) t r
        = Some (Some dd)
     /\ Spec.at2 (fftWindPropRet.zonal_wind wp) t r = Some (Some u)
     /\ Spec.at2 (fftWindPropRet.meridional_wind wp) t r = Some (Some v))
  /\ (Spec.all_defined c = false ->
      Spec.at2 (fftWindPropRet.horizontal_wind_speed wp) t r = Some None
      /\ Spec.at2 (fftWindPropRet.horizontal_wind_direction wp) t r
         = Some None
      /\ Spec.at2 (fftWindPropRet.zonal_wind wp) t r = Some None
      /\ Spec.at2 (fftWindPropRet.meridional_wind wp) t r = Some None).
Proof.
  intros Hwp Hc Hlen.
  pose proof (windProp_needs_two _ Hwp) as Hn.
  pose proof (@windProp_products _ _ _ _ _ Hwp Hc) as H. cbv zeta in H.
  split; intros Hdef.
  - destruct (all_defined_map_Some _ Hdef) as [xs ->].
    rewrite length_map in Hlen.
    rewrite <- Hlen, selected_coefficient in H by lia.
    destruct H as (H1 & H2 & H3 & H4).
    eexists. eexists. eexists. eexists.
    split; [exact H1 | ]. split; [exact H2 | ]. split; [exact H3 | exact H4].
  - unfold fftWindPropRet.xrft_fft in H.
    rewrite (all_present_undefined _ Hdef), nth_all_None in H. exact H.
Qed.

(** X9: wherever the retrieved speed S and direction D are numbers, the
    zonal product is S sin D and the meridional product is S cos D, so the
    sum of their squares is the square of S. *)
Theorem components_of_speed_and_direction (obs : fftWindPropRet.DopplerObs)
  (wp : fftWindPropRet.windProp_t) (t r : nat) (s dd : R) :
  fftWindPropRet.windProp obs = Ok wp ->
  Spec.at2 (fftWindPropRet.horizontal_wind_speed wp) t r = Some (Some s) ->
  Spec.at2 (fftWindPropRet.horizontal_wind_direction wp) t r
  = Some (Some dd) ->
  exists u v,
    Spec.at2 (fftWindPropRet.zonal_wind wp) t r = Some (Some u)
    /\ Spec.at2 (fftWindPropRet.meridional_wind wp) t r = Some (Some v)
    /\ u = s * sin (np.deg2rad dd)
    /\ v = s * cos (np.deg2rad dd)
    /\ u ^ 2 + v ^ 2 = s ^ 2.
Proof.
  intros Hwp Hs Hd.
  assert (Hc : exists c, Spec.at2 (fftWindPropRet.values obs) t r = Some c).
  { pose proof (@windProp_checked _ _ Hwp) as Hn.
    pose proof Hwp as Hwp'.
    unfold fftWindPropRet.windProp in Hwp'.
    rewrite getCompAmp_checked in Hwp' by exact Hn. simpl in Hwp'.
    injection Hwp' as <-.
    cbn [fftWindPropRet.horizontal_wind_speed] in Hs.
    unfold fftWindPropRet.getHorWindSpeed, fftWindPropRet.getRadWindSpeed
      in Hs.
    rewrite !at2_map in Hs.
    destruct (Spec.at2 (fftWindPropRet.values obs) t r) as [c | ];
      [now exists c | discriminate]. }
  destruct Hc as [c Hc].
  pose proof (@windProp_products _ _ _ _ _ Hwp Hc) as H. cbv zeta in H.
  destruct (nth _ (fftWindPropRet.xrft_fft _ c) None) as [z | ].
  - destruct H as (H1 & H2 & H3 & H4).
    rewrite H1 in Hs. rewrite H2 in Hd.
    injection Hs as Hs. injection Hd as Hd.
    eexists. eexists. split; [exact H3 | ]. split; [exact H4 | ].
    rewrite Hd, deg2rad_0, deg2rad_90, Rplus_0_l.
    assert (E : sin (PI / 2 + np.deg2rad dd) = cos (np.deg2rad dd)).
    { rewrite sin_plus, sin_PI2, cos_PI2. ring. }
    rewrite E, <- Hs.
    split; [unfold Rdiv; ring | ]. split; [unfold Rdiv; ring | ].
    pose proof (sin2_cos2_pow (np.deg2rad dd)) as P.
    set (S := sin (np.deg2rad dd)) in *. set (C := cos (np.deg2rad dd)) in *.
    set (rho := 2 * fftWindPropRet.Cabs z
                / INR (length (fftWindPropRet.azm obs))).
    set (q := cos (np.deg2rad (fftWindPropRet.elv obs))).
    replace ((rho * S / q) ^ 2 + (rho * C / q) ^ 2)
      with ((rho / q) ^ 2 * (S ^ 2 + C ^ 2)) by (unfold Rdiv; ring).
    rewrite P. ring.
  - destruct H as (H1 & _). rewrite H1 in Hs. discriminate.
Qed.

(** ** The ranges of the direction and of the speed *)

Lemma arctan2_range (y x : R) : - PI < np.arctan2 y x <= PI.
Proof.
  pose proof PI_RGT_0 as Hpi. unfold np.arctan2.
  destruct (Rlt_dec 0 x) as [Hpos | Hnpos].
  - pose proof (atan_bound (y / x)). lra.
  - destruct (Rlt_dec x 0) as [Hneg | Hnneg].
    + assert (Hi : / x < 0) by now apply Rinv_lt_0_compat.
      destruct (Rle_dec 0 y) as [Hy | Hy].
      * pose proof (atan_bound (y / x)) as B.
        assert (Hq : y / x <= 0) by (unfold Rdiv; nra).
        assert (Ha : atan (y / x) <= 0).
        { destruct Hq as [Hq | Hq].
          - apply Rlt_le. rewrite <- atan_0. now apply atan_increasing.
          - rewrite Hq, atan_0. lra. }
        lra.
      * pose proof (atan_bound (y / x)) as B.
        assert (Hq : 0 < y / x) by (unfold Rdiv; nra).
        assert (Ha : 0 < atan (y / x)).
        { rewrite <- atan_0. now apply atan_increasing. }
        lra.
    + destruct (Rlt_dec 0 y); [lra | ].
      destruct (Rlt_dec y 0); lra.
Qed.

(** X10: a retrieved direction is a number of [0, 360], and for an
    elevation of [0, 90) a retrieved speed is never negative. *)
Theorem direction_and_speed_ranges (obs : fftWindPropRet.DopplerObs)
  (wp : fftWindPropRet.windProp_t) (t r : nat) :
  fftWindPropRet.windProp obs = Ok wp ->
  (forall dd,
      Spec.at2 (fftWindPropRet.horizontal_wind_direction wp) t r
      = Some (Some dd) ->
      0 <= dd <= 360)
  /\ (forall s,
         0 <= fftWindPropRet.elv obs < 90 ->
         Spec.at2 (fftWindPropRet.horizontal_wind_speed wp) t r
         = Some (Some s) ->
         0 <= s).
Proof.
  intros Hwp.
  pose proof (windProp_needs_two _ Hwp) as Hn.
  pose proof PI_RGT_0 as Hpi.
  pose proof Hwp as Hwp'.
  unfold fftWindPropRet.windProp in Hwp'.
  rewrite getCompAmp_checked in Hwp' by (exact (@windProp_checked _ _ Hwp)).
  simpl in Hwp'.
  injection Hwp' as Hwp'.
  split.
  - intros dd Hd. rewrite <- Hwp' in Hd.
    cbn [fftWindPropRet.horizontal_wind_direction] in Hd.
    unfold fftWindPropRet.getWindDir, fftWindPropRet.getPhase in Hd.
    rewrite !at2_map in Hd.
    destruct (Spec.at2 (fftWindPropRet.values obs) t r) as [c | ];
      [ | discriminate].
    simpl in Hd.
    destruct (nth _ (fftWindPropRet.xrft_fft _ c) None) as [z | ];
      [ | discriminate].
    simpl in Hd. injection Hd as <-.
    pose proof (arctan2_range (snd z) (fst z)) as [Hlo Hhi].
    unfold np.rad2deg.
    assert (Hk : 0 < 180 / PI) by (apply Rdiv_lt_0_compat; lra).
    assert (E : PI * (180 / PI) = 180) by (field; lra).
    split.
    + assert (np.arctan2 (snd z) (fst z) * (180 / PI) <= PI * (180 / PI))
        by (apply Rmult_le_compat_r; lra).
      lra.
    + assert (- PI * (180 / PI) < np.arctan2 (snd z) (fst z) * (180 / PI))
        by (apply Rmult_lt_compat_r; lra).
      lra.
  - intros s Helv Hs. rewrite <- Hwp' in Hs.
    cbn [fftWindPropRet.horizontal_wind_speed] in Hs.
    unfold fftWindPropRet.getHorWindSpeed, fftWindPropRet.getRadWindSpeed
      in Hs.
    rewrite !at2_map in Hs.
    destruct (Spec.at2 (fftWindPropRet.values obs) t r) as [c | ];
      [ | discriminate].
    simpl in Hs.
    destruct (nth _ (fftWindPropRet.xrft_fft _ c) None) as [z | ];
      [ | discriminate].
    simpl in Hs. injection Hs as <-.
    assert (Hcos : 0 < cos (np.deg2rad (fftWindPropRet.elv obs))).
    { apply cos_gt_0.
      - unfold np.deg2rad.
        assert (0 <= fftWindPropRet.elv obs * (PI / 180))
          by (apply Rmult_le_pos; lra).
        lra.
      - unfold np.deg2rad.
        replace (PI / 2) with (90 * (PI / 180)) by field.
        apply Rmult_lt_compat_r; lra. }
    assert (HN : 0 < INR (length (fftWindPropRet.azm obs)))
      by (apply lt_0_INR; lia).
    assert (Habs : 0 <= fftWindPropRet.Cabs z) by apply sqrt_pos.
    apply Rmult_le_pos; [ | apply Rlt_le, Rinv_0_lt_compat, Hcos].
    apply Rmult_le_pos; [ | apply Rlt_le, Rinv_0_lt_compat, HN].
    lra.
Qed.

(** ** Scans of seven azimuths or more *)

Lemma product_cos_cos_general (a b t : R) :
  cos (a - t) * cos b
  = 1 / 2 * cos (a + b - t) + 1 / 2 * cos (b - a + t).
Proof.
  set (u := a - t).
  replace (a + b - t) with (u + b) by (unfold u; ring).
  replace (b - a + t) with (b - u) by (unfold u; ring).
  rewrite cos_plus, cos_minus. field.
Qed.

Lemma product_cos_sin_general (a b t : R) :
  cos (a - t) * sin b
  = 1 / 2 * sin (a + b - t) + 1 / 2 * sin (b - a + t).
Proof.
  set (u := a - t).
  replace (a + b - t) with (u + b) by (unfold u; ring).
  replace (b - a + t) with (b - u) by (unfold u; ring).
  rewrite sin_plus, sin_minus. field.
Qed.

Lemma sum_map_combination (f g h : nat -> R) (c1 c2 c3 : R) (l : list nat) :
  np.sum (map (fun j => c1 * f j + c2 * g j + c3 * h j) l)
  = c1 * np.sum (map f l) + c2 * np.sum (map g l) + c3 * np.sum (map h l).
Proof.
  unfold np.sum. induction l as [ | j l IH].
  - simpl. ring.
  - cbn [map fold_right]. rewrite IH. ring.
Qed.

(** The coefficients of two cycles per rotation or more, up to n - 2, of a
    first harmonic sampled along a scan of [n] azimuths are 0. *)
Lemma coefficient_first_harmonic_higher (a0 : R) (n k : nat)
  (A theta0 C : R) :
  (2 <= k)%nat -> (k + 2 <= n)%nat ->
  fftWindPropRet.coefficient (Spec.equally_spaced_from a0 n)
    (map (fun theta => A * cos (np.deg2rad (theta - theta0)) + C)
         (Spec.equally_spaced_from a0 n)) (Z.of_nat k)
  = (360 / INR n * 0, - (360 / INR n * 0)).
Proof.
  intros Hk Hkn.
  assert (HK : 2 <= INR k) by (apply le_INR in Hk; simpl in Hk; lra).
  assert (HKN : INR k + 2 <= INR n).
  { apply le_INR in Hkn. rewrite plus_INR in Hkn. simpl in Hkn. lra. }
  assert (HN : 0 < INR n) by lra.
  pose proof PI_RGT_0 as Hpi.
  set (t := np.deg2rad theta0).
  set (al := np.deg2rad a0).
  set (d1 := 2 * PI / INR n).
  assert (Hd1 : 0 < d1) by (unfold d1; apply Rdiv_lt_0_compat; lra).
  assert (Hturn : forall m : nat,
             INR n * (INR m * d1) = 2 * INR m * PI)
    by (intros m; unfold d1; field; lra).
  assert (Hhalf : forall m : nat,
             0 < INR m -> INR m < INR n -> 0 < INR m * d1 / 2 < PI).
  { intros m H0 H1. split.
    - apply Rdiv_lt_0_compat; [ | lra]. now apply Rmult_lt_0_compat.
    - apply Rmult_lt_reg_r with (INR n); [lra | ].
      replace (INR m * d1 / 2 * INR n) with (INR m * PI)
        by (unfold d1; field; lra).
      nra. }
  assert (Hp : INR (k + 1) = INR k + 1) by (rewrite plus_INR; simpl; ring).
  assert (Hm : INR (k - 1) = INR k - 1)
    by (rewrite minus_INR by lia; simpl; ring).
  assert (Bp : 0 < INR (k + 1) * d1 / 2 < PI) by (apply Hhalf; lra).
  assert (Bm : 0 < INR (k - 1) * d1 / 2 < PI) by (apply Hhalf; lra).
  assert (Bk : 0 < INR k * d1 / 2 < PI) by (apply Hhalf; lra).
  rewrite coefficient_scan
    by (first [lia | now rewrite length_map, length_scan]).
  fold d1. fold al.
  unfold Spec.equally_spaced_from.
  rewrite map_map, !mapi_map_seq.
  rewrite <- INR_IZR_INZ.
  f_equal; [ | f_equal]; f_equal.
  - rewrite (map_ext _
      (fun j => A / 2 * cos (INR j * (INR (k + 1) * d1)
                             + ((INR k + 1) * al - t))
                + A / 2 * cos (INR j * (INR (k - 1) * d1)
                               + ((INR k - 1) * al + t))
                + C * cos (INR j * (INR k * d1) + INR k * al))).
    + rewrite sum_map_combination.
      rewrite (@cos_sum_zero _ _ _ _ (Hturn (k + 1)%nat) Bp),
        (@cos_sum_zero _ _ _ _ (Hturn (k - 1)%nat) Bm),
        (@cos_sum_zero _ _ _ _ (Hturn k) Bk).
      ring.
    + intros j.
      replace (np.deg2rad (a0 + 360 * INR j / INR n - theta0))
        with (INR j * d1 + al - t)
        by (unfold d1, al, t, np.deg2rad; field; lra).
      rewrite Rmult_plus_distr_r, Rmult_assoc, product_cos_cos_general.
      rewrite Hp, Hm.
      replace (INR j * d1 + al + INR k * (INR j * d1 + al) - t)
        with (INR j * ((INR k + 1) * d1) + ((INR k + 1) * al - t)) by ring.
      replace (INR k * (INR j * d1 + al) - (INR j * d1 + al) + t)
        with (INR j * ((INR k - 1) * d1) + ((INR k - 1) * al + t)) by ring.
      replace (INR k * (INR j * d1 + al))
        with (INR j * (INR k * d1) + INR k * al) by ring.
      field.
  - rewrite (map_ext _
      (fun j => A / 2 * sin (INR j * (INR (k + 1) * d1)
                             + ((INR k + 1) * al - t))
                + A / 2 * sin (INR j * (INR (k - 1) * d1)
                               + ((INR k - 1) * al + t))
                + C * sin (INR j * (INR k * d1) + INR k * al))).
    + rewrite sum_map_combination.
      rewrite (@sin_sum_zero _ _ _ _ (Hturn (k + 1)%nat) Bp),
        (@sin_sum_zero _ _ _ _ (Hturn (k - 1)%nat) Bm),
        (@sin_sum_zero _ _ _ _ (Hturn k) Bk).
      ring.
    + intros j.
      replace (np.deg2rad (a0 + 360 * INR j / INR n - theta0))
        with (INR j * d1 + al - t)
        by (unfold d1, al, t, np.deg2rad; field; lra).
      rewrite Rmult_plus_distr_r, Rmult_assoc, product_cos_sin_general.
      rewrite Hp, Hm.
      replace (INR j * d1 + al + INR k * (INR j * d1 + al) - t)
        with (INR j * ((INR k + 1) * d1) + ((INR k + 1) * al - t)) by ring.
      replace (INR k * (INR j * d1 + al) - (INR j * d1 + al) + t)
        with (INR j * ((INR k - 1) * d1) + ((INR k - 1) * al + t)) by ring.
      replace (INR k * (INR j * d1 + al))
        with (INR j * (INR k * d1) + INR k * al) by ring.
      field.
Qed.

Lemma selected_frequency_from_7 (n : nat) :
  (7 <= n)%nat ->
  exists k : nat,
    Spec.selected_frequency n = Z.of_nat k /\ (2 <= k)%nat /\ (k + 2 <= n)%nat.
Proof.
  intros H. exists (n - 2 - n / 2)%nat.
  unfold Spec.selected_frequency, fftWindPropRet.freq_index.
  pose proof (Nat.div_mod_eq n 2) as E.
  pose proof (Nat.mod_upper_bound n 2) as B.
  split; [ | split]; lia.
Qed.

(** X11: in a scan of seven or more equally spaced azimuths the coefficient
    picked is that of two cycles per rotation or more, and the speed
    retrieved from a velocity A cos (theta - theta0) + C is 0, whatever A,
    theta0 and C. *)
Theorem seven_azimuths_or_more (obs : fftWindPropRet.DopplerObs) (n : nat)
  (A theta0 C : R) (t r : nat) :
  (7 <= n)%nat ->
  fftWindPropRet.azm obs = Spec.equally_spaced n ->
  Spec.at2 (fftWindPropRet.values obs) t r
  = Some (Spec.first_harmonic A theta0 C (fftWindPropRet.azm obs)) ->
  (2 <= Spec.selected_frequency n)%Z
  /\ exists wp,
      fftWindPropRet.windProp obs = Ok wp
      /\ Spec.at2 (fftWindPropRet.horizontal_wind_speed wp) t r
         = Some (Some 0).
Proof.
  intros Hn Hazm Hcell.
  destruct (selected_frequency_from_7 Hn) as (k & Hk & Hk2 & Hkn).
  split; [lia | ].
  rewrite <- equally_spaced_from_0 in Hazm.
  assert (Hlen : length (fftWindPropRet.azm obs) = n)
    by (rewrite Hazm; apply length_scan).
  destruct (@windProp_cell obs) as (wp & Hwp & Hcells).
  { rewrite Hazm. apply xrft_check_scan. lia. }
  exists wp. split; [exact Hwp | ].
  destruct (Hcells _ _ _ Hcell) as [Hspeed _]. clear Hcells.
  unfold Spec.first_harmonic in Hspeed.
  rewrite <- (map_map (fun theta => A * cos (np.deg2rad (theta - theta0)) + C)
                      Some) in Hspeed.
  set (xs := map (fun theta => A * cos (np.deg2rad (theta - theta0)) + C)
                 (fftWindPropRet.azm obs)) in *.
  assert (Hxs : length xs = n) by (unfold xs; now rewrite length_map).
  rewrite Hlen, <- Hxs, selected_coefficient in Hspeed by lia.
  rewrite Hxs, Hk in Hspeed.
  unfold xs in Hspeed.
  rewrite Hazm, coefficient_first_harmonic_higher in Hspeed by assumption.
  rewrite Hspeed. simpl. do 2 f_equal.
  unfold fftWindPropRet.Cabs. simpl fst. simpl snd.
  replace ((360 / INR n * 0) ^ 2 + (- (360 / INR n * 0)) ^ 2) with 0 by ring.
  rewrite sqrt_0. unfold Rdiv. ring.
Qed.

(** ** The components of a first harmonic *)






(** * Further properties of the DBS retrieval *)

(** ** The vertical profiles *)

Lemma get_beams_vertical (d : getWindProperties5Beam.Dataset) (tol : Z) :
  Spec.well_formed_dbs d ->
  getWindProperties5Beam.rangeVal90 (getWindProperties5Beam.get_beams d tol)
  = map (fun i =>
           (nth i (getWindProperties5Beam.time d) 0%Z,
            nth i (getWindProperties5Beam.measurement_height d) []))
        (Notions.vertical_positions d)
  /\ getWindProperties5Beam.verWindSpeed90
       (getWindProperties5Beam.get_beams d tol)
     = map (fun i =>
              (nth i (getWindProperties5Beam.time d) 0%Z,
               nth i (getWindProperties5Beam.radial_wind_speed d) []))
           (Notions.vertical_positions d).
Proof.
  intros (Hn & He & Ha & Hm & Hh & Hv & Hs & Hc).
  assert (Ht : getWindProperties5Beam.time_where
                 (fun e => getWindProperties5Beam.Req_bool e 90)
                 (combine (getWindProperties5Beam.time d)
                    (map getWindProperties5Beam.round1
                         (getWindProperties5Beam.elevation d)))
               = map (fun i => nth i (getWindProperties5Beam.time d) 0%Z)
                     (Notions.vertical_positions d)).
  { rewrite (time_where_positions _ (getWindProperties5Beam.round1 0))
      by (rewrite length_map; exact He).
    unfold Notions.vertical_positions.
    f_equal. apply filter_ext. intros i.
    now rewrite (map_nth getWindProperties5Beam.round1). }
  unfold getWindProperties5Beam.get_beams.
  cbn [getWindProperties5Beam.rangeVal90
       getWindProperties5Beam.verWindSpeed90].
  rewrite !Ht.
  rewrite !sel_positions
    by (try assumption; unfold Notions.vertical_positions;
        apply positions_in_range).
  split; reflexivity.
Qed.

Lemma vertical_positions_masked (d : getWindProperties5Beam.Dataset)
  (statusFilter : bool) (cnr : option R) :
  Notions.vertical_positions (Spec.masked_dataset d statusFilter cnr)
  = Notions.vertical_positions d.
Proof.
  destruct (masked_dataset_fields d statusFilter cnr) as (Ht & He & _).
  unfold Notions.vertical_positions. now rewrite Ht, He.
Qed.

(** What the speed and the direction hold, when they are returned. *)
Lemma speed_returns (V U s : getWindProperties5Beam.WindComp) :
  getWindProperties5Beam.calcHorWindSpeed V U = Ok s ->
  exists x,
    getWindProperties5Beam.aligned (np.lift2 Rplus)
      (getWindProperties5Beam.pointwise (np.lift1 (fun x => x ^ 2))
         (getWindProperties5Beam.comp V))
      (getWindProperties5Beam.pointwise (np.lift1 (fun x => x ^ 2))
         (getWindProperties5Beam.comp U))
    = Ok x
    /\ getWindProperties5Beam.comp s
       = getWindProperties5Beam.pointwise (np.lift1 sqrt) x
    /\ getWindProperties5Beam.range s = getWindProperties5Beam.range V.
Proof.
  unfold getWindProperties5Beam.calcHorWindSpeed.
  destruct (getWindProperties5Beam.aligned _ _ _) as [x | e]; cbn [bind];
    [ | discriminate].
  intros [= <-]. exists x. repeat split; reflexivity.
Qed.

Lemma direction_returns (V U s : getWindProperties5Beam.WindComp) :
  getWindProperties5Beam.calcHorWindDir V U = Ok s ->
  exists x,
    getWindProperties5Beam.aligned (np.lift2 np.arctan2)
      (getWindProperties5Beam.pointwise (np.lift1 Ropp)
         (getWindProperties5Beam.comp U))
      (getWindProperties5Beam.pointwise (np.lift1 Ropp)
         (getWindProperties5Beam.comp V))
    = Ok x
    /\ getWindProperties5Beam.comp s
       = getWindProperties5Beam.pointwise
           (np.lift1 (fun a => 180 + np.rad2deg a)) x
    /\ getWindProperties5Beam.range s = getWindProperties5Beam.range U.
Proof.
  unfold getWindProperties5Beam.calcHorWindDir.
  destruct (getWindProperties5Beam.aligned _ _ _) as [x | e]; cbn [bind];
    [ | discriminate].
  intros [= <-]. exists x. repeat split; reflexivity.
Qed.

(** The times asked for in the first selection of the constructor are those
    of the slanted profiles. *)
Lemma slanted_times (d : getWindProperties5Beam.Dataset) :
  length (getWindProperties5Beam.elevation d)
  = length (getWindProperties5Beam.time d) ->
  getWindProperties5Beam.time_where
    (fun e => negb (getWindProperties5Beam.Req_bool e 90))
    (combine (getWindProperties5Beam.time d)
       (map getWindProperties5Beam.round1
            (getWindProperties5Beam.elevation d)))
  = Notions.times_at d (Notions.slanted_positions d).
Proof.
  intros He.
  rewrite (time_where_positions _ (getWindProperties5Beam.round1 0))
    by (rewrite length_map; exact He).
  unfold Notions.times_at, Notions.slanted_positions.
  f_equal. apply filter_ext. intros i. unfold Spec.slanted.
  now rewrite (map_nth getWindProperties5Beam.round1).
Qed.

(** X13: what the constructor raises on a dataset of distinct times.  When
    the times are in increasing or in decreasing order it needs a vertical
    profile: on a dataset without a profile of rounded elevation 90 it
    raises IndexError, whatever the policy, and on a dataset with one a
    policy it does not know makes it raise AttributeError.  When the times
    are in no order and the dataset holds a slanted profile, it raises
    ValueError, whatever the policy and the profiles: the first selection,
    by nearest time, refuses the time index. *)
Theorem vertical_profile_required (d : getWindProperties5Beam.Dataset)
  (statusFilter : bool) (cnr : option R) (tol : Z) :
  let run := fun m =>
    snd (getWindProperties5Beam.init d statusFilter cnr m tol) in
  let in_order := xr.is_monotonic (getWindProperties5Beam.time d) in
  Spec.well_formed_dbs d ->
  (in_order = true ->
   Notions.vertical_positions d = [] ->
   forall m, run m = Raise IndexError)
  /\ (in_order = true ->
      Notions.vertical_positions d <> [] ->
      run getWindProperties5Beam.other_method = Raise AttributeError)
  /\ (in_order = false ->
      Notions.slanted_positions d <> [] ->
      forall m, run m = Raise ValueError).
Proof.
  intros run in_order Hwf. unfold run, in_order.
  pose proof (masked_dataset_well_formed statusFilter cnr Hwf) as Hwf'.
  destruct (get_beams_vertical tol Hwf') as [Hr _].
  rewrite vertical_positions_masked in Hr.
  split; [ | split].
  - intros Hord Hnone m. rewrite constructor_in_order by assumption.
    unfold getWindProperties5Beam.retrieve,
      getWindProperties5Beam.correctVertWindComp,
      getWindProperties5Beam.correctWindComp.
    rewrite Hr, Hnone. reflexivity.
  - intros Hord Hsome.
    destruct (Notions.vertical_positions d) as [ | i0 rest];
      [contradiction | ].
    rewrite constructor_in_order by assumption.
    unfold getWindProperties5Beam.retrieve,
      getWindProperties5Beam.correctVertWindComp,
      getWindProperties5Beam.correctWindComp.
    rewrite Hr. reflexivity.
  - intros Hord Hsome m. rewrite init_masked. cbn [snd].
    rewrite check_time_index_masked.
    unfold getWindProperties5Beam.check_time_index, xr.nearest_check.
    destruct Hwf as (Hn & He & _).
    rewrite (proj2 (has_duplicates_NoDup _) Hn), Hord.
    rewrite slanted_times by exact He. unfold Notions.times_at.
    destruct (Notions.slanted_positions d); [contradiction | reflexivity].
Qed.

(** X14: in a retrieved object the vertical component holds the radial
    velocities, after the masks, of the vertical profiles, each at its own
    time; and the heights of the five arrays are the measurement heights of
    the first vertical profile, those of the slanted profiles being used
    nowhere. *)
Theorem heights_of_first_vertical_profile
  (d : getWindProperties5Beam.Dataset) (statusFilter : bool)
  (cnr : option R) (m : getWindProperties5Beam.method_t) (tol : Z)
  (obj : getWindProperties5Beam.t) :
  let run := getWindProperties5Beam.init d statusFilter cnr m tol in
  Spec.well_formed_dbs d ->
  snd run = Ok obj ->
  exists i0 rest,
    Notions.vertical_positions d = i0 :: rest
    /\ getWindProperties5Beam.comp (getWindProperties5Beam.verWindSpeed obj)
       = map (fun i =>
                (nth i (getWindProperties5Beam.time d) 0%Z,
                 nth i (getWindProperties5Beam.radial_wind_speed (fst run))
                     []))
             (i0 :: rest)
    /\ Forall
         (fun w =>
            getWindProperties5Beam.range w
            = nth i0 (getWindProperties5Beam.measurement_height d) [])
         [getWindProperties5Beam.verWindSpeed obj;
          getWindProperties5Beam.compV obj;
          getWindProperties5Beam.compU obj;
          getWindProperties5Beam.horWindSpeed obj;
          getWindProperties5Beam.horWindDir obj].
Proof.
  intros run Hwf Hrun. unfold run in *.
  apply constructor_returns in Hrun. rewrite init_masked. cbn [fst].
  pose proof (masked_dataset_well_formed statusFilter cnr Hwf) as Hwf'.
  destruct (get_beams_vertical tol Hwf') as [Hr Hw].
  rewrite vertical_positions_masked in Hr, Hw.
  destruct (masked_dataset_fields d statusFilter cnr)
    as (Ht & _ & _ & _ & Hh & _).
  rewrite Ht in Hr, Hw. rewrite Hh in Hr.
  destruct (@retrieve_returns _ _ _ Hrun)
    as (t0 & heights & rest' & E & HW & _ & HV & HU & HS & HD).
  destruct (speed_returns _ _ HS) as (xs & _ & _ & HSr).
  destruct (direction_returns _ _ HD) as (xd & _ & _ & HDr).
  rewrite Hr in E.
  destruct (Notions.vertical_positions d) as [ | i0 rest];
    [discriminate | ].
  cbn [map] in E. injection E as _ Hheights _.
  exists i0, rest. split; [reflexivity | ].
  split; [rewrite HW; cbn; exact Hw | ].
  rewrite Hheights.
  repeat (apply Forall_cons; [ | ]); try apply Forall_nil.
  - rewrite HW. reflexivity.
  - exact HV.
  - exact HU.
  - rewrite HSr. exact HV.
  - rewrite HDr. exact HU.
Qed.

(** ** Speed and direction *)

Lemma sqrt_sum_squares_opp (a c : R) :
  sqrt ((- a) ^ 2 + (- c) ^ 2) = sqrt (a ^ 2 + c ^ 2).
Proof. f_equal. ring. Qed.

(** The direction 180 + arctan2 (- u) (- v) of the components u = c and
    v = a, and their speed. *)
Lemma direction_of_components (a c : R) :
  let s := sqrt (a ^ 2 + c ^ 2) in
  let dd := 180 + np.rad2deg (np.arctan2 (- c) (- a)) in
  0 <= s /\ 0 <= dd <= 360
  /\ c = s * sin (np.deg2rad dd) /\ a = s * cos (np.deg2rad dd).
Proof.
  intros s dd. pose proof PI_RGT_0 as Hpi.
  assert (Hs : 0 <= s) by apply sqrt_pos.
  pose proof (arctan2_range (- c) (- a)) as [Hlo Hhi].
  set (alpha := np.arctan2 (- c) (- a)) in *.
  assert (Hdd : np.deg2rad dd = alpha + PI).
  { unfold dd. unfold np.deg2rad, np.rad2deg. field. lra. }
  assert (Hk : 0 < 180 / PI) by (apply Rdiv_lt_0_compat; lra).
  assert (E : PI * (180 / PI) = 180) by (field; lra).
  split; [exact Hs | ]. split.
  - unfold dd, np.rad2deg.
    assert (alpha * (180 / PI) <= PI * (180 / PI))
      by (apply Rmult_le_compat_r; lra).
    assert (- PI * (180 / PI) < alpha * (180 / PI))
      by (apply Rmult_lt_compat_r; lra).
    lra.
  - rewrite Hdd, neg_sin, neg_cos.
    destruct (Req_dec a 0) as [Ea | Na]; destruct (Req_dec c 0) as [Ec | Nc].
    + assert (s = 0).
      { unfold s. rewrite Ea, Ec.
        replace (0 ^ 2 + 0 ^ 2) with 0 by ring. apply sqrt_0. }
      subst a c. rewrite H. split; ring.
    + assert (Hne : - a <> 0 \/ - c <> 0)
        by (right; now apply Ropp_neq_0_compat).
      destruct (arctan2_polar Hne) as [Pc Ps].
      rewrite sqrt_sum_squares_opp in Pc, Ps. fold s in Pc, Ps. fold alpha in Pc, Ps.
      split; lra.
    + assert (Hne : - a <> 0 \/ - c <> 0)
        by (left; now apply Ropp_neq_0_compat).
      destruct (arctan2_polar Hne) as [Pc Ps].
      rewrite sqrt_sum_squares_opp in Pc, Ps. fold s in Pc, Ps. fold alpha in Pc, Ps.
      split; lra.
    + assert (Hne : - a <> 0 \/ - c <> 0)
        by (left; now apply Ropp_neq_0_compat).
      destruct (arctan2_polar Hne) as [Pc Ps].
      rewrite sqrt_sum_squares_opp in Pc, Ps. fold s in Pc, Ps. fold alpha in Pc, Ps.
      split; lra.
Qed.

(** X15: at a time and a gate where the meridional component v and the
    zonal component u are numbers, the speed is the square root of
    v^2 + u^2, which is not negative, the direction is a number of [0, 360],
    and u = speed * sin (direction), v = speed * cos (direction). *)
Theorem speed_and_direction_of_components
  (b : getWindProperties5Beam.beams_t) (m : getWindProperties5Beam.method_t)
  (obj : getWindProperties5Beam.t) (T : Z) (vrow urow : list (option R))
  (g : nat) (v u : R) :
  getWindProperties5Beam.retrieve b m = Ok obj ->
  getWindProperties5Beam.lookup T
    (getWindProperties5Beam.comp (getWindProperties5Beam.compV obj))
  = Some vrow ->
  getWindProperties5Beam.lookup T
    (getWindProperties5Beam.comp (getWindProperties5Beam.compU obj))
  = Some urow ->
  nth_error vrow g = Some (Some v) ->
  nth_error urow g = Some (Some u) ->
  exists srow drow s dd,
    getWindProperties5Beam.lookup T
      (getWindProperties5Beam.comp (getWindProperties5Beam.horWindSpeed obj))
    = Some srow
    /\ getWindProperties5Beam.lookup T
         (getWindProperties5Beam.comp (getWindProperties5Beam.horWindDir obj))
       = Some drow
    /\ nth_error srow g = Some (Some s)
    /\ nth_error drow g = Some (Some dd)
    /\ s = sqrt (v ^ 2 + u ^ 2)
    /\ 0 <= s
    /\ 0 <= dd <= 360
    /\ u = s * sin (np.deg2rad dd)
    /\ v = s * cos (np.deg2rad dd).
Proof.
  intros Hobj HV HU Hv Hu.
  destruct (@retrieve_returns _ _ _ Hobj)
    as (t0 & heights & rest & _ & _ & _ & _ & _ & HS & HD).
  destruct (speed_returns _ _ HS) as (xs & Hxs & HSc & _).
  destruct (direction_returns _ _ HD) as (xd & Hxd & HDc & _).
  destruct (direction_of_components v u) as (P1 & P2 & P3 & P4).
  eexists. eexists. eexists. eexists.
  split.
  { rewrite HSc, lookup_pointwise, (lookup_aligned _ _ _ T Hxs),
      !lookup_pointwise, HV, HU.
    reflexivity. }
  split.
  { rewrite HDc, lookup_pointwise, (lookup_aligned _ _ _ T Hxd),
      !lookup_pointwise, HV, HU.
    reflexivity. }
  split.
  { rewrite nth_error_map, nth_error_zip_with, !nth_error_map, Hv, Hu.
    reflexivity. }
  split.
  { rewrite nth_error_map, nth_error_zip_with, !nth_error_map, Hv, Hu.
    reflexivity. }
  cbn beta.
  split; [reflexivity | ].
  split; [exact P1 | ]. split; [exact P2 | ]. split; [exact P3 | exact P4].
Qed.

(** ** Running the constructor again *)

Lemma mask_twice {C1 C2 : Type} (p : C1 -> bool) (q : C2 -> bool)
  (row : list (option R)) (r1 : list C1) (r2 : list C2) :
  let mask1 := fun row => map (fun '(x, c) => if p c then x else None)
                              (combine row r1) in
  let mask2 := fun row => map (fun '(x, c) => if q c then x else None)
                              (combine row r2) in
  mask2 (mask1 (mask2 (mask1 row))) = mask2 (mask1 row).
Proof.
  cbv zeta. revert r1 r2.
  induction row as [ | x row IH]; intros [ | c1 r1] [ | c2 r2]; cbn;
    try reflexivity.
  rewrite IH. now destruct (p c1), (q c2).
Qed.

Lemma where2_twice {C1 C2 : Type} (p : C1 -> bool) (q : C2 -> bool)
  (a : list (list (option R))) (c1 : list (list C1)) (c2 : list (list C2)) :
  getWindProperties5Beam.where2 q
    (getWindProperties5Beam.where2 p
       (getWindProperties5Beam.where2 q
          (getWindProperties5Beam.where2 p a c1) c2) c1) c2
  = getWindProperties5Beam.where2 q (getWindProperties5Beam.where2 p a c1) c2.
Proof.
  unfold getWindProperties5Beam.where2. revert c1 c2.
  induction a as [ | row a IH]; intros [ | r1 c1] [ | r2 c2]; cbn;
    try reflexivity.
  rewrite IH. f_equal. apply (mask_twice p q).
Qed.

Lemma mask_again {C : Type} (p : C -> bool) (row : list (option R))
  (r : list C) :
  let mask := fun row => map (fun '(x, c) => if p c then x else None)
                             (combine row r) in
  mask (mask row) = mask row.
Proof.
  cbv zeta. revert r.
  induction row as [ | x row IH]; intros [ | c r]; cbn; try reflexivity.
  rewrite IH. now destruct (p c).
Qed.

Lemma where2_again {C : Type} (p : C -> bool) (a : list (list (option R)))
  (c : list (list C)) :
  getWindProperties5Beam.where2 p (getWindProperties5Beam.where2 p a c) c
  = getWindProperties5Beam.where2 p a c.
Proof.
  unfold getWindProperties5Beam.where2. revert c.
  induction a as [ | row a IH]; intros [ | r c]; cbn; try reflexivity.
  rewrite IH. f_equal. apply (mask_again p).
Qed.

Lemma masked_dataset_idempotent (d : getWindProperties5Beam.Dataset)
  (statusFilter : bool) (cnr : option R) :
  Spec.masked_dataset (Spec.masked_dataset d statusFilter cnr)
    statusFilter cnr
  = Spec.masked_dataset d statusFilter cnr.
Proof.
  unfold Spec.masked_dataset, getWindProperties5Beam.filter_cnr,
    getWindProperties5Beam.filter_status,
    getWindProperties5Beam.set_radial_wind_speed.
  destruct statusFilter, cnr as [c | ];
    cbn [getWindProperties5Beam.time getWindProperties5Beam.elevation
         getWindProperties5Beam.azimuth getWindProperties5Beam.scan_mean_time
         getWindProperties5Beam.measurement_height
         getWindProperties5Beam.radial_wind_speed
         getWindProperties5Beam.radial_wind_speed_status
         getWindProperties5Beam.cnr].
  - now rewrite where2_twice.
  - now rewrite where2_again.
  - now rewrite where2_again.
  - reflexivity.
Qed.

(** X16: the constructor is idempotent on the caller's dataset: called again
    with the same arguments on the dataset that a first call has left, it
    masks nothing more and computes what the first call has computed. *)
Theorem constructor_twice (d : getWindProperties5Beam.Dataset)
  (statusFilter : bool) (cnr : option R)
  (m : getWindProperties5Beam.method_t) (tol : Z) :
  let first := getWindProperties5Beam.init d statusFilter cnr m tol in
  getWindProperties5Beam.init (fst first) statusFilter cnr m tol = first.
Proof.
  cbv zeta. rewrite !init_masked. cbn [fst].
  now rewrite masked_dataset_idempotent.
Qed.

(** ** The times of the continuous policy *)

Lemma where_drop_positions (d : getWindProperties5Beam.Dataset) (tol : Z)
  (target : R) :
  Spec.well_formed_dbs d ->
  let b := getWindProperties5Beam.get_beams d tol in
  getWindProperties5Beam.where_drop
    (getWindProperties5Beam.compWindSpeed b)
    (getWindProperties5Beam.azimuthNon90 b) target
  = map (fun i =>
           (nth i (getWindProperties5Beam.time d) 0%Z, Spec.contribution d i))
        (Spec.beam_positions d target).
Proof.
  intros Hwf b. unfold b.
  destruct (get_beams_positions tol Hwf) as (Haz & Hel & Hrw & Hmt).
  unfold getWindProperties5Beam.compWindSpeed,
    getWindProperties5Beam.where_drop.
  rewrite Haz, Hel, Hrw.
  rewrite combine_map_map, map_map, combine_map_map, filter_map_comm, map_map.
  cbn. rewrite filter_filter. reflexivity.
Qed.

Lemma retrieve_continuous (b : getWindProperties5Beam.beams_t)
  (obj : getWindProperties5Beam.t) :
  getWindProperties5Beam.retrieve b getWindProperties5Beam.continuous
  = Ok obj ->
  let c := getWindProperties5Beam.compWindSpeed b in
  let beams := fun target =>
    getWindProperties5Beam.where_drop c
      (getWindProperties5Beam.azimuthNon90 b) target in
  let reindex :=
    getWindProperties5Beam.reindex_nearest
      (getWindProperties5Beam.gates b) (getWindProperties5Beam.tolerance b) in
  getWindProperties5Beam.opposite_difference (beams 0)
    (reindex (beams 180) (map fst (beams 0)))
  = Ok (getWindProperties5Beam.comp (getWindProperties5Beam.compV obj))
  /\ exists r,
       getWindProperties5Beam.opposite_difference (beams 90)
         (reindex (beams 270) (map fst (beams 90))) = Ok r
       /\ getWindProperties5Beam.comp (getWindProperties5Beam.compU obj)
          = reindex r
              (map fst
                 (getWindProperties5Beam.comp
                    (getWindProperties5Beam.compV obj))).
Proof.
  intros H.
  destruct (@retrieve_returns _ _ _ H)
    as (t0 & heights & rest & Hr & _ & Hc & _).
  unfold getWindProperties5Beam.calcHorWindComp_continuous,
    getWindProperties5Beam.correctWindComp in Hc.
  rewrite Hr in Hc. cbv beta zeta in *.
  destruct (getWindProperties5Beam.opposite_difference
              (getWindProperties5Beam.where_drop _ _ 0) _) as [V | e]
    eqn:EV; cbn [bind] in Hc; [ | discriminate].
  destruct (getWindProperties5Beam.opposite_difference
              (getWindProperties5Beam.where_drop _ _ 90) _) as [U | e]
    eqn:EU; cbn [bind] in Hc; [ | discriminate].
  injection Hc as HV HU. rewrite <- HV, <- HU. cbn.
  split; [reflexivity | ]. exists U. split; reflexivity.
Qed.

Lemma labels_reindex (gates : nat) (tol : Z)
  (a : getWindProperties5Beam.DataArray (list (option R)))
  (target : list Z) :
  map fst (getWindProperties5Beam.reindex_nearest gates tol a target)
  = target.
Proof.
  unfold getWindProperties5Beam.reindex_nearest.
  rewrite map_map. cbn. apply map_id.
Qed.

(** Arrays with the same labels keep them all when they are combined. *)
Lemma labels_aligned_same (f : option R -> option R -> option R)
  (a b r : getWindProperties5Beam.DataArray (list (option R))) :
  getWindProperties5Beam.aligned f a b = Ok r ->
  map fst b = map fst a ->
  map fst r = map fst a.
Proof.
  intros Hr H. rewrite (labels_aligned _ _ _ Hr). apply filter_all.
  intros T HT. apply has_label_In. now rewrite H.
Qed.

(** X17: under the continuous policy the meridional component, the zonal
    component, the speed and the direction are all on the times of the
    northern beams, each beam at its own time: the zonal component, computed
    on the times of the eastern beams, is moved onto those of the
    meridional one. *)
Theorem continuous_on_northern_times (d : getWindProperties5Beam.Dataset)
  (statusFilter : bool) (cnr : option R) (tol : Z)
  (obj : getWindProperties5Beam.t) :
  Spec.well_formed_dbs d ->
  snd (getWindProperties5Beam.init d statusFilter cnr
         getWindProperties5Beam.continuous tol) = Ok obj ->
  Forall (fun a => map fst a = Notions.times_at d (Spec.beam_positions d 0))
         (Notions.horizontal_products obj).
Proof.
  intros Hwf Hrun. apply constructor_returns in Hrun.
  pose proof (masked_dataset_well_formed statusFilter cnr Hwf) as Hwf'.
  destruct (retrieve_continuous _ Hrun) as [HV (r & _ & HU)].
  destruct (@retrieve_returns _ _ _ Hrun)
    as (t0 & heights & rest & _ & _ & _ & _ & _ & HS & HD).
  destruct (speed_returns _ _ HS) as (xs & Hxs & HSc & _).
  destruct (direction_returns _ _ HD) as (xd & Hxd & HDc & _).
  rewrite !where_drop_positions in HV by exact Hwf'.
  destruct (masked_dataset_fields d statusFilter cnr) as (Ht & _).
  rewrite beam_positions_masked, Ht in HV.
  assert (LV : map fst (getWindProperties5Beam.comp
                          (getWindProperties5Beam.compV obj))
               = Notions.times_at d (Spec.beam_positions d 0)).
  { destruct (opposite_difference_returns _ _ HV) as (x & Hx & ->).
    rewrite labels_pointwise, (labels_aligned_same _ _ _ Hx).
    - rewrite map_map. reflexivity.
    - apply labels_reindex. }
  assert (LU : map fst (getWindProperties5Beam.comp
                          (getWindProperties5Beam.compU obj))
               = Notions.times_at d (Spec.beam_positions d 0)).
  { rewrite HU, labels_reindex. exact LV. }
  unfold Notions.horizontal_products.
  repeat (apply Forall_cons; [ | ]); try apply Forall_nil.
  - exact LV.
  - exact LU.
  - rewrite HSc, labels_pointwise, (labels_aligned_same _ _ _ Hxs),
      labels_pointwise.
    + exact LV.
    + rewrite !labels_pointwise. congruence.
  - rewrite HDc, labels_pointwise, (labels_aligned_same _ _ _ Hxd),
      labels_pointwise.
    + exact LU.
    + rewrite !labels_pointwise. congruence.
Qed.

(** ** Scans with a missing beam *)

Lemma aligned_nil (f : option R -> option R -> option R)
  (a b r : getWindProperties5Beam.DataArray (list (option R))) :
  a = [] \/ b = [] ->
  getWindProperties5Beam.aligned f a b = Ok r -> r = [].
Proof.
  intros H Hr. apply (map_eq_nil fst). rewrite (labels_aligned _ _ _ Hr).
  destruct H as [-> | ->]; [reflexivity | ].
  induction (map fst a) as [ | t l IH]; [reflexivity | exact IH].
Qed.

Lemma opposite_difference_nil
  (n s r : getWindProperties5Beam.DataArray (list (option R))) :
  n = [] \/ s = [] ->
  getWindProperties5Beam.opposite_difference n s = Ok r -> r = [].
Proof.
  intros H Hr. destruct (opposite_difference_returns _ _ Hr) as (x & Hx & ->).
  now rewrite (aligned_nil _ H Hx).
Qed.

(** X18: in an object retrieved under the single-scan policy from a dataset
    that lacks the northern or the southern beams the meridional component
    is empty, from one that lacks the eastern or the western beams the zonal
    component is empty, and with either component empty the speed and the
    direction are empty. *)
Theorem missing_beams_give_nothing (d : getWindProperties5Beam.Dataset)
  (statusFilter : bool) (cnr : option R) (tol : Z)
  (obj : getWindProperties5Beam.t) :
  Spec.well_formed_dbs d ->
  snd (getWindProperties5Beam.init d statusFilter cnr
         getWindProperties5Beam.single_dbs tol) = Ok obj ->
  let V := getWindProperties5Beam.comp (getWindProperties5Beam.compV obj) in
  let U := getWindProperties5Beam.comp (getWindProperties5Beam.compU obj) in
  (Spec.beam_positions d 0 = [] \/ Spec.beam_positions d 180 = [] -> V = [])
  /\ (Spec.beam_positions d 90 = [] \/ Spec.beam_positions d 270 = [] ->
      U = [])
  /\ (V = [] \/ U = [] ->
      getWindProperties5Beam.comp (getWindProperties5Beam.horWindSpeed obj)
      = []
      /\ getWindProperties5Beam.comp (getWindProperties5Beam.horWindDir obj)
         = []).
Proof.
  intros Hwf Hrun V U. unfold V, U.
  apply constructor_returns in Hrun.
  pose proof (masked_dataset_well_formed statusFilter cnr Hwf) as Hwf'.
  destruct (retrieve_single_dbs _ Hrun) as [HV HU].
  rewrite !beam_group_positions in HV, HU by exact Hwf'.
  destruct (@retrieve_returns _ _ _ Hrun)
    as (t0 & heights & rest & _ & _ & _ & _ & _ & HS & HD).
  destruct (speed_returns _ _ HS) as (xs & Hxs & HSc & _).
  destruct (direction_returns _ _ HD) as (xd & Hxd & HDc & _).
  assert (Hgroup : forall target,
             Spec.beam_positions d target = [] ->
             Spec.group (Spec.masked_dataset d statusFilter cnr) target = []).
  { intros target E. unfold Spec.group.
    now rewrite beam_positions_masked, E. }
  split; [ | split].
  - intros H. apply (fun E => opposite_difference_nil E HV).
    destruct H as [H | H]; [left | right]; now apply Hgroup.
  - intros H. apply (fun E => opposite_difference_nil E HU).
    destruct H as [H | H]; [left | right]; now apply Hgroup.
  - intros H. rewrite HSc, HDc.
    assert (Es : xs = []).
    { apply (fun E => aligned_nil _ E Hxs).
      destruct H as [H | H]; rewrite H; [now left | now right]. }
    assert (Ed : xd = []).
    { apply (fun E => aligned_nil _ E Hxd).
      destruct H as [H | H]; rewrite H; [now right | now left]. }
    rewrite Es, Ed. split; reflexivity.
Qed.

(** ** Which profiles are vertical, which are northern *)

Lemma rint_even (x : R) (z : Z) :
  Z.even z = true ->
  getWindProperties5Beam.rint x = z <-> IZR z - 1 / 2 <= x <= IZR z + 1 / 2.
Proof.
  intros Hz. unfold getWindProperties5Beam.rint.
  set (f := (up x - 1)%Z).
  assert (Hf : IZR f <= x < IZR f + 1).
  { destruct (archimed x) as [A1 A2]. unfold f. rewrite minus_IZR. lra. }
  cbv zeta. split.
  - intros H.
    destruct (Rlt_dec (x - IZR f) (1 / 2)) as [L | NL].
    + subst z. lra.
    + destruct (Rlt_dec (1 / 2) (x - IZR f)) as [G | NG].
      * subst z. rewrite plus_IZR. lra.
      * destruct (Z.even f); subst z; [ | rewrite plus_IZR]; lra.
  - intros [H1 H2].
    assert (Hcase : f = z \/ f = (z - 1)%Z).
    { assert (IZR f < IZR (z + 1)) by (rewrite plus_IZR; lra).
      assert (IZR (z - 2) < IZR f) by (rewrite minus_IZR; lra).
      apply lt_IZR in H. apply lt_IZR in H0. lia. }
    destruct Hcase as [E | E].
    + rewrite E in *.
      destruct (Rlt_dec (x - IZR z) (1 / 2)) as [L | NL]; [reflexivity | ].
      destruct (Rlt_dec (1 / 2) (x - IZR z)) as [G | NG]; [lra | ].
      now rewrite Hz.
    + rewrite E in *. rewrite minus_IZR in *.
      destruct (Rlt_dec (x - (IZR z - 1)) (1 / 2)) as [L | NL]; [lra | ].
      destruct (Rlt_dec (1 / 2) (x - (IZR z - 1))) as [G | NG]; [lia | ].
      assert (Hodd : Z.even (z - 1) = false).
      { rewrite Z.even_sub, Hz. reflexivity. }
      rewrite Hodd. lia.
Qed.

(** Rounding to 0.1 gives [y], an even number of tenths, exactly on the
    closed interval of radius 0.05 around [y]. *)
Lemma round1_even (x y : R) (z : Z) :
  Z.even z = true -> y * 10 = IZR z ->
  getWindProperties5Beam.round1 x = y <-> y - 1 / 20 <= x <= y + 1 / 20.
Proof.
  intros Hz Hy. unfold getWindProperties5Beam.round1.
  split.
  - intros H.
    assert (E : getWindProperties5Beam.rint (x * 10) = z).
    { apply eq_IZR. rewrite <- Hy, <- H. field. }
    apply (@rint_even _ _ Hz) in E. lra.
  - intros H.
    assert (E : getWindProperties5Beam.rint (x * 10) = z)
      by (apply (@rint_even _ _ Hz); lra).
    rewrite E, <- Hy. field.
Qed.

Lemma Req_bool_iff (a b : R) :
  getWindProperties5Beam.Req_bool a b = true <-> a = b.
Proof.
  unfold getWindProperties5Beam.Req_bool.
  destruct (Req_dec_T a b); split; intros H; try discriminate; try assumption;
    try reflexivity; contradiction.
Qed.

Lemma times_at_In (d : getWindProperties5Beam.Dataset) (idx : list nat)
  (i : nat) :
  NoDup (getWindProperties5Beam.time d) ->
  (i < length (getWindProperties5Beam.time d))%nat ->
  Forall (fun j => (j < length (getWindProperties5Beam.time d))%nat) idx ->
  In (nth i (getWindProperties5Beam.time d) 0%Z) (Notions.times_at d idx)
  <-> In i idx.
Proof.
  intros Hn Hi Hidx. unfold Notions.times_at. rewrite in_map_iff. split.
  - intros (j & E & Hj).
    rewrite Forall_forall in Hidx. specialize (Hidx _ Hj).
    rewrite NoDup_nth in Hn. rewrite (Hn i j Hi Hidx (eq_sym E)). exact Hj.
  - intros H. now exists i.
Qed.

(** X19: a profile is taken as vertical exactly when its elevation is
    within 0.05 degree of 90, and a profile that is not vertical is taken as
    a northern beam exactly when its azimuth is within 0.05 degree of 0 or
    of 360, as an eastern, southern or western beam exactly when its azimuth
    is within 0.05 degree of 90, 180 or 270; the bounds are included. *)
Theorem rounding_tolerance (d : getWindProperties5Beam.Dataset) (tol : Z)
  (i : nat) :
  Spec.well_formed_dbs d ->
  (i < length (getWindProperties5Beam.time d))%nat ->
  let b := getWindProperties5Beam.get_beams d tol in
  let t := nth i (getWindProperties5Beam.time d) 0%Z in
  let e := nth i (getWindProperties5Beam.elevation d) 0 in
  let a := nth i (getWindProperties5Beam.azimuth d) 0 in
  let vertical := 90 - 1 / 20 <= e <= 90 + 1 / 20 in
  let beams := fun target =>
    getWindProperties5Beam.where_drop
      (getWindProperties5Beam.compWindSpeed b)
      (getWindProperties5Beam.azimuthNon90 b) target in
  (In t (map fst (getWindProperties5Beam.verWindSpeed90 b)) <-> vertical)
  /\ (In t (map fst (beams 0))
      <-> ~ vertical
          /\ (- (1 / 20) <= a <= 1 / 20
              \/ 360 - 1 / 20 <= a <= 360 + 1 / 20))
  /\ (In t (map fst (beams 90))
      <-> ~ vertical /\ 90 - 1 / 20 <= a <= 90 + 1 / 20)
  /\ (In t (map fst (beams 180))
      <-> ~ vertical /\ 180 - 1 / 20 <= a <= 180 + 1 / 20)
  /\ (In t (map fst (beams 270))
      <-> ~ vertical /\ 270 - 1 / 20 <= a <= 270 + 1 / 20).
Proof.
  intros Hwf Hi b t e a vertical beams.
  pose proof Hwf as (Hn & _).
  assert (Hvert : getWindProperties5Beam.Req_bool
                    (getWindProperties5Beam.round1 e) 90 = true
                  <-> vertical).
  { rewrite Req_bool_iff. apply round1_even with (z := 900%Z);
      [reflexivity | lra]. }
  assert (Hslanted : Spec.slanted d i = true <-> ~ vertical).
  { unfold Spec.slanted. fold e. rewrite negb_true_iff.
    rewrite <- Hvert. destruct (getWindProperties5Beam.Req_bool _ 90);
      split; intros H; try discriminate; try reflexivity.
    exfalso. now apply H. }
  assert (Hbeams : forall target,
             In t (map fst (beams target))
             <-> Spec.slanted d i = true
                 /\ Spec.nominal_azimuth d i = target).
  { intros target. unfold beams, b.
    rewrite where_drop_positions by exact Hwf. rewrite map_map. cbn [fst].
    change (map (fun i => nth i (getWindProperties5Beam.time d) 0%Z)
                (Spec.beam_positions d target))
      with (Notions.times_at d (Spec.beam_positions d target)).
    unfold t. rewrite times_at_In;
      [ | exact Hn | exact Hi | apply positions_in_range].
    unfold Spec.beam_positions. rewrite filter_In, andb_true_iff, Req_bool_iff.
    rewrite in_seq. split; [tauto | intros H; split; [lia | exact H]]. }
  assert (Hnom : forall (y : R) (z : Z),
             Z.even z = true -> y * 10 = IZR z -> y <> 360 -> y <> 0 ->
             Spec.nominal_azimuth d i = y
             <-> y - 1 / 20 <= a <= y + 1 / 20).
  { intros y z Hz Hy H360 H0. unfold Spec.nominal_azimuth. fold a.
    rewrite <- (@round1_even a _ _ Hz Hy).
    destruct (getWindProperties5Beam.Req_bool _ 360) eqn:E.
    - apply Req_bool_iff in E. rewrite E. split; intros H; [lra | ].
      exfalso. now apply H360.
    - tauto. }
  split.
  - destruct (get_beams_vertical tol Hwf) as [_ Hw]. unfold b.
    rewrite Hw, map_map. cbn [fst].
    change (map (fun i => nth i (getWindProperties5Beam.time d) 0%Z)
                (Notions.vertical_positions d))
      with (Notions.times_at d (Notions.vertical_positions d)).
    unfold t. rewrite times_at_In;
      [ | exact Hn | exact Hi
        | unfold Notions.vertical_positions; apply positions_in_range].
    unfold Notions.vertical_positions. rewrite filter_In, in_seq. fold e.
    rewrite Hvert. split; [tauto | intros H; split; [lia | exact H]].
  - split.
    + rewrite Hbeams, Hslanted.
      assert (E0 : Spec.nominal_azimuth d i = 0
                   <-> - (1 / 20) <= a <= 1 / 20
                       \/ 360 - 1 / 20 <= a <= 360 + 1 / 20).
      { unfold Spec.nominal_azimuth. fold a.
        rewrite <- (@round1_even a 360 3600%Z) by (reflexivity || lra).
        assert (Hz : getWindProperties5Beam.round1 a = 0
                     <-> - (1 / 20) <= a <= 1 / 20).
        { rewrite (@round1_even a 0 0%Z) by (reflexivity || lra). lra. }
        destruct (getWindProperties5Beam.Req_bool _ 360) eqn:E.
        - apply Req_bool_iff in E. tauto.
        - rewrite Hz.
          assert (getWindProperties5Beam.round1 a <> 360).
          { intros H. apply Req_bool_iff in H. congruence. }
          tauto. }
      rewrite E0. tauto.
    + split; [ | split].
      * rewrite Hbeams, Hslanted, (Hnom 90 900%Z)
          by (first [reflexivity | lra]).
        reflexivity.
      * rewrite Hbeams, Hslanted, (Hnom 180 1800%Z)
          by (first [reflexivity | lra]).
        reflexivity.
      * rewrite Hbeams, Hslanted, (Hnom 270 2700%Z)
          by (first [reflexivity | lra]).
        reflexivity.
Qed.

(** ** A velocity common to all the beams *)

Lemma sum_mapi_plus {A : Type} (f g : nat -> A -> R) (l : list A) :
  np.sum (xr.mapi (fun j x => f j x + g j x) l)
  = np.sum (xr.mapi f l) + np.sum (xr.mapi g l).
Proof.
  unfold xr.mapi, np.sum.
  generalize (seq 0 (length l)). induction l as [ | x l IH]; intros [ | j s];
    simpl; try ring.
  rewrite IH. ring.
Qed.

Lemma mapi_of_index {A B : Type} (h : nat -> B) (l : list A) :
  xr.mapi (fun j _ => h j) l = map h (seq 0 (length l)).
Proof.
  unfold xr.mapi.
  assert (H : forall (l : list A) (s : list nat),
             length s = length l ->
             map (fun '(j, _) => h j) (combine s l) = map h s).
  { clear. induction l as [ | x l IH]; intros [ | j s] Hs; simpl in *;
      try reflexivity; try discriminate.
    injection Hs as Hs. now rewrite IH. }
  apply H, length_seq.
Qed.

Lemma ascending_map {A B : Type} (g : A -> B) (azm : list R) (l : list A) :
  fftWindPropRet.ascending azm (map g l)
  = map g (fftWindPropRet.ascending azm l).
Proof.
  unfold fftWindPropRet.ascending.
  destruct (fftWindPropRet.descending azm);
    [symmetry; apply map_rev | reflexivity].
Qed.

Lemma length_ascending {A : Type} (azm : list R) (l : list A) :
  length (fftWindPropRet.ascending azm l) = length l.
Proof.
  unfold fftWindPropRet.ascending.
  destruct (fftWindPropRet.descending azm); [apply length_rev | reflexivity].
Qed.

(** A constant has no coefficient but that of frequency 0. *)
Lemma coefficient_offset (azm xs : list R) (C : R) (k : nat) :
  (1 <= k)%nat -> (k + 1 <= length xs)%nat ->
  fftWindPropRet.coefficient azm (map (fun x => x + C) xs) (Z.of_nat k)
  = fftWindPropRet.coefficient azm xs (Z.of_nat k).
Proof.
  intros Hk Hkn. unfold fftWindPropRet.coefficient.
  rewrite length_map, ascending_map.
  set (n := length xs) in *.
  set (l := fftWindPropRet.ascending azm xs).
  assert (Hl : length l = n) by apply length_ascending.
  set (step := fftWindPropRet.spacing azm).
  destruct (Req_dec step 0) as [E0 | Hstep].
  { rewrite E0. f_equal; [ | f_equal]; ring. }
  assert (HK : 1 <= INR k) by (apply le_INR in Hk; simpl in Hk; lra).
  assert (HKN : INR k + 1 <= INR n).
  { apply le_INR in Hkn. rewrite plus_INR in Hkn. simpl in Hkn. lra. }
  assert (HN : 0 < INR n) by lra.
  pose proof PI_RGT_0 as Hpi.
  set (d := 2 * PI * INR k / INR n).
  set (beta := 2 * PI * (INR k / (INR n * step))
               * (fftWindPropRet.lag azm - INR (n / 2) * step)).
  assert (Hturn : INR n * d = 2 * INR k * PI) by (unfold d; field; lra).
  assert (Hhalf : 0 < d / 2 < PI).
  { unfold d. split.
    - apply Rdiv_lt_0_compat; [ | lra].
      apply Rdiv_lt_0_compat; [ | lra].
      apply Rmult_lt_0_compat; lra.
    - apply Rmult_lt_reg_r with (INR n); [lra | ].
      replace (2 * PI * INR k / INR n / 2 * INR n) with (INR k * PI)
        by (field; lra).
      nra. }
  assert (Ha : forall m : nat,
             2 * PI * (IZR (Z.of_nat k) / (INR n * step))
             * (fftWindPropRet.lag azm + (INR m - INR (n / 2)) * step)
             = INR m * d + beta).
  { intros m. rewrite <- INR_IZR_INZ. unfold d, beta. field. lra. }
  rewrite !mapi_map.
  f_equal; [ | f_equal]; f_equal.
  - rewrite (mapi_ext _
      (fun m x =>
         x * cos (2 * PI * (IZR (Z.of_nat k) / (INR n * step))
                  * (fftWindPropRet.lag azm + (INR m - INR (n / 2)) * step))
         + C * cos (INR m * d + beta)) l).
    + rewrite sum_mapi_plus,
        (mapi_of_index (fun m => C * cos (INR m * d + beta))), Hl.
      rewrite <- (map_map (fun m => cos (INR m * d + beta)) (Rmult C)).
      rewrite sum_map_mult, (@cos_sum_zero _ _ _ _ Hturn Hhalf). ring.
    + intros m x _. rewrite Ha. ring.
  - rewrite (mapi_ext _
      (fun m x =>
         x * sin (2 * PI * (IZR (Z.of_nat k) / (INR n * step))
                  * (fftWindPropRet.lag azm + (INR m - INR (n / 2)) * step))
         + C * sin (INR m * d + beta)) l).
    + rewrite sum_mapi_plus,
        (mapi_of_index (fun m => C * sin (INR m * d + beta))), Hl.
      rewrite <- (map_map (fun m => sin (INR m * d + beta)) (Rmult C)).
      rewrite sum_map_mult, (@sin_sum_zero _ _ _ _ Hturn Hhalf). ring.
    + intros m x _. rewrite Ha. ring.
Qed.

Lemma selected_frequency_from_5 (n : nat) :
  (5 <= n)%nat ->
  exists k : nat,
    Spec.selected_frequency n = Z.of_nat k /\ (1 <= k)%nat /\ (k + 2 <= n)%nat.
Proof.
  intros H. exists (n - 2 - n / 2)%nat.
  unfold Spec.selected_frequency, fftWindPropRet.freq_index.
  pose proof (Nat.div_mod_eq n 2) as E.
  pose proof (Nat.mod_upper_bound n 2) as B.
  split; [ | split]; lia.
Qed.

Lemma all_defined_lift1 (f : R -> R) (c : list (option R)) :
  Spec.all_defined (map (np.lift1 f) c) = Spec.all_defined c.
Proof.
  unfold Spec.all_defined.
  induction c as [ | [x | ] c IH]; simpl; [reflexivity | exact IH | reflexivity].
Qed.

(** The coefficient picked in a cell does not see a constant added to its
    samples. *)
Lemma selected_offset (azm : list R) (c : list (option R)) (C : R) :
  (5 <= length c)%nat ->
  nth (length c - 2)
      (fftWindPropRet.xrft_fft azm (map (np.lift1 (fun x => x + C)) c)) None
  = nth (length c - 2) (fftWindPropRet.xrft_fft azm c) None.
Proof.
  intros Hn.
  destruct (Spec.all_defined c) eqn:Hdef.
  - destruct (all_defined_map_Some _ Hdef) as [xs ->].
    rewrite length_map in *. rewrite map_map. cbn [np.lift1].
    rewrite <- (map_map (fun x => x + C) Some).
    rewrite selected_coefficient by lia.
    rewrite <- (length_map (fun x => x + C) xs) at 1.
    rewrite selected_coefficient by (rewrite length_map; lia).
    rewrite length_map.
    destruct (selected_frequency_from_5 Hn) as (k & -> & Hk & Hkn).
    rewrite coefficient_offset by lia. reflexivity.
  - unfold fftWindPropRet.xrft_fft.
    rewrite (all_present_undefined _ Hdef).
    rewrite all_present_undefined by (now rewrite all_defined_lift1).
    now rewrite !nth_all_None.
Qed.

(** X20: in a scan of five azimuths or more, with one sample per azimuth in
    every cell, adding the same constant to every radial velocity changes
    none of the four products: a velocity common to all the beams, such as
    the contribution of the vertical wind, is not seen. *)
Theorem common_velocity_not_seen (obs : fftWindPropRet.DopplerObs) (C : R) :
  (5 <= length (fftWindPropRet.azm obs))%nat ->
  Notions.full_cells obs ->
  fftWindPropRet.windProp (Notions.offset C obs)
  = fftWindPropRet.windProp obs.
Proof.
  intros Hn Hfull.
  assert (Hamp : fftWindPropRet.getCompAmp (Notions.offset C obs)
                 = fftWindPropRet.getCompAmp obs).
  { unfold fftWindPropRet.getCompAmp, Notions.offset.
    cbn [fftWindPropRet.azm fftWindPropRet.values].
    destruct (fftWindPropRet.xrft_check (fftWindPropRet.azm obs))
      as [checked | e]; cbn [bind]; [ | reflexivity].
    rewrite isel_last_but_one by lia. cbn [bind].
    f_equal. rewrite map_map.
    apply map_ext_in. intros row Hrow.
    rewrite map_map. apply map_ext_in. intros c Hc.
    assert (Hlen : length c = length (fftWindPropRet.azm obs)).
    { unfold Notions.full_cells in Hfull. rewrite Forall_forall in Hfull.
      specialize (Hfull _ Hrow). rewrite Forall_forall in Hfull.
      now apply Hfull. }
    rewrite <- Hlen. apply selected_offset. lia. }
  unfold fftWindPropRet.windProp. rewrite Hamp.
  destruct (fftWindPropRet.getCompAmp obs) as [compAmp | e]; reflexivity.
Qed.

(** ** A change of scale and of origin of the velocities *)

Lemma nearest_map {A B : Type} (F : A -> B) (later : bool) (t : Z)
  (src : list (Z * A)) :
  xr.nearest later t (map (fun p => (fst p, F (snd p))) src)
  = option_map (fun p => (fst p, F (snd p))) (xr.nearest later t src).
Proof.
  induction src as [ | [ti v] src IH]; [reflexivity | ].
  cbn [map fst snd xr.nearest]. rewrite IH.
  destruct (xr.nearest later t src) as [[tj w] | ]; cbn; [ | reflexivity].
  now destruct (xr.closer later t ti tj).
Qed.

Lemma out_of_bounds_map {A B : Type} (F : A -> B) (t : Z)
  (src : list (Z * A)) :
  xr.out_of_bounds t (map (fun p => (fst p, F (snd p))) src)
  = xr.out_of_bounds t src.
Proof.
  unfold xr.out_of_bounds.
  induction src as [ | [ti v] src IH]; [reflexivity | ].
  cbn [map forallb fst snd].
  apply orb_prop in IH || idtac.
  assert (H1 : forallb (fun p : Z * B => (t <? fst p)%Z)
                 (map (fun p => (fst p, F (snd p))) src)
               = forallb (fun p : Z * A => (t <? fst p)%Z) src).
  { clear. induction src as [ | [tj w] src IH]; [reflexivity | ].
    cbn. now rewrite IH. }
  assert (H2 : forallb (fun p : Z * B => (fst p <? t)%Z)
                 (map (fun p => (fst p, F (snd p))) src)
               = forallb (fun p : Z * A => (fst p <? t)%Z) src).
  { clear. induction src as [ | [tj w] src IH]; [reflexivity | ].
    cbn. now rewrite IH. }
  now rewrite H1, H2.
Qed.

Lemma combine_map_r {A B C : Type} (F : B -> C) (a : list A) (b : list B) :
  combine a (map F b) = map (fun p => (fst p, F (snd p))) (combine a b).
Proof.
  revert b. induction a as [ | x a IH]; intros [ | y b]; cbn;
    try reflexivity.
  now rewrite IH.
Qed.

(** The interpolation moves whole profiles: it commutes with an operation
    on the samples that keeps NaN. *)
Lemma interp_nearest_map (f : option R -> option R) (times target : list Z)
  (vals : list (list (list (option R)))) :
  f None = None ->
  xr.interp_nearest (combine times (map (map (map f)) vals)) target
  = map (map (map f)) (xr.interp_nearest (combine times vals) target).
Proof.
  intros Hf. unfold xr.interp_nearest.
  rewrite combine_map_r, map_map. apply map_ext. intros t.
  rewrite nearest_map, out_of_bounds_map.
  destruct (xr.nearest false t (combine times vals)) as [[ti v] | ];
    cbn; [ | reflexivity].
  destruct (xr.out_of_bounds t (combine times vals)); [ | reflexivity].
  rewrite !map_map. apply map_ext. intros row.
  rewrite !map_map. apply map_ext. intros x. now rewrite Hf.
Qed.

Lemma same_shape_map (f g : option R -> option R)
  (a : list (list (list (option R)))) (b : list (list (option R))) :
  SixBeamMethod.same_shape (map (map (map f)) a) (map (map g) b)
  = SixBeamMethod.same_shape a b.
Proof.
  unfold SixBeamMethod.same_shape. rewrite !length_map. f_equal.
  revert b. induction a as [ | x a IH]; intros [ | y b]; cbn;
    try reflexivity.
  now rewrite !length_map, IH.
Qed.

Lemma nansum_strict_scale (k : R) (row : list R) (v : list (option R)) :
  np.nansum_strict
    (map (fun '(a, x) => np.lift1 (Rmult a) x)
         (combine row (map (np.lift1 (Rmult k)) v)))
  = np.lift1 (Rmult k)
      (np.nansum_strict
         (map (fun '(a, x) => np.lift1 (Rmult a) x) (combine row v))).
Proof.
  unfold np.nansum_strict.
  revert v. induction row as [ | a row IH]; intros [ | x v]; cbn.
  - f_equal. ring.
  - f_equal. ring.
  - f_equal. ring.
  - rewrite IH.
    destruct x as [x | ]; cbn; [ | reflexivity].
    destruct (fold_right _ _ _) as [s | ]; cbn; [ | reflexivity].
    f_equal. ring.
Qed.

Lemma matvec_scale (k : R) (M : np.matrix) (v : list (option R)) :
  np.matvec M (map (np.lift1 (Rmult k)) v)
  = map (np.lift1 (Rmult k)) (np.matvec M v).
Proof.
  unfold np.matvec. rewrite map_map. apply map_ext. intros row.
  apply nansum_strict_scale.
Qed.

Lemma get_s_matrix_scale (k : R) (rv : SixBeamMethod.radial_variances_t) :
  let g := np.lift1 (Rmult k) in
  SixBeamMethod.get_s_matrix
    {| SixBeamMethod.rVariance :=
         map (map (map g)) (SixBeamMethod.rVariance rv);
       SixBeamMethod.rVariance90 :=
         map (map g) (SixBeamMethod.rVariance90 rv) |}
  = match SixBeamMethod.get_s_matrix rv with
    | Ok s_matrix => Ok (map (map (map g)) s_matrix)
    | Raise e => Raise e
    end.
Proof.
  intros g. unfold SixBeamMethod.get_s_matrix.
  cbn [SixBeamMethod.rVariance SixBeamMethod.rVariance90].
  rewrite same_shape_map.
  destruct (SixBeamMethod.same_shape _ _); [ | reflexivity].
  f_equal.
  generalize (SixBeamMethod.rVariance90 rv).
  induction (SixBeamMethod.rVariance rv) as [ | plane a IH];
    intros [ | row90 b]; cbn; try reflexivity.
  rewrite IH. f_equal.
  clear. revert row90.
  induction plane as [ | s plane IH]; intros [ | s90 row90]; cbn;
    try reflexivity.
  rewrite IH. f_equal. now rewrite map_app.
Qed.

Lemma component_scale (k : R) (sigma : list (list (list (option R))))
  (i : nat) :
  SixBeamMethod.component (map (map (map (np.lift1 (Rmult k)))) sigma) i
  = map (map (np.lift1 (Rmult k))) (SixBeamMethod.component sigma i).
Proof.
  unfold SixBeamMethod.component. rewrite !map_map. apply map_ext.
  intros row. rewrite !map_map. apply map_ext. intros cell.
  change (@None R) with (np.lift1 (Rmult k) None) at 1.
  apply map_nth.
Qed.

Lemma calc_variances_rescale (c b b90 : R)
  (d : SixBeamMethod.GetRestructuredData) (freq freq90 : Z) :
  let g := np.lift1 (Rmult (c ^ 2)) in
  SixBeamMethod.calc_variances (Notions.rescale c b b90 d) freq freq90
  = match SixBeamMethod.calc_variances d freq freq90 with
    | Ok rv =>
        Ok {| SixBeamMethod.rVariance :=
                map (map (map g)) (SixBeamMethod.rVariance rv);
              SixBeamMethod.rVariance90 :=
                map (map g) (SixBeamMethod.rVariance90 rv) |}
    | Raise e => Raise e
    end.
Proof.
  intros g. unfold SixBeamMethod.calc_variances, Notions.rescale.
  cbn [SixBeamMethod.data_transf SixBeamMethod.data_transf_90
       SixBeamMethod.time SixBeamMethod.values SixBeamMethod.time90
       SixBeamMethod.values90].
  rewrite interp_nearest_map by reflexivity.
  assert (E90 : map (map (np.lift1 (Rmult (-1))))
                  (map (map (np.lift1 (fun x => c * x + b90)))
                       (SixBeamMethod.values90
                          (SixBeamMethod.data_transf_90 d)))
                = map (map (np.lift1 (fun x => c * x + - b90)))
                      (map (map (np.lift1 (Rmult (-1))))
                           (SixBeamMethod.values90
                              (SixBeamMethod.data_transf_90 d)))).
  { rewrite !map_map. apply map_ext. intros row.
    rewrite !map_map. apply map_ext. intros [x | ]; cbn; [ | reflexivity].
    f_equal. ring. }
  rewrite E90.
  unfold SixBeamMethod.get_variance, SixBeamMethod.get_variance90.
  destruct (xr.rolling_check freq _) as [[] | e]; cbn; [ | reflexivity].
  destruct (xr.rolling_check freq90 _) as [[] | e]; cbn; [ | reflexivity].
  now rewrite rolling_var3_scale_shift, rolling_var2_scale_shift.
Qed.

(** X21: a change of origin of the radial velocities, the same on the five
    slanted beams, is not seen, and a change of scale by a factor c
    multiplies the six components by c^2: on the observations c x + b of the
    slanted beams and c x + b90 of the vertical one the constructor raises
    what it raises on x, and returns the dataset it returns on x with its
    six components multiplied by c^2. *)
Theorem rescaled_observations (c b b90 : R)
  (d : SixBeamMethod.GetRestructuredData) (freq freq90 : Z) :
  SixBeamMethod.init
    (SixBeamMethod.Restructured (Notions.rescale c b b90 d)) freq freq90
  = match SixBeamMethod.init (SixBeamMethod.Restructured d) freq freq90 with
    | Ok ds => Ok (Notions.scale_components (c ^ 2) ds)
    | Raise e => Raise e
    end.
Proof.
  unfold SixBeamMethod.init.
  rewrite calc_variances_rescale.
  cbn [Notions.rescale SixBeamMethod.data_transf SixBeamMethod.data_transf_90
       SixBeamMethod.elv SixBeamMethod.azm SixBeamMethod.time90].
  destruct (SixBeamMethod.get_m_matrix _ _) as [M | e]; cbn [bind];
    [ | reflexivity].
  destruct (SixBeamMethod.get_m_matrix_inv M) as [Minv | e]; cbn [bind];
    [ | reflexivity].
  destruct (SixBeamMethod.calc_variances d freq freq90) as [rv | e];
    cbn [bind]; [ | reflexivity].
  rewrite get_s_matrix_scale.
  destruct (SixBeamMethod.get_s_matrix rv) as [S | e]; cbn [bind];
    [ | reflexivity].
  f_equal.
  unfold SixBeamMethod.get_variance_ds, Notions.scale_components.
  cbn [SixBeamMethod.ds_time SixBeamMethod.var_u SixBeamMethod.var_v
       SixBeamMethod.var_w SixBeamMethod.var_uv SixBeamMethod.var_uw
       SixBeamMethod.var_vw].
  assert (Hsigma : SixBeamMethod.get_sigma Minv
                     (map (map (map (np.lift1 (Rmult (c ^ 2))))) S)
                   = map (map (map (np.lift1 (Rmult (c ^ 2)))))
                         (SixBeamMethod.get_sigma Minv S)).
  { unfold SixBeamMethod.get_sigma. rewrite !map_map. apply map_ext.
    intros row. rewrite !map_map. apply map_ext. intros cell.
    apply matvec_scale. }
  rewrite Hsigma, !component_scale. reflexivity.
Qed.

(** ** The continuous policy, beam by beam *)

Lemma nearest_empty {A : Type} (later : bool) (t : Z) (src : list (Z * A)) :
  xr.nearest later t src = None -> src = [].
Proof.
  destruct src as [ | [ti v] rest]; [reflexivity | ].
  cbn. destruct (xr.nearest later t rest) as [[tj w] | ]; [ | discriminate].
  destruct (xr.closer later t ti tj); discriminate.
Qed.

(** The label found by a nearest lookup is one of the source, and no label
    of the source is nearer. *)
Lemma nearest_minimal {A : Type} (later : bool) (t : Z) (src : list (Z * A))
  (tj : Z) (v : A) :
  xr.nearest later t src = Some (tj, v) ->
  In (tj, v) src
  /\ forall tk w, In (tk, w) src -> (Z.abs (t - tj) <= Z.abs (t - tk))%Z.
Proof.
  revert tj v. induction src as [ | [ti x] rest IH]; intros tj v;
    [discriminate | ].
  cbn [xr.nearest].
  destruct (xr.nearest later t rest) as [[tr w] | ] eqn:E.
  - destruct (IH tr w eq_refl) as [Hin Hmin].
    destruct (xr.closer later t ti tr) eqn:C; intros [= <- <-].
    + split; [now left | ].
      intros tk y [[= <- <-] | Hk]; [lia | ].
      specialize (Hmin tk y Hk).
      unfold xr.closer in C. cbn zeta in C.
      apply orb_true_iff in C. destruct C as [C | C].
      * apply Z.ltb_lt in C. lia.
      * apply andb_true_iff in C. destruct C as [C _].
        apply Z.eqb_eq in C. lia.
    + split; [now right | ].
      intros tk y [[= <- <-] | Hk]; [ | now apply (Hmin tk y)].
      unfold xr.closer in C. cbn zeta in C.
      apply orb_false_iff in C. destruct C as [C _].
      apply Z.ltb_ge in C. exact C.
  - apply nearest_empty in E. subst rest.
    intros [= <- <-]. split; [now left | ].
    intros tk y [[= <- <-] | []]. lia.
Qed.

Lemma lookup_reindex (gates : nat) (tol : Z)
  (a : getWindProperties5Beam.DataArray (list (option R)))
  (target : list Z) (t : Z) :
  In t target ->
  getWindProperties5Beam.lookup t
    (getWindProperties5Beam.reindex_nearest gates tol a target)
  = Some match xr.nearest true t a with
         | Some (tj, v) =>
             if (Z.abs (t - tj) <=? tol)%Z then v else repeat None gates
         | None => repeat None gates
         end.
Proof.
  unfold getWindProperties5Beam.reindex_nearest.
  induction target as [ | t0 rest IH]; intros Hin; [contradiction | ].
  cbn [map getWindProperties5Beam.lookup].
  destruct (Z.eqb t0 t) eqn:E.
  - apply Z.eqb_eq in E. subst t0. reflexivity.
  - apply Z.eqb_neq in E. destruct Hin as [Hin | Hin]; [contradiction | ].
    now apply IH.
Qed.

Lemma lookup_positions {A : Type} (times : list Z) (f : nat -> A)
  (idx : list nat) (i : nat) :
  NoDup times ->
  Forall (fun k => (k < length times)%nat) idx ->
  In i idx ->
  getWindProperties5Beam.lookup (nth i times 0%Z)
    (map (fun k => (nth k times 0%Z, f k)) idx)
  = Some (f i).
Proof.
  intros Hn Hidx Hin.
  assert (Hi : (i < length times)%nat).
  { rewrite Forall_forall in Hidx. now apply Hidx. }
  induction idx as [ | k rest IH]; [contradiction | ].
  cbn [map getWindProperties5Beam.lookup].
  inversion Hidx as [ | ? ? Hk Hrest]; subst.
  destruct (Z.eqb (nth k times 0%Z) (nth i times 0%Z)) eqn:E.
  - apply Z.eqb_eq in E.
    assert (k = i) by (apply (proj1 (NoDup_nth times 0%Z) Hn); assumption).
    now subst k.
  - apply Z.eqb_neq in E. destruct Hin as [-> | Hin]; [contradiction | ].
    now apply IH.
Qed.

(** X22: under the continuous policy the meridional component at the time
    of a northern beam is minus the difference between the contribution of
    that beam and the one of a southern beam nearest to it in time, when
    this one is not further than the tolerance; when every southern beam is
    further than the tolerance, or there is none, the component is NaN at
    every gate. *)
Theorem southern_beam_within_tolerance
  (d : getWindProperties5Beam.Dataset) (statusFilter : bool)
  (cnr : option R) (tol : Z) (obj : getWindProperties5Beam.t) (i : nat) :
  let run := getWindProperties5Beam.init d statusFilter cnr
               getWindProperties5Beam.continuous tol in
  let T := nth i (getWindProperties5Beam.time d) 0%Z in
  let away := fun j =>
    Z.abs (T - nth j (getWindProperties5Beam.time d) 0%Z) in
  let south := Spec.beam_positions d 180 in
  Spec.well_formed_dbs d ->
  snd run = Ok obj ->
  In i (Spec.beam_positions d 0) ->
  exists s,
    getWindProperties5Beam.lookup T
      (getWindProperties5Beam.comp (getWindProperties5Beam.compV obj))
    = Some (Spec.minus_difference (Spec.contribution (fst run) i) s)
    /\ ((forall j, In j south -> (tol < away j)%Z)
        /\ s = repeat None
                 (getWindProperties5Beam.gates
                    (getWindProperties5Beam.get_beams (fst run) tol))
        \/ exists j,
             In j south
             /\ (away j <= tol)%Z
             /\ (forall k, In k south -> (away j <= away k)%Z)
             /\ s = Spec.contribution (fst run) j).
Proof.
  intros run T away south Hwf Hrun Hi. subst run T away south.
  apply constructor_returns in Hrun. rewrite init_masked. cbn [fst].
  pose proof (masked_dataset_well_formed statusFilter cnr Hwf) as Hwf'.
  destruct (retrieve_continuous _ Hrun) as [HV _].
  rewrite !where_drop_positions in HV by exact Hwf'.
  destruct (masked_dataset_fields d statusFilter cnr) as (Ht & _).
  rewrite !beam_positions_masked, Ht in HV.
  set (m := Spec.masked_dataset d statusFilter cnr) in *.
  set (times := getWindProperties5Beam.time d) in *.
  destruct Hwf as (Hn & _).
  rewrite (lookup_opposite_difference _ _ (nth i times 0%Z) HV).
  rewrite (@lookup_positions _ times (Spec.contribution m)
             (Spec.beam_positions d 0) i Hn (positions_in_range _ _) Hi).
  rewrite lookup_reindex
    by (rewrite map_map; cbn [fst];
        apply (in_map (fun k => nth k times 0%Z)), Hi).
  change (getWindProperties5Beam.tolerance
            (getWindProperties5Beam.get_beams m tol)) with tol.
  eexists. split; [reflexivity | ].
  destruct (xr.nearest true (nth i times 0%Z) _) as [[tj v] | ] eqn:E.
  - destruct (nearest_minimal _ _ _ E) as [Hin Hmin].
    apply in_map_iff in Hin. destruct Hin as (j & [= <- <-] & Hj).
    assert (Hall : forall k,
               In k (Spec.beam_positions d 180) ->
               (Z.abs (nth i times 0 - nth j times 0)
                <= Z.abs (nth i times 0 - nth k times 0))%Z).
    { intros k Hk.
      apply (Hmin (nth k times 0%Z) (Spec.contribution m k)).
      apply in_map_iff. exists k. split; [reflexivity | exact Hk]. }
    destruct (Z.leb_spec (Z.abs (nth i times 0 - nth j times 0))%Z tol)
      as [Hle | Hgt].
    + right. exists j. repeat split; assumption.
    + left. split; [ | reflexivity].
      intros k Hk. specialize (Hall k Hk). lia.
  - left. split; [ | reflexivity].
    apply nearest_empty in E. apply map_eq_nil in E.
    rewrite E. intros j [].
Qed.

(** * The further properties at work on the examples *)

Lemma singular_iff_degenerate_witness :
  exists M,
    SixBeamMethod.get_m_matrix 90 [0; 72; 144; 216; 288] = Ok M
    /\ np.det M = 0.
Proof.
  eexists. split; [apply get_m_matrix_five | ].
  apply (@singular_iff_degenerate 90 [0; 72; 144; 216; 288] _
           (get_m_matrix_five 90 0 72 144 216 288)).
  left. exists 1%Z. ring.
Defined.

Lemma steady_slanted_calc :
  exists rv, SixBeamMethod.calc_variances Examples.steady_slanted 4 4 = Ok rv.
Proof. eexists. compute_data. reflexivity. Qed.

Lemma steady_slanted_variances (rv : SixBeamMethod.radial_variances_t) :
  SixBeamMethod.calc_variances Examples.steady_slanted 4 4 = Ok rv ->
  Spec.at2 (SixBeamMethod.rVariance rv) 1 0
  = Some [Some (xr.var [0; 0; 0]); Some (xr.var [0; 0; 0]);
          Some (xr.var [0; 0; 0]); Some (xr.var [0; 0; 0]);
          Some (xr.var [0; 0; 0])]
  /\ Spec.at2 (SixBeamMethod.rVariance90 rv) 1 0
     = Some (Some (xr.var [-1 * 0; -1 * 1; -1 * 0])).
Proof.
  intros H. destruct (calc_variances_ok _ _ _ H) as [E E90].
  rewrite E, E90. split; compute_data; reflexivity.
Qed.

Lemma components_nan_together_witness :
  exists ds v,
    SixBeamMethod.init (SixBeamMethod.Restructured Examples.steady_slanted)
      4 4 = Ok ds
    /\ Spec.at2 (SixBeamMethod.var_u ds) 1 0 = Some v
    /\ v <> None.
Proof.
  destruct steady_slanted_retrieval as (ds & Hinit & _).
  destruct (@components_nan_together Examples.steady_slanted 4 4 ds
              steady_slanted_well_formed Hinit) as (rv & Hrv & Hcells).
  destruct (steady_slanted_variances Hrv) as [Hs Hs90].
  destruct (Hcells 1%nat 0%nat _ _ (SixBeamMethod.var_u ds) Hs Hs90
              (or_introl eq_refl)) as (v & Hv & Hiff).
  exists ds, v. split; [exact Hinit | ]. split; [exact Hv | ].
  apply Hiff. reflexivity.
Defined.

Lemma radial_variances_nonnegative_witness :
  exists rv x,
    SixBeamMethod.calc_variances Examples.steady_slanted 4 4 = Ok rv
    /\ Spec.at2 (SixBeamMethod.rVariance90 rv) 1 0 = Some (Some x)
    /\ 0 <= x.
Proof.
  destruct steady_slanted_calc as [rv Hrv].
  destruct (steady_slanted_variances Hrv) as [_ Hs90].
  exists rv. eexists. split; [exact Hrv | ]. split; [exact Hs90 | ].
  destruct (@radial_variances_nonnegative Examples.steady_slanted 4 4 rv Hrv)
    as [_ H].
  exact (H 1%nat 0%nat _ Hs90).
Defined.

Lemma example_times_distinct : NoDup [0; 1; 2; 3]%Z.
Proof.
  repeat constructor; simpl; intros H;
    repeat (destruct H as [H | H]; [discriminate | ]); exact H.
Qed.

Lemma variances_on_common_times_witness :
  exists rv,
    SixBeamMethod.calc_variances Examples.steady_slanted 4 4 = Ok rv
    /\ SixBeamMethod.get_variance
         (SixBeamMethod.values
            (SixBeamMethod.data_transf Examples.steady_slanted)) 4
       = Ok (SixBeamMethod.rVariance rv).
Proof.
  destruct steady_slanted_calc as [rv Hrv].
  exists rv. split; [exact Hrv | ].
  exact (@variances_on_common_times Examples.steady_slanted 4 4 rv
           eq_refl example_times_distinct eq_refl Hrv).
Defined.

Lemma dataset_on_vertical_cells_witness :
  exists ds,
    SixBeamMethod.init (SixBeamMethod.Restructured Examples.steady_slanted)
      4 4 = Ok ds
    /\ SixBeamMethod.ds_time ds = [0; 1; 2; 3]%Z.
Proof.
  destruct steady_slanted_retrieval as (ds & Hinit & _).
  exists ds. split; [exact Hinit | ].
  destruct (@dataset_on_vertical_cells Examples.steady_slanted 4 4 ds Hinit)
    as [H _].
  exact H.
Defined.

Lemma five_azimuths_returns :
  exists wp, fftWindPropRet.windProp Examples.five_azimuths = Ok wp.
Proof.
  destruct (@windProp_cell Examples.five_azimuths) as (wp & Hwp & _).
  - change (fftWindPropRet.xrft_check (Spec.equally_spaced 5) = Ok tt).
    rewrite <- equally_spaced_from_0. apply xrft_check_scan. lia.
  - now exists wp.
Qed.

Lemma five_azimuths_products (wp : fftWindPropRet.windProp_t) :
  fftWindPropRet.windProp Examples.five_azimuths = Ok wp ->
  exists s dd,
    Spec.at2 (fftWindPropRet.horizontal_wind_speed wp) 0 0 = Some (Some s)
    /\ Spec.at2 (fftWindPropRet.horizontal_wind_direction wp) 0 0
       = Some (Some dd).
Proof.
  intros Hwp.
  assert (Hc : Spec.at2 (fftWindPropRet.values Examples.five_azimuths) 0 0
               = Some (Spec.first_harmonic 10 30 1 (Spec.equally_spaced 5)))
    by reflexivity.
  pose proof (@windProp_products _ _ _ _ _ Hwp Hc) as H. cbv zeta in H.
  unfold Spec.first_harmonic in H.
  rewrite <- (map_map (fun theta => 10 * cos (np.deg2rad (theta - 30)) + 1)
                      Some) in H.
  set (xs := map (fun theta => 10 * cos (np.deg2rad (theta - 30)) + 1)
                 (Spec.equally_spaced 5)) in H.
  assert (Hxs : length xs = 5%nat)
    by (unfold xs; now rewrite length_map, length_equally_spaced).
  assert (Hz : nth (length (fftWindPropRet.azm Examples.five_azimuths) - 2)
                   (fftWindPropRet.xrft_fft
                      (fftWindPropRet.azm Examples.five_azimuths)
                      (map Some xs)) None
               = Some (fftWindPropRet.coefficient
                         (fftWindPropRet.azm Examples.five_azimuths) xs
                         (Spec.selected_frequency (length xs)))).
  { rewrite <- selected_coefficient by lia. reflexivity. }
  rewrite Hz in H.
  destruct H as (H1 & H2 & _).
  eexists. eexists. split; [exact H1 | exact H2].
Qed.

Lemma nan_sample_blanks_cell_witness :
  exists wp s dd u v,
    fftWindPropRet.windProp Examples.five_azimuths = Ok wp
    /\ Spec.at2 (fftWindPropRet.horizontal_wind_speed wp) 0 0 = Some (Some s)
    /\ Spec.at2 (fftWindPropRet.horizontal_wind_direction wp) 0 0
       = Some (Some dd)
    /\ Spec.at2 (fftWindPropRet.zonal_wind wp) 0 0 = Some (Some u)
    /\ Spec.at2 (fftWindPropRet.meridional_wind wp) 0 0 = Some (Some v).
Proof.
  destruct five_azimuths_returns as [wp Hwp].
  destruct (@nan_sample_blanks_cell Examples.five_azimuths wp 0 0
              (Spec.first_harmonic 10 30 1 (Spec.equally_spaced 5))
              Hwp eq_refl eq_refl) as [H _].
  destruct (H eq_refl) as (s & dd & u & v & H1 & H2 & H3 & H4).
  exists wp, s, dd, u, v.
  split; [exact Hwp | ]. split; [exact H1 | ]. split; [exact H2 | ].
  split; [exact H3 | exact H4].
Defined.

Lemma components_of_speed_and_direction_witness :
  exists wp s dd,
    fftWindPropRet.windProp Examples.five_azimuths = Ok wp
    /\ Spec.at2 (fftWindPropRet.zonal_wind wp) 0 0
       = Some (Some (s * sin (np.deg2rad dd)))
    /\ Spec.at2 (fftWindPropRet.meridional_wind wp) 0 0
       = Some (Some (s * cos (np.deg2rad dd))).
Proof.
  destruct five_azimuths_returns as [wp Hwp].
  destruct (five_azimuths_products Hwp) as (s & dd & Hs & Hd).
  destruct (@components_of_speed_and_direction Examples.five_azimuths wp 0 0
              s dd Hwp Hs Hd) as (u & v & Hu & Hv & Eu & Ev & _).
  exists wp, s, dd. split; [exact Hwp | ].
  rewrite <- Eu, <- Ev. split; [exact Hu | exact Hv].
Defined.

Lemma direction_and_speed_ranges_witness :
  exists wp dd,
    fftWindPropRet.windProp Examples.five_azimuths = Ok wp
    /\ Spec.at2 (fftWindPropRet.horizontal_wind_direction wp) 0 0
       = Some (Some dd)
    /\ 0 <= dd <= 360.
Proof.
  destruct five_azimuths_returns as [wp Hwp].
  destruct (five_azimuths_products Hwp) as (s & dd & Hs & Hd).
  exists wp, dd. split; [exact Hwp | ]. split; [exact Hd | ].
  destruct (@direction_and_speed_ranges Examples.five_azimuths wp 0 0 Hwp)
    as [H _].
  exact (H dd Hd).
Defined.

Lemma seven_azimuths_or_more_witness :
  (2 <= Spec.selected_frequency 7)%Z
  /\ exists wp,
      fftWindPropRet.windProp Notions.seven_azimuths = Ok wp
      /\ Spec.at2 (fftWindPropRet.horizontal_wind_speed wp) 0 0
         = Some (Some 0).
Proof.
  apply (@seven_azimuths_or_more Notions.seven_azimuths 7 10 30 1 0 0).
  - lia.
  - reflexivity.
  - reflexivity.
Defined.


Lemma slanted_only_well_formed : Spec.well_formed_dbs Notions.slanted_only.
Proof.
  repeat split; try reflexivity.
  repeat constructor. simpl. tauto.
Qed.

Lemma slanted_only_no_vertical :
  Notions.vertical_positions Notions.slanted_only = [].
Proof.
  unfold Notions.vertical_positions.
  rewrite filter_by_flags.
  unfold Notions.slanted_only.
  cbn [length seq map nth getWindProperties5Beam.time
       getWindProperties5Beam.elevation].
  round_numbers. reflexivity.
Qed.

Lemma out_of_order_well_formed : Spec.well_formed_dbs Notions.out_of_order.
Proof.
  repeat split; try reflexivity.
  repeat constructor; simpl; intros H;
    repeat (destruct H as [H | H]; [discriminate | ]); exact H.
Qed.

Lemma out_of_order_slanted :
  Notions.slanted_positions Notions.out_of_order <> [].
Proof.
  assert (H : In 1%nat (Notions.slanted_positions Notions.out_of_order)).
  { unfold Notions.slanted_positions. apply filter_In. split.
    - simpl. auto.
    - unfold Spec.slanted. simpl nth. round_numbers. reflexivity. }
  intros E. rewrite E in H. exact H.
Qed.

Lemma vertical_profile_required_witness :
  snd (getWindProperties5Beam.init Notions.slanted_only true None
         getWindProperties5Beam.single_dbs 8) = Raise IndexError
  /\ snd (getWindProperties5Beam.init Notions.out_of_order true None
            getWindProperties5Beam.single_dbs 8) = Raise ValueError.
Proof.
  split.
  - destruct (@vertical_profile_required Notions.slanted_only true None 8
                slanted_only_well_formed) as [H _].
    exact (H eq_refl slanted_only_no_vertical
             getWindProperties5Beam.single_dbs).
  - destruct (@vertical_profile_required Notions.out_of_order true None 8
                out_of_order_well_formed) as (_ & _ & H).
    exact (H eq_refl out_of_order_slanted
             getWindProperties5Beam.single_dbs).
Defined.

Lemma heights_of_first_vertical_profile_witness :
  exists obj i0 rest,
    snd (getWindProperties5Beam.init Examples.dbs_scan true None
           getWindProperties5Beam.single_dbs 8) = Ok obj
    /\ Notions.vertical_positions Examples.dbs_scan = i0 :: rest
    /\ getWindProperties5Beam.range (getWindProperties5Beam.compV obj)
       = nth i0 (getWindProperties5Beam.measurement_height Examples.dbs_scan)
             [].
Proof.
  destruct (dbs_scan_returns true None 8) as [obj Hobj].
  destruct (@heights_of_first_vertical_profile Examples.dbs_scan true None
              getWindProperties5Beam.single_dbs 8 obj
              dbs_scan_well_formed Hobj) as (i0 & rest & Hv & _ & HF).
  exists obj, i0, rest. split; [exact Hobj | ]. split; [exact Hv | ].
  inversion HF as [ | ? ? _ HF1]. inversion HF1 as [ | ? ? HcompV _].
  exact HcompV.
Defined.

(** The scan without masks: the meridional and the zonal component at the
    mean time of the scan. *)
Lemma dbs_scan_components :
  exists obj vrow urow v u,
    getWindProperties5Beam.retrieve
      (getWindProperties5Beam.get_beams
         (Spec.masked_dataset Examples.dbs_scan false None) 8)
      getWindProperties5Beam.single_dbs = Ok obj
    /\ getWindProperties5Beam.lookup 2
         (getWindProperties5Beam.comp (getWindProperties5Beam.compV obj))
       = Some vrow
    /\ getWindProperties5Beam.lookup 2
         (getWindProperties5Beam.comp (getWindProperties5Beam.compU obj))
       = Some urow
    /\ nth_error vrow 0 = Some (Some v)
    /\ nth_error urow 0 = Some (Some u).
Proof.
  destruct (dbs_scan_returns false None 8) as [obj Hobj].
  apply constructor_returns in Hobj.
  destruct (retrieve_single_dbs _ Hobj) as [HV HU].
  rewrite !beam_group_positions in HV, HU
    by apply masked_dataset_well_formed, dbs_scan_well_formed.
  exists obj. eexists. eexists. eexists. eexists.
  split; [exact Hobj | ].
  split.
  { rewrite (lookup_opposite_difference _ _ 2 HV).
    unfold Spec.group. rewrite !beam_positions_masked.
    destruct dbs_scan_positions as (-> & _ & -> & _).
    compute_dbs. reflexivity. }
  split.
  { rewrite (lookup_opposite_difference _ _ 2 HU).
    unfold Spec.group. rewrite !beam_positions_masked.
    destruct dbs_scan_positions as (_ & -> & _ & ->).
    compute_dbs. reflexivity. }
  split; reflexivity.
Qed.

Lemma speed_and_direction_of_components_witness :
  exists obj srow s,
    getWindProperties5Beam.retrieve
      (getWindProperties5Beam.get_beams
         (Spec.masked_dataset Examples.dbs_scan false None) 8)
      getWindProperties5Beam.single_dbs = Ok obj
    /\ getWindProperties5Beam.lookup 2
         (getWindProperties5Beam.comp (getWindProperties5Beam.horWindSpeed obj))
       = Some srow
    /\ nth_error srow 0 = Some (Some s)
    /\ 0 <= s.
Proof.
  destruct dbs_scan_components
    as (obj & vrow & urow & v & u & Hobj & HV & HU & Hv & Hu).
  destruct (@speed_and_direction_of_components _ _ obj 2 vrow urow 0 v u
              Hobj HV HU Hv Hu)
    as (srow & drow & s & dd & H1 & _ & H3 & _ & _ & H6 & _).
  exists obj, srow, s.
  split; [exact Hobj | ]. split; [exact H1 | ]. split; [exact H3 | exact H6].
Defined.

Lemma dbs_scan_vertical : Notions.vertical_positions Examples.dbs_scan <> [].
Proof.
  assert (H : In 0%nat (Notions.vertical_positions Examples.dbs_scan)).
  { unfold Notions.vertical_positions. apply filter_In. split.
    - simpl. auto.
    - simpl nth. apply Req_bool_true.
      apply round1_exact with (z := 900%Z). lra. }
  intros E. rewrite E in H. exact H.
Qed.

(** Components on the same labels have a speed and a direction. *)
Lemma speed_and_direction_same_labels
  (V U : getWindProperties5Beam.WindComp) :
  map fst (getWindProperties5Beam.comp V)
  = map fst (getWindProperties5Beam.comp U) ->
  (exists s, getWindProperties5Beam.calcHorWindSpeed V U = Ok s)
  /\ (exists x, getWindProperties5Beam.calcHorWindDir V U = Ok x).
Proof.
  intros E.
  unfold getWindProperties5Beam.calcHorWindSpeed,
    getWindProperties5Beam.calcHorWindDir.
  rewrite !aligned_same_labels by (rewrite !labels_pointwise; congruence).
  cbn [bind]. split; eexists; reflexivity.
Qed.

(** With a vertical profile the continuous policy returns: it puts the
    beams it combines on the same times first. *)
Lemma retrieve_continuous_returns (d : getWindProperties5Beam.Dataset)
  (tol : Z) :
  Spec.well_formed_dbs d ->
  Notions.vertical_positions d <> [] ->
  exists obj,
    getWindProperties5Beam.retrieve (getWindProperties5Beam.get_beams d tol)
      getWindProperties5Beam.continuous = Ok obj.
Proof.
  intros Hwf Hv.
  destruct (get_beams_vertical tol Hwf) as [Hr _].
  destruct (Notions.vertical_positions d) as [ | i0 rest];
    [contradiction | ].
  unfold getWindProperties5Beam.retrieve,
    getWindProperties5Beam.correctVertWindComp,
    getWindProperties5Beam.calcHorWindComp_continuous,
    getWindProperties5Beam.correctWindComp,
    getWindProperties5Beam.opposite_difference.
  rewrite Hr. cbv zeta.
  rewrite !aligned_same_labels by (now rewrite labels_reindex).
  cbn [bind fst snd map].
  match goal with
  | |- context [getWindProperties5Beam.calcHorWindSpeed ?V ?U] =>
      destruct (@speed_and_direction_same_labels V U) as [[s Hs] [x Hx]]
  end.
  { cbn [getWindProperties5Beam.comp]. now rewrite labels_reindex. }
  rewrite Hs, Hx. cbn [bind]. eexists. reflexivity.
Qed.

Lemma dbs_scan_continuous_returns :
  exists obj,
    snd (getWindProperties5Beam.init Examples.dbs_scan true None
           getWindProperties5Beam.continuous 8) = Ok obj.
Proof.
  rewrite constructor_in_order
    by (first [apply dbs_scan_well_formed | reflexivity]).
  apply retrieve_continuous_returns.
  - apply masked_dataset_well_formed, dbs_scan_well_formed.
  - rewrite vertical_positions_masked. exact dbs_scan_vertical.
Qed.

Lemma continuous_on_northern_times_witness :
  exists obj,
    snd (getWindProperties5Beam.init Examples.dbs_scan true None
           getWindProperties5Beam.continuous 8) = Ok obj
    /\ Forall
         (fun a =>
            map fst a
            = Notions.times_at Examples.dbs_scan
                (Spec.beam_positions Examples.dbs_scan 0))
         (Notions.horizontal_products obj).
Proof.
  destruct dbs_scan_continuous_returns as [obj Hobj].
  exists obj. split; [exact Hobj | ].
  exact (@continuous_on_northern_times Examples.dbs_scan true None 8 obj
           dbs_scan_well_formed Hobj).
Defined.

Lemma north_only_well_formed : Spec.well_formed_dbs Notions.north_only.
Proof.
  repeat split; try reflexivity.
  repeat constructor; simpl; intros H;
    repeat (destruct H as [H | H]; [discriminate | ]); exact H.
Qed.

Lemma north_only_no_southern_beam :
  Spec.beam_positions Notions.north_only 180 = [].
Proof.
  rewrite beam_positions_by_flags.
  unfold Spec.slanted, Spec.nominal_azimuth, Notions.north_only.
  cbn [length seq map nth getWindProperties5Beam.time
       getWindProperties5Beam.elevation getWindProperties5Beam.azimuth].
  round_numbers. reflexivity.
Qed.

Lemma north_only_positions :
  Spec.beam_positions Notions.north_only 0 = [1%nat]
  /\ Spec.beam_positions Notions.north_only 90 = []
  /\ Spec.beam_positions Notions.north_only 270 = [].
Proof.
  rewrite !beam_positions_by_flags.
  unfold Spec.slanted, Spec.nominal_azimuth, Notions.north_only.
  cbn [length seq map nth getWindProperties5Beam.time
       getWindProperties5Beam.elevation getWindProperties5Beam.azimuth].
  round_numbers. repeat split; reflexivity.
Qed.

Lemma north_only_one_beam_per_scan :
  Spec.one_beam_per_scan Notions.north_only.
Proof.
  destruct north_only_positions as (P0 & P90 & P270).
  unfold Spec.one_beam_per_scan.
  repeat (apply Forall_cons; [ | ]); try apply Forall_nil;
    rewrite ?P0, ?P90, ?north_only_no_southern_beam, ?P270;
    repeat constructor; intros [].
Qed.

Lemma north_only_returns :
  exists obj,
    snd (getWindProperties5Beam.init Notions.north_only true None
           getWindProperties5Beam.single_dbs 8) = Ok obj.
Proof.
  rewrite constructor_in_order
    by (first [apply north_only_well_formed | reflexivity]).
  apply retrieve_single_dbs_returns with (i := 0%nat).
  - apply masked_dataset_well_formed, north_only_well_formed.
  - apply one_beam_per_scan_masked, north_only_one_beam_per_scan.
  - destruct (masked_dataset_fields Notions.north_only true None)
      as (Ht & _). rewrite Ht. simpl. lia.
  - destruct (masked_dataset_fields Notions.north_only true None)
      as (_ & He & _). rewrite He. simpl nth.
    apply round1_exact with (z := 900%Z). lra.
Qed.

Lemma missing_beams_give_nothing_witness :
  exists obj,
    snd (getWindProperties5Beam.init Notions.north_only true None
           getWindProperties5Beam.single_dbs 8) = Ok obj
    /\ getWindProperties5Beam.comp (getWindProperties5Beam.compV obj) = [].
Proof.
  destruct north_only_returns as [obj Hobj].
  exists obj. split; [exact Hobj | ].
  destruct (@missing_beams_give_nothing Notions.north_only true None 8 obj
              north_only_well_formed Hobj) as [H _].
  apply H. right. exact north_only_no_southern_beam.
Defined.

Lemma rounding_tolerance_witness :
  In 0%Z
     (map fst
        (getWindProperties5Beam.verWindSpeed90
           (getWindProperties5Beam.get_beams Examples.dbs_scan 8))).
Proof.
  assert (Hi : (0 < length (getWindProperties5Beam.time Examples.dbs_scan))%nat)
    by (simpl; lia).
  destruct (@rounding_tolerance Examples.dbs_scan 8 0 dbs_scan_well_formed Hi)
    as [H _].
  apply H. simpl. lra.
Defined.

Lemma common_velocity_not_seen_witness :
  fftWindPropRet.windProp (Notions.offset 2 Examples.five_azimuths)
  = fftWindPropRet.windProp Examples.five_azimuths.
Proof.
  apply (@common_velocity_not_seen Examples.five_azimuths 2).
  - simpl. lia.
  - unfold Notions.full_cells. simpl.
    constructor; [ | constructor].
    constructor; [reflexivity | constructor].
Defined.

Lemma southern_beam_within_tolerance_witness :
  exists obj s,
    snd (getWindProperties5Beam.init Examples.dbs_scan true None
           getWindProperties5Beam.continuous 8) = Ok obj
    /\ getWindProperties5Beam.lookup 1%Z
         (getWindProperties5Beam.comp (getWindProperties5Beam.compV obj))
       = Some (Spec.minus_difference
                 (Spec.contribution
                    (fst (getWindProperties5Beam.init Examples.dbs_scan true
                            None getWindProperties5Beam.continuous 8)) 1)
                 s).
Proof.
  destruct dbs_scan_continuous_returns as [obj Hobj].
  assert (Hin : In 1%nat (Spec.beam_positions Examples.dbs_scan 0)).
  { destruct dbs_scan_positions as (P0 & _). rewrite P0. now left. }
  destruct (@southern_beam_within_tolerance Examples.dbs_scan true None 8
              obj 1 dbs_scan_well_formed Hobj Hin) as (s & Hs & _).
  exists obj, s. split; [exact Hobj | exact Hs].
Defined.

